(** * videoconverter: the conversion engine of [utils.py] and the batch
      loop of [main.py], embedded in Rocq.

    The development follows the two Python files.

    - Python essentials used by the code: the exception classes that can
      reach its [except] clauses, results that either return or raise,
      [str.lower], [str.strip], [int] on a run of digits, and the one
      regular expression of the program.
    - [utils.py]: [FFmpegHandler.is_ffmpeg_installed],
      [VideoProcessor._get_video_duration], [VideoProcessor.convert_video].
    - [main.py]: the worker [conversion_thread] of
      [VideoConverterApp.start_conversion].
    - [utils.py], the rest: the installers of [FFmpegHandler] with the two
      functions that extend PATH, and [VideoProcessor.detect_format].
    - [main.py], the rest: the handlers of the window.

    Modelling conventions.

    - Text is [string]; a character is a code point below 256.
    - Python integers are [Z].  Python floats are exact rationals [Q]:
      rounding is not modelled, NaN and the infinities are not values.
      The two places where the code converts an unbounded integer into a
      float can raise [OverflowError]; this is modelled with the exact
      threshold of binary64.
    - The outside world (what the subprocesses do, whether the output file
      exists, whether the Tk window is still there) is an explicit,
      read-only environment; the program's own effects ([print], calls of
      the progress callback, [root.after]) are threaded through a state.
    - The stream of the subprocess is a finite list of reads: the modelled
      subprocess terminates.
    - The installers and [detect_format] run on a machine: what its
      commands and file operations answer is read-only, what the program
      changes (commands run, operations started, PATH, the shell profiles)
      is a state.  Paths are POSIX paths, except in the installer for
      Windows.
    - A handler of the window acts on a record of the attributes and
      widgets it touches.  A thread that a handler starts is run at once,
      followed by the call it queues; the calls queued by a conversion
      worker are events of their own. *)

From Stdlib Require Import String Ascii List ZArith QArith Bool Lia Sorted.
Import ListNotations.

Set Implicit Arguments.

(* ================================================================== *)
(** * Python essentials *)
(* ================================================================== *)

Module Py.

(** The exception classes that matter for the [except] clauses of the
    program, with the parent of each one in Python's hierarchy.
    [subprocess.TimeoutExpired] and [subprocess.CalledProcessError] derive
    from [subprocess.SubprocessError]; [_tkinter.TclError] derives from
    [Exception]; [KeyboardInterrupt] does not. *)
Inductive pyclass : Type :=
| BaseException
| Exception
| KeyboardInterrupt
| OSError
| FileNotFoundError
| PermissionError
| SubprocessError
| TimeoutExpired
| CalledProcessError
| ValueError
| UnicodeDecodeError
| ArithmeticError
| OverflowError
| ZeroDivisionError
| RuntimeError
| TclError.

Definition base (c : pyclass) : option pyclass :=
  match c with
  | BaseException => None
  | Exception | KeyboardInterrupt => Some BaseException
  | OSError | SubprocessError | ValueError
  | ArithmeticError | RuntimeError | TclError => Some Exception
  | FileNotFoundError | PermissionError => Some OSError
  | TimeoutExpired | CalledProcessError => Some SubprocessError
  | UnicodeDecodeError => Some ValueError
  | OverflowError | ZeroDivisionError => Some ArithmeticError
  end.

Definition pyclass_eqb (c d : pyclass) : bool :=
  match c, d with
  | BaseException, BaseException | Exception, Exception
  | KeyboardInterrupt, KeyboardInterrupt | OSError, OSError
  | FileNotFoundError, FileNotFoundError
  | PermissionError, PermissionError
  | SubprocessError, SubprocessError | TimeoutExpired, TimeoutExpired
  | CalledProcessError, CalledProcessError | ValueError, ValueError
  | UnicodeDecodeError, UnicodeDecodeError
  | ArithmeticError, ArithmeticError | OverflowError, OverflowError
  | ZeroDivisionError, ZeroDivisionError | RuntimeError, RuntimeError
  | TclError, TclError => true
  | _, _ => false
  end.

(** [issubclass c d]: walk up from [c]; no class is deeper than three. *)
Fixpoint issubclass_fuel (fuel : nat) (c d : pyclass) : bool :=
  pyclass_eqb c d ||
  match fuel, base c with
  | S fuel', Some p => issubclass_fuel fuel' p d
  | _, _ => false
  end.

Definition issubclass (c d : pyclass) : bool := issubclass_fuel 4 c d.

(** A raised exception is identified by its class. *)
Definition exn : Type := pyclass.

(** [except (d1, ..., dn)] handles [e] when [e] is an instance of one of
    the listed classes. *)
Definition handles (ds : list pyclass) (e : exn) : bool :=
  existsb (issubclass e) ds.

(** A call either returns a value or raises. *)
Inductive result (A : Type) : Type :=
| Ret (a : A)
| Raise (e : exn).

Arguments Ret {A} a.
Arguments Raise {A} e.

(** [try: body / except ds: handler] for code without other effects. *)
Definition try_pure (A : Type) (body : result A) (ds : list pyclass)
           (handler : exn -> result A) : result A :=
  match body with
  | Ret a => Ret a
  | Raise e => if handles ds e then handler e else Raise e
  end.

(** ** Strings *)

Definition isdigit (c : ascii) : bool :=
  (Ascii.leb "0" c && Ascii.leb c "9")%char.

Definition isupper_ascii (c : ascii) : bool :=
  (Ascii.leb "A" c && Ascii.leb c "Z")%char.

(** [str.lower] restricted to what can produce the letters the program
    compares with: below code point 256 only ["A".."Z"] map onto ASCII
    letters. *)
Definition lower_char (c : ascii) : ascii :=
  if isupper_ascii c then ascii_of_nat (nat_of_ascii c + 32) else c.

Fixpoint lower (s : string) : string :=
  match s with
  | EmptyString => EmptyString
  | String c s' => String (lower_char c) (lower s')
  end.

(** [str.isspace] on code points below 256: TAB..CR, FS..US, space, NEL
    and the no-break space. *)
Definition isspace (c : ascii) : bool :=
  let n := nat_of_ascii c in
  ((9 <=? n) && (n <=? 13) || (28 <=? n) && (n <=? 32)
   || (n =? 133) || (n =? 160))%nat.

Fixpoint lstrip (s : string) : string :=
  match s with
  | String c s' => if isspace c then lstrip s' else s
  | EmptyString => EmptyString
  end.

Fixpoint rstrip (s : string) : string :=
  match s with
  | EmptyString => EmptyString
  | String c s' =>
      match rstrip s' with
      | EmptyString => if isspace c then EmptyString else String c EmptyString
      | r => String c r
      end
  end.

Definition strip (s : string) : string := rstrip (lstrip s).

(** [int(s)] for [s] a run of decimal digits (what the groups of the
    timestamp pattern are).  The limit that recent Python versions put on
    the number of digits is not modelled. *)
Definition digit_value (c : ascii) : Z := Z.of_nat (nat_of_ascii c) - 48.

Fixpoint int_acc (acc : Z) (s : string) : Z :=
  match s with
  | EmptyString => acc
  | String c s' => int_acc (10 * acc + digit_value c) s'
  end.

Definition int (s : string) : Z := int_acc 0 s.

(** ** Numbers *)

(** Converting an integer to a float raises [OverflowError] when the
    nearest binary64 value would be infinite, which is from
    [2^1024 - 2^970] on. *)
Definition DBL_OVERFLOW : Z := 2 ^ 1024 - 2 ^ 970.

Definition float_of_int (n : Z) : result Q :=
  if (DBL_OVERFLOW <=? Z.abs n)%Z then Raise OverflowError
  else Ret (inject_Z n).

(** [a / b] on two integers, for [0 < b]: true division. *)
Definition int_truediv (a : Z) (b : positive) : result Q :=
  if (DBL_OVERFLOW * Zpos b <=? Z.abs a)%Z then Raise OverflowError
  else Ret (a # b).

(** [x / y] on floats raises [ZeroDivisionError] on a zero divisor. *)
Definition float_truediv (x y : Q) : result Q :=
  if Qeq_bool y 0 then Raise ZeroDivisionError else Ret (x / y).

(** [min(x, y)]: the first argument unless the second is smaller. *)
Definition min (x y : Q) : Q :=
  if negb (Qle_bool x y) then y else x.

(** Truth value of a float or [None]: [None] and zero are false. *)
Definition truthy (d : option Q) : bool :=
  match d with
  | None => false
  | Some q => negb (Qeq_bool q 0)
  end.

End Py.

Import Py.

(* ================================================================== *)
(** * The outside world *)
(* ================================================================== *)

(** What [subprocess.run] does: it raises, or it returns a completed
    process with its exit status and captured standard output. *)
Inductive run_result : Type :=
| RunRaises (e : exn)
| Completed (returncode : Z) (stdout : string).

(** One [process.stderr.readline()]: a line, or an exception (a decoding
    error, a broken pipe).  When the reads are used up the stream is at its
    end and [readline] returns the empty string. *)
Inductive read : Type :=
| Line (line : string)
| ReadRaises (e : exn).

(** Everything outside the program that one call of [convert_video]
    depends on. *)
Record job_env : Type := mkJobEnv {
  popen_raises : option exn;      (* [subprocess.Popen(cmd, ...)] *)
  ffprobe : run_result;           (* the [ffprobe] run of the duration probe *)
  stderr_reads : list read;       (* the diagnostic stream *)
  wait : Z;                       (* [process.wait()] *)
  output_file_size : option N     (* the output file after the wait: [None]
                                     when it does not exist, else its size *)
}.

(** [os.path.exists(output_file)]. *)
Definition path_exists (env : job_env) : bool :=
  match output_file_size env with
  | Some _ => true
  | None => false
  end.

(* ================================================================== *)
(** * Effects of the program *)
(* ================================================================== *)

(** Lines written by [print], by the statement that writes them:
    ["Running command: ..."], ["FFmpeg failed with return code: ..."] and
    ["Conversion error: ..."]. *)
Inductive printed : Type :=
| RunningCommand (cmd : list string)
| FFmpegFailed (return_code : Z)
| ConversionError (e : exn).

(** Messages that the worker passes to [log_progress]:
    ["Converting {filename}..."], ["  Progress: {percent:.1f}%"],
    ["{filename} converted successfully!"] and
    ["Failed to convert {filename}"]. *)
Inductive log_line : Type :=
| Converting (filename : string)
| Progress (percent : Q)
| Converted (filename : string)
| FailedToConvert (filename : string).

(** Calls that the worker schedules on the Tk loop with [root.after(0, ...)]:
    [log_progress], [conversion_complete], [conversion_error]. *)
Inductive tk_call : Type :=
| LogProgress (message : log_line)
| ConversionComplete
| ConversionErrorDialog (e : exn).

(** The Tk side: the calls accepted by [root.after] so far, oldest first,
    and how long the application lives: [None] when the window stays,
    [Some n] when [root.after] works [n] more times and the application
    is destroyed after that. *)
Record tk : Type := mkTk {
  tk_queue : list tk_call;
  tk_alive : option nat
}.

(** A progress callback gets the percentage and acts on the Tk side. *)
Definition callback : Type := Q -> tk -> result unit * tk.

Record state : Type := mkState {
  stdout_lines : list printed;        (* output of [print], oldest first *)
  popen_calls : list (list string);   (* commands given to [Popen] *)
  callback_calls : list Q;            (* arguments [progress_callback] was
                                         called with, oldest first *)
  divisions : list (Q * Q);           (* every evaluated [x / duration], as
                                         (dividend, divisor) *)
  gui : tk
}.

Definition initial_state (alive : option nat) : state :=
  mkState [] [] [] [] (mkTk [] alive).

(** State and exceptions. *)
Definition M (A : Type) : Type := state -> result A * state.

Definition ret (A : Type) (a : A) : M A := fun st => (Ret a, st).

Definition raise (A : Type) (e : exn) : M A := fun st => (Raise e, st).

Definition lift (A : Type) (r : result A) : M A := fun st => (r, st).

Definition bind (A B : Type) (m : M A) (k : A -> M B) : M B :=
  fun st =>
    match m st with
    | (Ret a, st') => k a st'
    | (Raise e, st') => (Raise e, st')
    end.

Arguments raise {A} e.

Declare Scope py_scope.
Delimit Scope py_scope with py.
Notation "x <- m ;; k" := (bind m (fun x => k))
  (at level 61, m at next level, right associativity) : py_scope.
Notation "m ;; k" := (bind m (fun _ => k))
  (at level 61, right associativity) : py_scope.
Open Scope py_scope.

(** [try: body / except ds as e: handler e]; the handler starts in the
    state the body had reached. *)
Definition try_except (A : Type) (body : M A) (ds : list pyclass)
           (handler : exn -> M A) : M A :=
  fun st =>
    match body st with
    | (Ret a, st') => (Ret a, st')
    | (Raise e, st') => if handles ds e then handler e st' else (Raise e, st')
    end.

Definition print (p : printed) : M unit :=
  fun st =>
    (Ret tt,
     mkState (stdout_lines st ++ [p]) (popen_calls st) (callback_calls st)
             (divisions st) (gui st)).

(** [subprocess.Popen(cmd, ...)]. *)
Definition Popen (env : job_env) (cmd : list string) : M unit :=
  fun st =>
    let st' :=
      mkState (stdout_lines st) (popen_calls st ++ [cmd]) (callback_calls st)
              (divisions st) (gui st) in
    match popen_raises env with
    | Some e => (Raise e, st')
    | None => (Ret tt, st')
    end.

(** [x / y] on floats, noting the operands. *)
Definition divide (x y : Q) : M Q :=
  fun st =>
    (float_truediv x y,
     mkState (stdout_lines st) (popen_calls st) (callback_calls st)
             (divisions st ++ [(x, y)]) (gui st)).

(** An action on the Tk side, run from the program. *)
Definition on_gui (A : Type) (f : tk -> result A * tk) : M A :=
  fun st =>
    let (r, g) := f (gui st) in
    (r, mkState (stdout_lines st) (popen_calls st) (callback_calls st)
                (divisions st) g).

(** [progress_callback(percent)], noting the argument. *)
Definition call (progress_callback : callback) (percent : Q) : M unit :=
  fun st =>
    on_gui (progress_callback percent)
      (mkState (stdout_lines st) (popen_calls st)
               (callback_calls st ++ [percent])
               (divisions st) (gui st)).

(** [self.root.after(0, f, ...)]: queues the call, or raises once the
    application has been destroyed. *)
Definition after (c : tk_call) (g : tk) : result unit * tk :=
  match tk_alive g with
  | Some O => (Raise TclError, g)
  | Some (S n) => (Ret tt, mkTk (tk_queue g ++ [c]) (Some n))
  | None => (Ret tt, mkTk (tk_queue g ++ [c]) None)
  end.

Definition root_after (c : tk_call) : M unit := on_gui (after c).

(* ================================================================== *)
(** * The timestamp pattern *)
(* ================================================================== *)

Module Re.

(** [re.search(r'time=(\d+):(\d+):(\d+)\.(\d+)', line)].

    Every [\d+] is followed in the pattern by a character that is not a
    digit (or by the end of the pattern), so the greedy match of each
    group is the longest run of digits and backtracking into a group never
    finds another match.  [search] tries the start positions from left to
    right. *)

Definition groups : Type := (string * string * string * string)%type.

Fixpoint literal (p s : string) : option string :=
  match p, s with
  | EmptyString, _ => Some s
  | String c p', String d s' => if Ascii.eqb c d then literal p' s' else None
  | String _ _, EmptyString => None
  end.

(** The longest run of digits at the start of [s], and what follows. *)
Fixpoint digits (s : string) : string * string :=
  match s with
  | EmptyString => (EmptyString, EmptyString)
  | String c s' =>
      if isdigit c then let (d, r) := digits s' in (String c d, r)
      else (EmptyString, s)
  end.

(** [\d+] *)
Definition digits1 (s : string) : option (string * string) :=
  match digits s with
  | (EmptyString, _) => None
  | (d, r) => Some (d, r)
  end.

Definition match_here (s : string) : option groups :=
  match literal "time=" s with
  | None => None
  | Some r0 =>
  match digits1 r0 with
  | None => None
  | Some (g1, r1) =>
  match literal ":" r1 with
  | None => None
  | Some r2 =>
  match digits1 r2 with
  | None => None
  | Some (g2, r3) =>
  match literal ":" r3 with
  | None => None
  | Some r4 =>
  match digits1 r4 with
  | None => None
  | Some (g3, r5) =>
  match literal "." r5 with
  | None => None
  | Some r6 =>
  match digits1 r6 with
  | None => None
  | Some (g4, _) => Some (g1, g2, g3, g4)
  end end end end end end end end.

Fixpoint search (s : string) : option groups :=
  match match_here s with
  | Some g => Some g
  | None =>
      match s with
      | EmptyString => None
      | String _ s' => search s'
      end
  end.

End Re.

(* ================================================================== *)
(** * utils.py *)
(* ================================================================== *)

(** [FFmpegHandler.is_ffmpeg_installed], as a function of what
    [subprocess.run(["ffmpeg", "-version"], ..., timeout=10)] does. *)
Definition is_ffmpeg_installed (run : run_result) : result bool :=
  try_pure
    (match run with
     | RunRaises e => Raise e
     | Completed returncode _ => Ret (returncode =? 0)%Z
     end)
    [TimeoutExpired; FileNotFoundError; SubprocessError]
    (fun _ => Ret false).

(** [l[lo:hi] = new] for indices that are not negative. *)
Definition slice_assign (A : Type) (l : list A) (lo hi : nat) (new : list A)
  : list A :=
  firstn lo l ++ new ++ skipn (Nat.max lo hi) l.

(** The command of [convert_video]: the initial list, then the
    format-specific slice assignment. *)
Definition convert_video_cmd (input_file output_file output_format : string)
  : list string :=
  let cmd :=
    ["ffmpeg"; "-i"; input_file;
     "-c:v"; "libx264";
     "-c:a"; "aac";
     "-preset"; "medium";
     "-crf"; "23";
     "-movflags"; "+faststart";
     "-y";
     output_file]%string in
  if String.eqb (lower output_format) "webm" then
    slice_assign cmd 5 7 ["-c:v"; "libvpx-vp9"; "-c:a"; "libopus"]%string
  else if existsb (String.eqb (lower output_format)) ["mov"; "m4v"]%string then
    slice_assign cmd 5 7 ["-c:v"; "libx264"; "-c:a"; "aac"]%string
  else cmd.

(** [hours * 3600 + minutes * 60 + seconds + centiseconds / 100] on the
    four groups of a match.  The quotient is a float; adding it converts
    the integer sum to a float. *)
Definition current_time (g : Re.groups) : result Q :=
  let '(g1, g2, g3, g4) := g in
  let hours := int g1 in
  let minutes := int g2 in
  let seconds := int g3 in
  let centiseconds := int g4 in
  match int_truediv centiseconds 100 with
  | Raise e => Raise e
  | Ret fraction =>
      match float_of_int (hours * 3600 + minutes * 60 + seconds) with
      | Raise e => Raise e
      | Ret whole => Ret (whole + fraction)
      end
  end.

(** The body of [if progress_callback and duration:] for one line. *)
Definition report_progress (progress_callback : callback) (duration : Q)
           (line : string) : M unit :=
  match Re.search line with
  | Some time_match =>
      now <- lift (current_time time_match) ;;
      ratio <- divide now duration ;;
      let progress := ratio * 100 in
      call progress_callback (min progress 100)
  | None => ret tt
  end.

(** The [while True:] loop over the diagnostic stream. *)
Fixpoint read_lines (progress_callback : option callback)
         (duration : option Q) (reads : list read) : M unit :=
  match reads with
  | [] => ret tt                               (* [readline()] gives [''] *)
  | ReadRaises e :: _ => raise e
  | Line line :: reads' =>
      if String.eqb line "" then ret tt        (* [if not line: break] *)
      else
        match progress_callback, duration with
        | Some callback, Some d =>
            if truthy duration then report_progress callback d line
            else ret tt
        | _, _ => ret tt
        end ;;
        read_lines progress_callback duration reads'
  end.

Section WithFloat.

(** The builtin [float] on a string: [None] stands for [ValueError]. *)
Variable float : string -> option Q.

(** [VideoProcessor._get_video_duration], as a function of what
    [subprocess.run(["ffprobe", ...], ..., timeout=30)] does. *)
Definition _get_video_duration (run : run_result) : result (option Q) :=
  try_pure
    (match run with
     | RunRaises e => Raise e
     | Completed returncode stdout =>
         if (returncode =? 0)%Z then
           let duration_str := strip stdout in
           if String.eqb duration_str "" then Ret None
           else match float duration_str with
                | Some d => Ret (Some d)
                | None => Raise ValueError
                end
         else Ret None                 (* falls through to [return None] *)
     end)
    [Exception]
    (fun _ => Ret None).               (* [pass], then [return None] *)

(** [convert_video] from the first statement to [process.wait()]: the
    value is the exit status. *)
Definition run_ffmpeg (env : job_env)
           (input_file output_file output_format : string)
           (progress_callback : option callback) : M Z :=
  let cmd := convert_video_cmd input_file output_file output_format in
  print (RunningCommand cmd) ;;
  Popen env cmd ;;
  duration <- lift (_get_video_duration (ffprobe env)) ;;
  read_lines progress_callback duration (stderr_reads env) ;;
  ret (wait env).

(** [VideoProcessor.convert_video]. *)
Definition convert_video (env : job_env)
           (input_file output_file output_format : string)
           (progress_callback : option callback) : M bool :=
  try_except
    (return_code <-
       run_ffmpeg env input_file output_file output_format
                  progress_callback ;;
     if (return_code =? 0)%Z && path_exists env then ret true
     else print (FFmpegFailed return_code) ;; ret false)
    [Exception]
    (fun e => print (ConversionError e) ;; ret false).

End WithFloat.

(* ================================================================== *)
(** * main.py *)
(* ================================================================== *)

(** The functions of [os.path] that the worker uses, as [posixpath] has
    them. *)
Module OsPath.

(** [s.rfind(c)], counting from [i] for the first character of [s]. *)
Fixpoint rfind_from (c : ascii) (s : string) (i : Z) : Z :=
  match s with
  | EmptyString => (-1)%Z
  | String d s' =>
      let r := rfind_from c s' (i + 1) in
      if (0 <=? r)%Z then r else if Ascii.eqb d c then i else (-1)%Z
  end.

Definition rfind (c : ascii) (s : string) : Z := rfind_from c s 0.

(** [s[i:j]] for [0 <= i]. *)
Definition slice (s : string) (i j : Z) : string :=
  substring (Z.to_nat i) (Z.to_nat (j - i)) s.

Definition len (s : string) : Z := Z.of_nat (String.length s).

Definition basename (p : string) : string :=
  let i := (rfind "/" p + 1)%Z in
  slice p i (len p).

Fixpoint all_dots (s : string) : bool :=
  match s with
  | EmptyString => true
  | String c s' => Ascii.eqb c "." && all_dots s'
  end.

(** [splitext]: the extension starts at the last dot of the last
    component, unless only dots precede it there. *)
Definition splitext (p : string) : string * string :=
  let sepIndex := rfind "/" p in
  let dotIndex := rfind "." p in
  if (sepIndex <? dotIndex)%Z
     && negb (all_dots (slice p (sepIndex + 1) dotIndex))
  then (slice p 0 dotIndex, slice p dotIndex (len p))
  else (p, EmptyString).

Definition endswith_sep (s : string) : bool :=
  match get (String.length s - 1) s with
  | Some c => Ascii.eqb c "/"
  | None => false
  end.

(** [join(a, b)] *)
Definition join (a b : string) : string :=
  if prefix "/" b then b
  else if String.eqb a "" || endswith_sep a then (a ++ b)%string
  else (a ++ "/" ++ b)%string.

End OsPath.

Section WithFloatMain.

Variable float : string -> option Q.

(** The [for] loop of [conversion_thread] from index [i] on; [envs i] is
    the world of the job with that index. *)
Fixpoint convert_files (envs : nat -> job_env)
         (output_folder output_format : string)
         (i : nat) (selected_files : list string) : M unit :=
  match selected_files with
  | [] => ret tt
  | input_file :: files' =>
      let filename := OsPath.basename input_file in
      root_after (LogProgress (Converting filename)) ;;
      let base_name := fst (OsPath.splitext filename) in
      let output_file :=
        OsPath.join output_folder (base_name ++ "." ++ output_format)%string in
      let progress_callback : callback :=
        fun percent => after (LogProgress (Progress percent)) in
      success <-
        convert_video float (envs i) input_file output_file output_format
                      (Some progress_callback) ;;
      (if success : bool
       then root_after (LogProgress (Converted filename))
       else root_after (LogProgress (FailedToConvert filename))) ;;
      convert_files envs output_folder output_format (S i) files'
  end.

(** [conversion_thread] of [VideoConverterApp.start_conversion]. *)
Definition conversion_thread (envs : nat -> job_env)
           (selected_files : list string)
           (output_folder output_format : string) : M unit :=
  try_except
    (convert_files envs output_folder output_format 0 selected_files ;;
     root_after ConversionComplete)
    [Exception]
    (fun e => root_after (ConversionErrorDialog e)).

End WithFloatMain.

(** The per-file outcomes among the queued calls: the file name and
    whether the conversion was reported as a success. *)
Fixpoint outcomes (q : list tk_call) : list (string * bool) :=
  match q with
  | [] => []
  | LogProgress (Converted f) :: q' => (f, true) :: outcomes q'
  | LogProgress (FailedToConvert f) :: q' => (f, false) :: outcomes q'
  | _ :: q' => outcomes q'
  end.

(** A sample of [float]: plain decimal notation without sign or exponent,
    which is how [ffprobe] prints a duration (["90.000000"]).  Used for
    the examples only. *)
Definition decimal_float (s : string) : option Q :=
  match Re.digits1 s with
  | Some (whole, EmptyString) => Some (inject_Z (int whole))
  | Some (whole, String "."%char r) =>
      match Re.digits r with
      | (fraction, EmptyString) =>
          Some (int (whole ++ fraction)%string
                # Z.to_pos (10 ^ Z.of_nat (String.length fraction)))
      | _ => None
      end
  | _ => None
  end.


(* ================================================================== *)
(** * Notions used in the statements *)
(* ================================================================== *)

(** [isinstance(e, Exception)] *)
Definition is_exception (e : exn) : bool := handles [Exception] e.

Fixpoint read_faults (reads : list read) : list exn :=
  match reads with
  | [] => []
  | Line _ :: reads' => read_faults reads'
  | ReadRaises e :: reads' => e :: read_faults reads'
  end.

(** Every exception that the world of a job can raise into
    [convert_video]. *)
Definition env_faults (env : job_env) : list exn :=
  match popen_raises env with Some e => [e] | None => [] end
  ++ match ffprobe env with RunRaises e => [e] | Completed _ _ => [] end
  ++ read_faults (stderr_reads env).

(** The state of [convert_video] once the command is printed and given to
    [Popen]. *)
Definition spawn_state (cmd : list string) (st : state) : state :=
  mkState (stdout_lines st ++ [RunningCommand cmd]) (popen_calls st ++ [cmd])
          (callback_calls st) (divisions st) (gui st).

(** Calls that are neither an outcome nor the end of the batch. *)
Definition progress_only (q : list tk_call) : Prop :=
  Forall (fun c => exists p, c = LogProgress (Progress p)) q.

(** The exceptions a callback raises are instances of [Exception]. *)
Definition callback_raises_exceptions (cb : option callback) : Prop :=
  forall c p g e, cb = Some c -> fst (c p g) = Raise e ->
                  is_exception e = true.

(** The elapsed seconds that [convert_video] computes for a line: [None]
    when the line has no timestamp. *)
Definition elapsed (line : string) : option (result Q) :=
  option_map current_time (Re.search line).

(** The elapsed seconds of the lines of a stream that carry a timestamp,
    in stream order. *)
Fixpoint timestamps (reads : list read) : list Q :=
  match reads with
  | [] => []
  | Line line :: reads' =>
      match elapsed line with
      | Some (Ret t) => t :: timestamps reads'
      | _ => timestamps reads'
      end
  | ReadRaises _ :: reads' => timestamps reads'
  end.

(** The percentage reported for [t] elapsed seconds. *)
Definition percent (duration t : Q) : Q := min (t / duration * 100) 100.

Fixpoint all_digits (s : string) : bool :=
  match s with
  | EmptyString => true
  | String c s' => isdigit c && all_digits s'
  end.

(** A non-empty run of digits. *)
Definition number (s : string) : Prop :=
  s <> EmptyString /\ all_digits s = true.

(** [s] does not go on with a digit. *)
Definition no_digit_ahead (s : string) : bool :=
  match s with
  | EmptyString => true
  | String c _ => negb (isdigit c)
  end.

Fixpoint has_char (c : ascii) (s : string) : bool :=
  match s with
  | EmptyString => false
  | String d s' => Ascii.eqb d c || has_char c s'
  end.

(** No match of the timestamp pattern starts at one of the first [n]
    positions of [s]. *)
Fixpoint no_match_before (n : nat) (s : string) : bool :=
  match n with
  | O => true
  | S n' =>
      match Re.match_here s with
      | Some _ => false
      | None =>
          match s with
          | EmptyString => true
          | String _ s' => no_match_before n' s'
          end
      end
  end.

Fixpoint all_lines (reads : list read) : bool :=
  match reads with
  | [] => true
  | Line _ :: reads' => all_lines reads'
  | ReadRaises _ :: _ => false
  end.

(* ================================================================== *)
(** * Sample jobs *)
(* ================================================================== *)

Module Examples.

Definition LF : string := String (ascii_of_nat 10) EmptyString.

(** Two progress lines as [ffmpeg] writes them. *)
Definition at_5s : string :=
  ("frame=  120 fps= 60 q=28.0 size=     256kB time=00:00:05.00 bitrate= 419.4kbits/s speed=2.5x" ++ LF)%string.

Definition at_10s : string :=
  ("frame=  240 fps= 60 q=28.0 size=     512kB time=00:00:10.00 bitrate= 419.4kbits/s speed=2.5x" ++ LF)%string.

(** A ten-second video converted without incident. *)
Definition job_ok : job_env :=
  mkJobEnv None (Completed 0 ("10.000000" ++ LF)%string)
           [Line ("Press [q] to stop" ++ LF)%string; Line at_5s; Line at_10s]
           0 (Some 524288%N).


(** The tool exits with status 0 and leaves an empty output file. *)
Definition job_empty_output : job_env :=
  mkJobEnv None (Completed 0 ("10.000000" ++ LF)%string)
           [Line at_5s; Line at_10s] 0 (Some 0%N).

(** The tool exits with status 1 and leaves an output file. *)
Definition job_exit_1 : job_env :=
  mkJobEnv None (Completed 0 ("10.000000" ++ LF)%string)
           [Line at_5s] 1 (Some 4096%N).

(** [ffprobe] knows no duration. *)
Definition job_no_duration : job_env :=
  mkJobEnv None (Completed 0 ("N/A" ++ LF)%string)
           [Line at_5s; Line at_10s] 0 (Some 524288%N).

(** [ffprobe] reports a duration of zero. *)
Definition job_zero_duration : job_env :=
  mkJobEnv None (Completed 0 ("0.000000" ++ LF)%string)
           [Line at_5s; Line at_10s] 0 (Some 524288%N).

(** [ffmpeg] is not installed. *)
Definition job_no_ffmpeg : job_env :=
  mkJobEnv (Some FileNotFoundError) (RunRaises FileNotFoundError) [] 0 None.

(** The stream cannot be decoded after its first line. *)
Definition job_bad_stream : job_env :=
  mkJobEnv None (Completed 0 ("10.000000" ++ LF)%string)
           [Line at_5s; ReadRaises UnicodeDecodeError; Line at_10s]
           0 (Some 524288%N).

(** A callback that does nothing. *)
Definition quiet : callback := fun _ g => (Ret tt, g).

(** A batch of three files: the second cannot be converted. *)
Definition files : list string :=
  ["/home/u/videos/a.avi"; "/home/u/videos/b.mkv"; "/home/u/videos/c.mov"]%string.

Definition worlds (i : nat) : job_env :=
  match i with
  | 1%nat => job_bad_stream
  | _ => job_ok
  end.

End Examples.

(* ================================================================== *)
(** * The machine of the installer and of the format probe *)
(* ================================================================== *)

(** State and exceptions once more, for any state.  The functions below
    act on the machine they run on, not on the state of a conversion. *)
Module Eff.

Definition t (S A : Type) : Type := S -> result A * S.

Definition ret (S A : Type) (a : A) : t S A := fun s => (Ret a, s).

Definition raise (S A : Type) (e : exn) : t S A := fun s => (Raise e, s).

Definition bind (S A B : Type) (m : t S A) (k : A -> t S B) : t S B :=
  fun s =>
    match m s with
    | (Ret a, s') => k a s'
    | (Raise e, s') => (Raise e, s')
    end.

(** [try: body / except ds as e: handler e] *)
Definition try_except (S A : Type) (body : t S A) (ds : list pyclass)
           (handler : exn -> t S A) : t S A :=
  fun s =>
    match body s with
    | (Ret a, s') => (Ret a, s')
    | (Raise e, s') => if handles ds e then handler e s' else (Raise e, s')
    end.

(** A call without effect on the state. *)
Definition lift (S A : Type) (r : result A) : t S A := fun s => (r, s).

Arguments ret {S A} a.
Arguments raise {S A} e.
Arguments lift {S A} r.

End Eff.

Declare Scope eff_scope.
Delimit Scope eff_scope with eff.
Notation "x <- m ;; k" := (Eff.bind m (fun x => k))
  (at level 61, m at next level, right associativity) : eff_scope.
Notation "m ;; k" := (Eff.bind m (fun _ => k))
  (at level 61, right associativity) : eff_scope.

(** Exception classes that the model of the classes does not list are
    identified with the nearest class it lists: [AttributeError] with
    [Exception], [json.JSONDecodeError] with [ValueError]. *)
Definition AttributeError : exn := Exception.
Definition JSONDecodeError : exn := ValueError.

(** ** Strings *)

(** [sub in s] *)
Fixpoint contains (sub s : string) : bool :=
  prefix sub s
  || match s with
     | EmptyString => false
     | String _ s' => contains sub s'
     end.

(** [s.split(sep)] for a separator of one character. *)
Fixpoint str_split (sep : ascii) (s : string) : list string :=
  match s with
  | EmptyString => [EmptyString]
  | String c s' =>
      if Ascii.eqb c sep then EmptyString :: str_split sep s'
      else match str_split sep s' with
           | x :: xs => String c x :: xs
           | [] => [String c EmptyString]
           end
  end.

(** ** JSON values, as [json.loads] returns them.  The items of an object
    have distinct keys. *)
#[warnings="-register-all"]
Inductive json : Type :=
| JNull
| JBool (b : bool)
| JNumber (q : Q)
| JString (s : string)
| JArray (items : list json)
| JObject (items : list (string * json)).

(** [d.get(key, default)] on a dict. *)
Fixpoint dict_get (items : list (string * json)) (key : string)
         (default : json) : json :=
  match items with
  | [] => default
  | (k, v) :: items' =>
      if String.eqb k key then v else dict_get items' key default
  end.

(** [x.get(key, default)] on any value: only a dict has [get]. *)
Definition json_get (x : json) (key : string) (default : json) : result json :=
  match x with
  | JObject items => Ret (dict_get items key default)
  | _ => Raise AttributeError
  end.

(** ** [pathlib] on a POSIX path *)
Module PathLib.

(** The parts of a path, the root apart: the components between slashes
    that are neither empty nor ["."]. *)
Definition parts (p : string) : list string :=
  filter (fun x => negb (String.eqb x "") && negb (String.eqb x "."))
         (str_split "/" p).

(** [Path(p).name] *)
Definition name (p : string) : string := last (parts p) EmptyString.

(** [Path(p).suffix]: from the last dot of the name on, unless that dot is
    the first or the last character of the name. *)
Definition suffix (p : string) : string :=
  let name := name p in
  let i := OsPath.rfind "." name in
  if (0 <? i)%Z && (i <? OsPath.len name - 1)%Z
  then OsPath.slice name i (OsPath.len name)
  else EmptyString.

End PathLib.

(** ** The machine *)

(** File and network operations of the installer: each one either works
    or raises.  They act on the temporary directory and on the directory
    [ffmpeg] of the home directory and what is in it, never on a file that
    lies directly in the home directory.  The model does not say what
    these directories hold afterwards: of an operation it keeps that it
    was started (the list [attempted] of the machine). *)
Inductive step : Type :=
| Mkdir                         (* [ffmpeg_dir.mkdir(exist_ok=True)] *)
| TemporaryDirectory            (* [tempfile.TemporaryDirectory()] *)
| Urlretrieve (url : string)    (* [urllib.request.urlretrieve(url, zip_path)] *)
| Extractall                    (* [ZipFile(zip_path).extractall(temp_dir)] *)
| Cleanup                       (* leaving the [with] of the temporary
                                   directory, which removes it *)
| Rmtree                        (* [shutil.rmtree(destination_bin)] *)
| Copytree                      (* [shutil.copytree(bin_dir, destination_bin)] *)
| Copy2                         (* [shutil.copy2(ffmpeg_binary, destination)] *)
| Chmod.                        (* [os.chmod(destination, 0o755)] *)

(** A regular file that lies directly in the home directory: its text,
    and what opening it for appending raises, if anything. *)
Record file : Type := mkFile {
  content : string;
  append_raises : option exn
}.

(** A line written by [print]: a text, or a text that ends with an
    exception. *)
Inductive said : Type :=
| Say (text : string)
| SayError (text : string) (e : exn).

(** What the machine answers while one function of [utils.py] runs.  None
    of them runs a command or a file operation twice, so one answer for
    each describes any run; the window is given a world with every
    event. *)
Record world : Type := mkWorld {
  answer : list string -> run_result;   (* [subprocess.run(cmd, ...)] *)
  step_raises : step -> option exn;
  home : result string;                 (* [str(Path.home())] *)
  extracted_folders : list string;      (* the directories that [iterdir]
                                           finds in the temporary directory *)
  bin_dir_exists : bool;                (* [bin_dir.exists()] *)
  destination_bin_exists : bool         (* [destination_bin.exists()] *)
}.

(** What the program changes. *)
Record machine : Type := mkMachine {
  ran : list (list string);       (* commands run, oldest first *)
  attempted : list step;          (* operations started, oldest first *)
  said_lines : list said;         (* output of [print], oldest first *)
  PATH : option string;           (* [os.environ]: the entry ["PATH"] *)
  home_files : list (string * file)   (* the regular files that lie
                                         directly in the home directory,
                                         by name: the shell profiles are
                                         among them, the directory
                                         [ffmpeg] and what it holds are
                                         not *)
}.

Section Machine.

Local Open Scope eff_scope.

Variable w : world.

(** [subprocess.run(cmd, ...)]: the exit status and the standard output. *)
Definition run (cmd : list string) : Eff.t machine (Z * string) :=
  fun m =>
    let m' := mkMachine (ran m ++ [cmd]) (attempted m) (said_lines m)
                        (PATH m) (home_files m) in
    match answer w cmd with
    | RunRaises e => (Raise e, m')
    | Completed returncode stdout => (Ret (returncode, stdout), m')
    end.

(** [subprocess.run(cmd, ..., check=True)] *)
Definition run_check (cmd : list string) : Eff.t machine (Z * string) :=
  r <- run cmd ;;
  if (fst r =? 0)%Z then Eff.ret r else Eff.raise CalledProcessError.

(** An operation of the installer is started; it works or it raises.
    None of them creates, removes or writes a regular file directly in
    the home directory, so [home_files] stays; what becomes of the
    directory [ffmpeg] is told by [attempted] alone. *)
Definition perform (s : step) : Eff.t machine unit :=
  fun m =>
    let m' := mkMachine (ran m) (attempted m ++ [s]) (said_lines m)
                        (PATH m) (home_files m) in
    match step_raises w s with
    | Some e => (Raise e, m')
    | None => (Ret tt, m')
    end.

(** [with tempfile.TemporaryDirectory() as temp_dir: body]: the directory
    is removed when the body returns and when it raises; an exception of
    the removal replaces the one of the body. *)
Definition with_temporary_directory (A : Type) (body : Eff.t machine A)
  : Eff.t machine A :=
  perform TemporaryDirectory ;;
  fun m =>
    match body m with
    | (Ret a, m') =>
        match perform Cleanup m' with
        | (Ret _, m'') => (Ret a, m'')
        | (Raise e, m'') => (Raise e, m'')
        end
    | (Raise e, m') =>
        match perform Cleanup m' with
        | (Ret _, m'') => (Raise e, m'')
        | (Raise e', m'') => (Raise e', m'')
        end
    end.

Definition say (line : said) : Eff.t machine unit :=
  fun m =>
    (Ret tt,
     mkMachine (ran m) (attempted m) (said_lines m ++ [line])
               (PATH m) (home_files m)).

(** [os.environ.get("PATH", "")] *)
Definition environ_get_PATH : Eff.t machine string :=
  fun m =>
    (Ret match PATH m with Some p => p | None => EmptyString end, m).

(** [os.environ["PATH"] = value] *)
Definition environ_set_PATH (value : string) : Eff.t machine unit :=
  fun m =>
    (Ret tt,
     mkMachine (ran m) (attempted m) (said_lines m) (Some value)
               (home_files m)).

(** [Path.home()] *)
Definition Path_home : Eff.t machine string :=
  fun m => (home w, m).

Fixpoint lookup (files : list (string * file)) (name : string)
  : option file :=
  match files with
  | [] => None
  | (n, f) :: files' => if String.eqb n name then Some f else lookup files' name
  end.

Fixpoint append_to (files : list (string * file)) (name text : string)
  : list (string * file) :=
  match files with
  | [] => []
  | (n, f) :: files' =>
      if String.eqb n name
      then (n, mkFile (content f ++ text) (append_raises f)) :: files'
      else (n, f) :: append_to files' name text
  end.

(** [(home / name).exists()] *)
Definition exists_in_home (name : string) : Eff.t machine bool :=
  fun m =>
    (Ret match lookup (home_files m) name with
         | Some _ => true
         | None => false
         end, m).

(** [with open(home / name, "a") as f: f.write(text)] on a file that
    exists. *)
Definition open_append (name text : string) : Eff.t machine unit :=
  fun m =>
    match lookup (home_files m) name with
    | Some f =>
        match append_raises f with
        | Some e => (Raise e, m)
        | None =>
            (Ret tt,
             mkMachine (ran m) (attempted m) (said_lines m) (PATH m)
                       (append_to (home_files m) name text))
        end
    | None => (Raise FileNotFoundError, m)
    end.

(** ** [FFmpegHandler._add_to_path_unix] *)

Definition DQUOTE : string := String (ascii_of_nat 34) EmptyString.

(** The line that is appended to a shell profile:
    [f'\nexport PATH="$PATH:{path}"\n']. *)
Definition export_line (path : string) : string :=
  (Examples.LF ++ "export PATH=" ++ DQUOTE ++ "$PATH:" ++ path ++ DQUOTE
     ++ Examples.LF)%string.

(** The [for profile in shell_profiles:] loop, left by [break] after the
    first profile that exists. *)
Fixpoint write_profile (shell_profiles : list string) (path : string)
  : Eff.t machine unit :=
  match shell_profiles with
  | [] => Eff.ret tt
  | profile :: profiles' =>
      found <- exists_in_home profile ;;
      if found : bool then open_append profile (export_line path)
      else write_profile profiles' path
  end.

Definition _add_to_path_unix (path : string) : Eff.t machine unit :=
  Eff.try_except
    (current_path <- environ_get_PATH ;;
     (if negb (contains path current_path)
      then environ_set_PATH (current_path ++ ":" ++ path)%string
      else Eff.ret tt) ;;
     _ <- Path_home ;;
     write_profile [".bashrc"; ".zshrc"; ".profile"]%string path)
    [Exception]
    (fun e => say (SayError "Could not add to PATH: " e)).

(** ** [FFmpegHandler._add_to_path_windows] *)

Definition get_user_path_cmd : list string :=
  ["powershell"; "-Command";
   "[Environment]::GetEnvironmentVariable('PATH', 'User')"]%string.

Definition set_user_path_cmd (new_path : string) : list string :=
  ["powershell"; "-Command";
   "[Environment]::SetEnvironmentVariable('PATH', '" ++ new_path
     ++ "', 'User')"]%string.

Definition _add_to_path_windows (path : string) : Eff.t machine unit :=
  Eff.try_except
    (result <- run get_user_path_cmd ;;
     let current_path := strip (snd result) in
     if negb (contains path current_path) then
       let new_path :=
         if negb (String.eqb current_path "")
         then (current_path ++ ";" ++ path)%string
         else path in
       run (set_user_path_cmd new_path) ;;
       session_path <- environ_get_PATH ;;
       environ_set_PATH (session_path ++ ";" ++ path)%string
     else Eff.ret tt)
    [Exception]
    (fun e => say (SayError "Could not add to PATH: " e)).

(** ** The installers *)

(** [self.ffmpeg_urls] *)
Definition ffmpeg_url_windows : string :=
  "https://www.gyan.dev/ffmpeg/builds/ffmpeg-release-essentials.zip".

Definition ffmpeg_url_darwin : string :=
  "https://evermeet.cx/ffmpeg/ffmpeg-6.0.zip".

(** [str(a / b)] on Windows, for [a] a path as [str] gives it. *)
Definition win_join (a b : string) : string :=
  match get (String.length a - 1) a with
  | Some "\"%char => (a ++ b)%string
  | _ => (a ++ "\" ++ b)%string
  end.

(** [_install_ffmpeg_windows] up to the comment [# Add to PATH]: the
    value is [str(destination_bin)]. *)
Definition windows_files : Eff.t machine string :=
  say (Say "Installing FFmpeg for Windows...") ;;
  home_dir <- Path_home ;;
  let ffmpeg_dir := win_join home_dir "ffmpeg" in
  perform Mkdir ;;
  with_temporary_directory
    (say (Say "Downloading FFmpeg...") ;;
     perform (Urlretrieve ffmpeg_url_windows) ;;
     say (Say "Extracting FFmpeg...") ;;
     perform Extractall ;;
     match extracted_folders w with
     | [] =>          (* "Could not find extracted FFmpeg folder" *)
         Eff.raise Exception
     | ffmpeg_extracted :: _ =>
         if negb (bin_dir_exists w)
         then         (* "Could not find FFmpeg bin directory" *)
           Eff.raise Exception
         else
           let destination_bin := win_join ffmpeg_dir "bin" in
           (if destination_bin_exists w then perform Rmtree
            else Eff.ret tt) ;;
           perform Copytree ;;
           Eff.ret destination_bin
     end).

Definition _install_ffmpeg_windows : Eff.t machine bool :=
  destination_bin <- windows_files ;;
  _add_to_path_windows destination_bin ;;
  say (Say "FFmpeg installation completed!") ;;
  Eff.ret true.

(** The [try] of [_install_ffmpeg_macos]: [true] when it returned
    [True]. *)
Definition brew_install : Eff.t machine bool :=
  Eff.try_except
    (result <- run ["brew"; "--version"]%string ;;
     if (fst result =? 0)%Z then
       say (Say "Installing via Homebrew...") ;;
       result <- run ["brew"; "install"; "ffmpeg"]%string ;;
       Eff.ret (fst result =? 0)%Z
     else Eff.ret false)
    [FileNotFoundError]
    (fun _ => Eff.ret false).

(** The manual installation of [_install_ffmpeg_macos] up to the comment
    [# Add to PATH]: the value is [str(ffmpeg_dir)]. *)
Definition macos_files : Eff.t machine string :=
  home_dir <- Path_home ;;
  let ffmpeg_dir := OsPath.join home_dir "ffmpeg" in
  perform Mkdir ;;
  with_temporary_directory
    (say (Say "Downloading FFmpeg...") ;;
     perform (Urlretrieve ffmpeg_url_darwin) ;;
     say (Say "Extracting FFmpeg...") ;;
     perform Extractall ;;
     perform Copy2 ;;
     perform Chmod) ;;
  Eff.ret ffmpeg_dir.

Definition _install_ffmpeg_macos : Eff.t machine bool :=
  say (Say "Installing FFmpeg for macOS...") ;;
  installed <- brew_install ;;
  if installed : bool then Eff.ret true
  else
    ffmpeg_dir <- macos_files ;;
    _add_to_path_unix ffmpeg_dir ;;
    say (Say "FFmpeg installation completed!") ;;
    Eff.ret true.

(** [package_managers] of [_install_ffmpeg_linux]: the update command and
    the install command of each one. *)
Definition package_managers : list (list string * list string) :=
  [(["apt"; "update"], ["apt"; "install"; "-y"; "ffmpeg"]);
   (["yum"; "check-update"], ["yum"; "install"; "-y"; "ffmpeg"]);
   (["dnf"; "check-update"], ["dnf"; "install"; "-y"; "ffmpeg"]);
   (["pacman"; "-Sy"], ["pacman"; "-S"; "--noconfirm"; "ffmpeg"]);
   (["zypper"; "refresh"], ["zypper"; "install"; "-y"; "ffmpeg"])]%string.

(** The body of the [try] for one package manager: [true] when it
    returned [True], [false] when the loop goes on. *)
Definition try_package_manager (update_cmd install_cmd : list string)
  : Eff.t machine bool :=
  Eff.try_except
    (run_check (firstn 1 update_cmd ++ ["--version"]%string) ;;
     say (Say ("Using " ++ hd EmptyString update_cmd
                        ++ " package manager...")) ;;
     run_check update_cmd ;;
     result <- run install_cmd ;;
     if (fst result =? 0)%Z then
       say (Say "FFmpeg installation completed!") ;;
       Eff.ret true
     else Eff.ret false)
    [CalledProcessError; FileNotFoundError]
    (fun _ => Eff.ret false).               (* [continue] *)

(** The [for update_cmd, install_cmd in package_managers:] loop: [true]
    when it was left by [return True]. *)
Fixpoint try_package_managers (managers : list (list string * list string))
  : Eff.t machine bool :=
  match managers with
  | [] => Eff.ret false
  | (update_cmd, install_cmd) :: managers' =>
      installed <- try_package_manager update_cmd install_cmd ;;
      if installed : bool then Eff.ret true
      else try_package_managers managers'
  end.

Definition _install_ffmpeg_linux : Eff.t machine bool :=
  say (Say "Installing FFmpeg for Linux...") ;;
  installed <- try_package_managers package_managers ;;
  if installed : bool then Eff.ret true
  else
    installed <-
      Eff.try_except
        (run_check ["snap"; "install"; "ffmpeg"]%string ;;
         Eff.ret true)
        [CalledProcessError; FileNotFoundError]
        (fun _ => Eff.ret false) ;;
    if installed : bool then Eff.ret true
    else
      say (Say "Could not install FFmpeg automatically. Please install manually.") ;;
      Eff.ret false.

(** [FFmpegHandler.install_ffmpeg]; [system] is
    [platform.system().lower()]. *)
Definition install_ffmpeg (system : string) : Eff.t machine bool :=
  Eff.try_except
    (if String.eqb system "windows" then _install_ffmpeg_windows
     else if String.eqb system "darwin" then _install_ffmpeg_macos
     else if String.eqb system "linux" then _install_ffmpeg_linux
     else
       say (Say ("Unsupported platform: " ++ system)) ;;
       Eff.ret false)
    [Exception]
    (fun e =>
       say (SayError "FFmpeg installation failed: " e) ;;
       Eff.ret false).

(** ** [VideoProcessor.detect_format] *)

(** [self.supported_formats] *)
Definition supported_formats : list string :=
  [".mp4"; ".avi"; ".mov"; ".mkv"; ".webm"; ".flv";
   ".wmv"; ".m4v"; ".3gp"; ".mpg"; ".mpeg"; ".ts"; ".mts"]%string.

(** [x.split(",")[0]]: only a string has [split]. *)
Definition first_format (x : json) : result string :=
  match x with
  | JString format_name => Ret (hd EmptyString (str_split "," format_name))
  | _ => Raise AttributeError
  end.

(** [data.get("format", {}).get("format_name", "unknown").split(",")[0]] *)
Definition format_name_of (data : json) : result string :=
  match json_get data "format" (JObject []) with
  | Raise e => Raise e
  | Ret format =>
      match json_get format "format_name" (JString "unknown") with
      | Raise e => Raise e
      | Ret format_name => first_format format_name
      end
  end.

(** [json.loads]: [None] stands for [json.JSONDecodeError]. *)
Variable json_loads : string -> option json.

Definition ffprobe_format_cmd (file_path : string) : list string :=
  ["ffprobe"; "-v"; "quiet"; "-print_format"; "json";
   "-show_format"; file_path]%string.

(** [VideoProcessor.detect_format]; inside the [try], [Some] is a
    [return] and [None] falls through to [return "unknown"]. *)
Definition detect_format (file_path : string) : Eff.t machine string :=
  found <-
    Eff.try_except
      (let extension := lower (PathLib.suffix file_path) in
       if existsb (String.eqb extension) supported_formats
       then Eff.ret (Some (OsPath.slice extension 1 (OsPath.len extension)))
       else
         result <- run (ffprobe_format_cmd file_path) ;;
         if (fst result =? 0)%Z then
           match json_loads (snd result) with
           | None => Eff.raise JSONDecodeError
           | Some data =>
               format <- Eff.lift (format_name_of data) ;;
               Eff.ret (Some format)
           end
         else Eff.ret None)
      [Exception]
      (fun _ => Eff.ret None) ;;             (* [pass] *)
  match found with
  | Some format => Eff.ret format
  | None => Eff.ret "unknown"%string
  end.

End Machine.

(* ================================================================== *)
(** * main.py, the rest: the window *)
(* ================================================================== *)

Module App.

(** The [state] option of a button. *)
Inductive widget_state : Type := normal | disabled.

(** The texts of the status label: ["Checking FFmpeg installation..."],
    ["FFmpeg is installed and ready"] (green) and
    ["FFmpeg not found - required for video conversion"] (red). *)
Inductive status : Type := Checking | Ready | NotFound.

(** The texts of the install button: ["Install FFmpeg"] and
    ["Installing..."]. *)
Inductive install_text : Type := InstallFFmpeg | Installing.

(** The texts of the convert button: ["Start Conversion"] and
    ["Converting..."]. *)
Inductive convert_text : Type := StartConversion | ConvertingNow.

(** The messages given to [log_progress]: those of the worker, and those
    of the handlers of the window. *)
Inductive message : Type :=
| FromWorker (m : log_line)
| InstallingNote              (* "Installing FFmpeg... This may take ..." *)
| InstalledNote               (* "FFmpeg installed successfully!" *)
| InstallFailedNote           (* "FFmpeg installation failed. Please ..." *)
| InstallErrorNote (e : exn)  (* "FFmpeg installation error: {error_msg}" *)
| AllCompletedNote            (* "All conversions completed!" *)
| ConversionErrorNote (e : exn).  (* "Conversion error: {error_msg}" *)

(** The calls of [messagebox]. *)
Inductive dialog : Type :=
| WarnNoFiles                 (* showwarning("No Files", ...) *)
| WarnNoOutputFolder          (* showwarning("No Output Folder", ...) *)
| InfoComplete                (* showinfo("Complete", "All video
                                 conversions completed successfully!") *)
| ErrorConversionFailed (e : exn)   (* showerror("Error", ...) *)
| AskExit.                    (* askyesno("Conversion in Progress", ...) *)

(** The attributes of [VideoConverterApp] and the widgets that the
    handlers touch. *)
Record app : Type := mkApp {
  selected_files : list string;
  output_folder : string;
  conversion_threads : list string;   (* the started workers, each with
                                         the output format it captured *)
  ffmpeg_status_label : status;
  install_ffmpeg_btn : widget_state * install_text;
  convert_btn : widget_state * convert_text;
  files_listbox : list string;
  output_folder_label : option string;   (* [None]: "No folder selected" *)
  format_dropdown : string;
  progress_text : list message;          (* one line per message *)
  dialogs : list dialog;                 (* oldest first *)
  destroyed : bool;                      (* [self.root.destroy()] was called *)
  os : machine
}.

(** The window after [__init__], before the first status check. *)
Definition initial (m : machine) : app :=
  mkApp [] EmptyString [] Checking (disabled, InstallFFmpeg)
        (disabled, StartConversion) [] None "mp4" [] [] false m.

Definition set_selected_files (v : list string) (a : app) : app :=
  mkApp v (output_folder a) (conversion_threads a) (ffmpeg_status_label a)
        (install_ffmpeg_btn a) (convert_btn a) (files_listbox a)
        (output_folder_label a) (format_dropdown a) (progress_text a)
        (dialogs a) (destroyed a) (os a).

Definition set_output_folder (v : string) (a : app) : app :=
  mkApp (selected_files a) v (conversion_threads a) (ffmpeg_status_label a)
        (install_ffmpeg_btn a) (convert_btn a) (files_listbox a)
        (output_folder_label a) (format_dropdown a) (progress_text a)
        (dialogs a) (destroyed a) (os a).

Definition set_conversion_threads (v : list string) (a : app) : app :=
  mkApp (selected_files a) (output_folder a) v (ffmpeg_status_label a)
        (install_ffmpeg_btn a) (convert_btn a) (files_listbox a)
        (output_folder_label a) (format_dropdown a) (progress_text a)
        (dialogs a) (destroyed a) (os a).

Definition set_ffmpeg_status_label (v : status) (a : app) : app :=
  mkApp (selected_files a) (output_folder a) (conversion_threads a) v
        (install_ffmpeg_btn a) (convert_btn a) (files_listbox a)
        (output_folder_label a) (format_dropdown a) (progress_text a)
        (dialogs a) (destroyed a) (os a).

Definition set_install_ffmpeg_btn (v : widget_state * install_text)
           (a : app) : app :=
  mkApp (selected_files a) (output_folder a) (conversion_threads a)
        (ffmpeg_status_label a) v (convert_btn a) (files_listbox a)
        (output_folder_label a) (format_dropdown a) (progress_text a)
        (dialogs a) (destroyed a) (os a).

Definition set_convert_btn (v : widget_state * convert_text) (a : app)
  : app :=
  mkApp (selected_files a) (output_folder a) (conversion_threads a)
        (ffmpeg_status_label a) (install_ffmpeg_btn a) v (files_listbox a)
        (output_folder_label a) (format_dropdown a) (progress_text a)
        (dialogs a) (destroyed a) (os a).

Definition set_files_listbox (v : list string) (a : app) : app :=
  mkApp (selected_files a) (output_folder a) (conversion_threads a)
        (ffmpeg_status_label a) (install_ffmpeg_btn a) (convert_btn a) v
        (output_folder_label a) (format_dropdown a) (progress_text a)
        (dialogs a) (destroyed a) (os a).

Definition set_output_folder_label (v : option string) (a : app) : app :=
  mkApp (selected_files a) (output_folder a) (conversion_threads a)
        (ffmpeg_status_label a) (install_ffmpeg_btn a) (convert_btn a)
        (files_listbox a) v (format_dropdown a) (progress_text a)
        (dialogs a) (destroyed a) (os a).

Definition set_progress_text (v : list message) (a : app) : app :=
  mkApp (selected_files a) (output_folder a) (conversion_threads a)
        (ffmpeg_status_label a) (install_ffmpeg_btn a) (convert_btn a)
        (files_listbox a) (output_folder_label a) (format_dropdown a) v
        (dialogs a) (destroyed a) (os a).

Definition set_dialogs (v : list dialog) (a : app) : app :=
  mkApp (selected_files a) (output_folder a) (conversion_threads a)
        (ffmpeg_status_label a) (install_ffmpeg_btn a) (convert_btn a)
        (files_listbox a) (output_folder_label a) (format_dropdown a)
        (progress_text a) v (destroyed a) (os a).

Definition set_destroyed (v : bool) (a : app) : app :=
  mkApp (selected_files a) (output_folder a) (conversion_threads a)
        (ffmpeg_status_label a) (install_ffmpeg_btn a) (convert_btn a)
        (files_listbox a) (output_folder_label a) (format_dropdown a)
        (progress_text a) (dialogs a) v (os a).

Definition set_os (v : machine) (a : app) : app :=
  mkApp (selected_files a) (output_folder a) (conversion_threads a)
        (ffmpeg_status_label a) (install_ffmpeg_btn a) (convert_btn a)
        (files_listbox a) (output_folder_label a) (format_dropdown a)
        (progress_text a) (dialogs a) (destroyed a) v.

Section Handlers.

Local Open Scope eff_scope.

Variable w : world.
Variable json_loads : string -> option json.

(** A change of attributes or widgets. *)
Definition update (f : app -> app) : Eff.t app unit :=
  fun a => (Ret tt, f a).

(** Reading attributes or widgets. *)
Definition read (A : Type) (f : app -> A) : Eff.t app A :=
  fun a => (Ret (f a), a).

(** A function of [utils.py] that acts on the machine. *)
Definition on_os (A : Type) (f : Eff.t machine A) : Eff.t app A :=
  fun a => let (r, m) := f (os a) in (r, set_os m a).

Definition show (d : dialog) : Eff.t app unit :=
  update (fun a => set_dialogs (dialogs a ++ [d]) a).

(** [self.convert_btn.configure(state=s)] *)
Definition convert_btn_state (s : widget_state) : Eff.t app unit :=
  update (fun a => set_convert_btn (s, snd (convert_btn a)) a).

(** [self.install_ffmpeg_btn.configure(state=s)] *)
Definition install_btn_state (s : widget_state) : Eff.t app unit :=
  update (fun a => set_install_ffmpeg_btn (s, snd (install_ffmpeg_btn a)) a).

(** [self.ffmpeg_handler.is_ffmpeg_installed()] *)
Definition ffmpeg_installed : Eff.t app bool :=
  on_os (fun m =>
           (is_ffmpeg_installed (answer w ["ffmpeg"; "-version"]%string),
            mkMachine (ran m ++ [["ffmpeg"; "-version"]%string])
                      (attempted m) (said_lines m) (PATH m) (home_files m))).

Definition log_progress (msg : message) : Eff.t app unit :=
  update (fun a => set_progress_text (progress_text a ++ [msg]) a).

Definition check_conversion_ready : Eff.t app unit :=
  ffmpeg_ready <- ffmpeg_installed ;;
  files_selected <- read (fun a => (0 <? length (selected_files a))%nat) ;;
  folder_selected <- read (fun a => negb (String.eqb (output_folder a) "")) ;;
  if ffmpeg_ready && files_selected && folder_selected
  then convert_btn_state normal
  else convert_btn_state disabled.

Definition update_ffmpeg_status (is_installed : bool) : Eff.t app unit :=
  if is_installed then
    update (set_ffmpeg_status_label Ready) ;;
    install_btn_state disabled ;;
    check_conversion_ready
  else
    update (set_ffmpeg_status_label NotFound) ;;
    install_btn_state normal.

(** [check_ffmpeg_status]: the body of [check_thread], then the call of
    [update_ffmpeg_status] that it queues. *)
Definition check_ffmpeg_status : Eff.t app unit :=
  is_installed <- ffmpeg_installed ;;
  update_ffmpeg_status is_installed.

Definition ffmpeg_install_complete (success : bool) : Eff.t app unit :=
  if success then
    log_progress InstalledNote ;;
    check_ffmpeg_status
  else
    log_progress InstallFailedNote ;;
    update (set_install_ffmpeg_btn (normal, InstallFFmpeg)).

Definition ffmpeg_install_error (error_msg : exn) : Eff.t app unit :=
  log_progress (InstallErrorNote error_msg) ;;
  update (set_install_ffmpeg_btn (normal, InstallFFmpeg)).

(** [install_ffmpeg] of the window: the handler, the body of
    [install_thread], then the call that the thread queues. *)
Definition install_ffmpeg (system : string) : Eff.t app unit :=
  update (set_install_ffmpeg_btn (disabled, Installing)) ;;
  log_progress InstallingNote ;;
  outcome <-
    Eff.try_except
      (success <- on_os (install_ffmpeg w system) ;;
       Eff.ret (inl success))
      [Exception]
      (fun e => Eff.ret (inr e)) ;;
  match outcome with
  | inl success => ffmpeg_install_complete success
  | inr e => ffmpeg_install_error e
  end.

(** The [for] loop of [update_files_listbox]. *)
Fixpoint list_files (files : list string) : Eff.t app unit :=
  match files with
  | [] => Eff.ret tt
  | file_path :: files' =>
      let filename := OsPath.basename file_path in
      detected_format <- on_os (detect_format w json_loads file_path) ;;
      update (fun a =>
                set_files_listbox
                  (files_listbox a
                   ++ [(filename ++ " (" ++ detected_format ++ ")")%string])
                  a) ;;
      list_files files'
  end.

Definition update_files_listbox : Eff.t app unit :=
  update (set_files_listbox []) ;;
  files <- read selected_files ;;
  list_files files.

(** [select_files]; [files] is what the file dialog returns, empty when it
    was cancelled. *)
Definition select_files (files : list string) : Eff.t app unit :=
  match files with
  | [] => Eff.ret tt
  | _ :: _ =>
      update (set_selected_files files) ;;
      update_files_listbox ;;
      check_conversion_ready
  end.

(** [select_output_folder]; [folder] is what the directory dialog returns,
    empty when it was cancelled. *)
Definition select_output_folder (folder : string) : Eff.t app unit :=
  if negb (String.eqb folder "") then
    update (set_output_folder folder) ;;
    update (set_output_folder_label (Some folder)) ;;
    check_conversion_ready
  else Eff.ret tt.

(** [start_conversion], up to the start of the worker thread, which is
    noted with the output format it captures. *)
Definition start_conversion : Eff.t app unit :=
  files <- read selected_files ;;
  match files with
  | [] => show WarnNoFiles
  | _ :: _ =>
      folder <- read output_folder ;;
      if String.eqb folder "" then show WarnNoOutputFolder
      else
        update (set_convert_btn (disabled, ConvertingNow)) ;;
        update (set_progress_text []) ;;
        output_format <- read format_dropdown ;;
        update (fun a =>
                  set_conversion_threads
                    (conversion_threads a ++ [output_format]) a)
  end.

Definition conversion_complete : Eff.t app unit :=
  log_progress AllCompletedNote ;;
  update (set_convert_btn (normal, StartConversion)) ;;
  show InfoComplete.

Definition conversion_error (error_msg : exn) : Eff.t app unit :=
  log_progress (ConversionErrorNote error_msg) ;;
  update (set_convert_btn (normal, StartConversion)) ;;
  show (ErrorConversionFailed error_msg).

(** The [for thread in self.conversion_threads:] loop of [on_closing],
    from the thread with index [i] on.  [alive i] is what [is_alive()]
    returns for that thread, [response] what the user answers.  The value
    is [false] when the handler returned from inside the loop. *)
Fixpoint ask_running (i : nat) (threads : list string) (alive : nat -> bool)
         (response : bool) : Eff.t app bool :=
  match threads with
  | [] => Eff.ret true
  | _ :: threads' =>
      if alive i then
        show AskExit ;;
        if negb response then Eff.ret false     (* [return] *)
        else Eff.ret true                       (* [break] *)
      else ask_running (S i) threads' alive response
  end.

Definition on_closing (alive : nat -> bool) (response : bool)
  : Eff.t app unit :=
  threads <- read conversion_threads ;;
  go_on <- ask_running 0 threads alive response ;;
  if go_on : bool then update (set_destroyed true) else Eff.ret tt.

(** What the Tk loop does with a call that a worker queued. *)
Definition dispatch (c : tk_call) : Eff.t app unit :=
  match c with
  | LogProgress m => log_progress (FromWorker m)
  | ConversionComplete => conversion_complete
  | ConversionErrorDialog e => conversion_error e
  end.

Fixpoint drain (q : list tk_call) : Eff.t app unit :=
  match q with
  | [] => Eff.ret tt
  | c :: q' => dispatch c ;; drain q'
  end.

End Handlers.

(** What can happen to the window: the user acts, or the Tk loop runs a
    queued call.  The calls that the status and the installer threads
    queue are events of their own as well, with any argument and at any
    time. *)
Inductive event : Type :=
| SelectFiles (files : list string)
| SelectOutputFolder (folder : string)
| SetFormat (format : string)     (* a choice in the format dropdown *)
| StartConversionClicked
| InstallClicked (system : string)
| StatusChecked                  (* the status check at start-up *)
| StatusUpdate (is_installed : bool)    (* a queued [update_ffmpeg_status] *)
| InstallComplete (success : bool)      (* a queued [ffmpeg_install_complete] *)
| InstallError (e : exn)                (* a queued [ffmpeg_install_error] *)
| Queued (c : tk_call)                  (* a call queued by a worker *)
| Closing (alive : nat -> bool) (response : bool).

Definition handle (w : world) (json_loads : string -> option json)
           (ev : event) : Eff.t app unit :=
  match ev with
  | SelectFiles files => select_files w json_loads files
  | SelectOutputFolder folder => select_output_folder w folder
  | SetFormat format =>
      fun a =>
        (Ret tt,
         mkApp (selected_files a) (output_folder a) (conversion_threads a)
               (ffmpeg_status_label a) (install_ffmpeg_btn a) (convert_btn a)
               (files_listbox a) (output_folder_label a) format
               (progress_text a) (dialogs a) (destroyed a) (os a))
  | StartConversionClicked => start_conversion
  | InstallClicked system => install_ffmpeg w system
  | StatusChecked => check_ffmpeg_status w
  | StatusUpdate is_installed => update_ffmpeg_status w is_installed
  | InstallComplete success => ffmpeg_install_complete w success
  | InstallError e => ffmpeg_install_error e
  | Queued c => dispatch c
  | Closing alive response => on_closing alive response
  end.

(** The window after a sequence of events, each with what the machine
    answers at its time; a handler that raises leaves the window as it was
    when the exception left it. *)
Fixpoint after_events (json_loads : string -> option json)
         (evs : list (world * event)) (a : app) : app :=
  match evs with
  | [] => a
  | (w, ev) :: evs' =>
      after_events json_loads evs' (snd (handle w json_loads ev a))
  end.

End App.

(* ================================================================== *)
(** * Notions used in the statements about the machine and the window *)
(* ================================================================== *)

(** The value of [os.environ.get("PATH", "")] on a machine. *)
Definition session_path (m : machine) : string :=
  match PATH m with
  | Some p => p
  | None => EmptyString
  end.

Definition in_home (files : list (string * file)) (name : string) : bool :=
  match lookup files name with
  | Some _ => true
  | None => false
  end.

(** The first of the three shell profiles that exists. *)
Definition first_profile (files : list (string * file)) : option string :=
  find (in_home files) [".bashrc"; ".zshrc"; ".profile"]%string.

(** [subprocess.run(cmd)] returns with exit status 0. *)
Definition exits_zero (w : world) (cmd : list string) : bool :=
  match answer w cmd with
  | Completed returncode _ => (returncode =? 0)%Z
  | RunRaises _ => false
  end.

(** The command that tests whether a package manager exists:
    [update_cmd[:1] + ["--version"]]. *)
Definition version_cmd (update_cmd : list string) : list string :=
  firstn 1 update_cmd ++ ["--version"]%string.

(** The test of a package manager fails in a way that lets the loop go
    on: the command is not found, or it exits with a status that is not
    zero. *)
Definition not_usable (w : world) (update_cmd : list string) : bool :=
  match answer w (version_cmd update_cmd) with
  | RunRaises e => handles [CalledProcessError; FileNotFoundError] e
  | Completed returncode _ => negb (returncode =? 0)%Z
  end.

Definition snap_cmd : list string := ["snap"; "install"; "ffmpeg"]%string.

(** The machine apart from the commands run and the lines printed. *)
Definition same_files (m m' : machine) : Prop :=
  attempted m' = attempted m /\ PATH m' = PATH m
  /\ home_files m' = home_files m.

(** [m'] differs from [m] neither in PATH nor in the regular files that
    lie directly in the home directory (the shell profiles among them), and
    no [powershell] command was run in between. *)
Definition untouched (m m' : machine) : Prop :=
  PATH m' = PATH m /\ home_files m' = home_files m
  /\ forall c, In c (ran m') ->
               In c (ran m) \/ hd EmptyString c <> "powershell"%string.

(** A computation that leaves the machine untouched, however it ends. *)
Definition safe (A : Type) (c : Eff.t machine A) : Prop :=
  forall m, untouched m (snd (c m)).

(** An installer that touches the machine only on its way to returning
    [True], or to an exception that is no instance of [Exception]. *)
Definition guarded (c : Eff.t machine bool) : Prop :=
  forall m,
    fst (c m) = Ret true
    \/ (exists e, fst (c m) = Raise e /\ is_exception e = false)
    \/ untouched m (snd (c m)).

(** The attributes and widgets of the window that tell what is selected
    and what was started. *)
Definition same_session (a a' : App.app) : Prop :=
  App.selected_files a' = App.selected_files a
  /\ App.output_folder a' = App.output_folder a
  /\ App.conversion_threads a' = App.conversion_threads a
  /\ App.files_listbox a' = App.files_listbox a
  /\ App.output_folder_label a' = App.output_folder_label a
  /\ snd (App.convert_btn a') = snd (App.convert_btn a).

(** What holds of the window at all times. *)
Definition window_invariant (a : App.app) : Prop :=
  (App.conversion_threads a <> [] ->
   App.selected_files a <> [] /\ App.output_folder a <> EmptyString)
  /\ (snd (App.convert_btn a) = App.ConvertingNow ->
      App.conversion_threads a <> [])
  /\ App.output_folder_label a
     = (if String.eqb (App.output_folder a) "" then None
        else Some (App.output_folder a))
  /\ (length (App.files_listbox a) <= length (App.selected_files a))%nat.

(** Whether one of the first [n] started workers is alive. *)
Definition some_alive (alive : nat -> bool) (n : nat) : bool :=
  existsb alive (seq 0 n).

(** The command for one file of a batch: the output file is in the
    output folder, named after the input file with the output format as
    its extension. *)
Definition job_cmd (output_folder output_format input_file : string)
  : list string :=
  let filename := OsPath.basename input_file in
  let base_name := fst (OsPath.splitext filename) in
  convert_video_cmd
    input_file
    (OsPath.join output_folder (base_name ++ "." ++ output_format)%string)
    output_format.

(** The entry of the files listbox for a file and its format. *)
Definition listbox_entry (file_path format : string) : string :=
  (OsPath.basename file_path ++ " (" ++ format ++ ")")%string.

(* ================================================================== *)
(** * Sample machines and windows *)
(* ================================================================== *)

Module Desk.

(** A machine on which nothing has happened: PATH holds one directory, and
    the home directory has a [.zshrc] and a [.profile]. *)
Definition fresh : machine :=
  mkMachine [] [] [] (Some "/usr/bin"%string)
            [(".zshrc"%string, mkFile "# zsh" None);
             (".profile"%string, mkFile "# profile" None)].

(** Every command exits with status 0 and prints nothing, every file
    operation works, and an earlier installation is in place. *)
Definition obliging : world :=
  mkWorld (fun _ => Completed 0 EmptyString) (fun _ => None)
          (Ret "/home/u"%string) ["ffmpeg-7.0-essentials_build"%string]
          true true.

(** No command is installed; the file operations work. *)
Definition bare : world :=
  mkWorld (fun _ => RunRaises FileNotFoundError) (fun _ => None)
          (Ret "/home/u"%string) ["ffmpeg-6.0"%string] true false.

(** [apt] is not installed, [yum] is there but broken, everything else
    works. *)
Definition fedora : world :=
  mkWorld (fun cmd =>
             if String.eqb (hd EmptyString cmd) "apt"
             then RunRaises FileNotFoundError
             else if String.eqb (hd EmptyString cmd) "yum"
                  then Completed 127 EmptyString
                  else Completed 0 EmptyString)
          (fun _ => None) (Ret "/home/u"%string) [] false false.

(** [apt] may not be executed. *)
Definition locked : world :=
  mkWorld (fun cmd =>
             if String.eqb (hd EmptyString cmd) "apt"
             then RunRaises PermissionError
             else Completed 0 EmptyString)
          (fun _ => None) (Ret "/home/u"%string) [] false false.

(** The user's PATH on Windows is one directory, printed with a line
    end. *)
Definition windows : world :=
  mkWorld (fun _ => Completed 0 ("C:\Windows" ++ Examples.LF)%string)
          (fun _ => None) (Ret "C:\Users\u"%string)
          ["ffmpeg-7.0-essentials_build"%string] true true.

(** What [json.loads] makes of the answer of [ffprobe] for a QuickTime
    file, and of an answer without a format. *)
Definition quicktime (stdout : string) : option json :=
  Some (JObject
          [("format"%string,
            JObject [("filename"%string, JString "/home/u/videos/clip.bin");
                     ("format_name"%string,
                      JString "mov,mp4,m4a,3gp,3g2,mj2")])]).

Definition no_format (stdout : string) : option json :=
  Some (JObject [("streams"%string, JArray [])]).

(** A window with one file selected and an output folder chosen. *)
Definition ready : App.app :=
  App.mkApp ["/home/u/videos/a.avi"%string] "/home/u/out" []
            App.Ready (App.disabled, App.InstallFFmpeg)
            (App.normal, App.StartConversion) ["a.avi (avi)"%string]
            (Some "/home/u/out"%string) "mp4" [] [] false fresh.

End Desk.

(* ================================================================== *)
(** * The model at work *)
(* ================================================================== *)

Example search_progress_line :
  Re.search Examples.at_5s = Some ("00", "00", "05", "00")%string.
Proof. reflexivity. Qed.

Example search_takes_first_token :
  Re.search "time=N/A time=1:2:3.4 time=5:6:7.8"
  = Some ("1", "2", "3", "4")%string.
Proof. reflexivity. Qed.

Example search_without_fraction : Re.search "time=00:00:05" = None.
Proof. reflexivity. Qed.

Example cmd_mp4 :
  convert_video_cmd "in.avi" "out.mp4" "mp4"
  = ["ffmpeg"; "-i"; "in.avi"; "-c:v"; "libx264"; "-c:a"; "aac";
     "-preset"; "medium"; "-crf"; "23"; "-movflags"; "+faststart"; "-y";
     "out.mp4"]%string.
Proof. reflexivity. Qed.

Example cmd_mov_upper_case :
  convert_video_cmd "in.avi" "out.MOV" "MOV"
  = ["ffmpeg"; "-i"; "in.avi"; "-c:v"; "libx264";
     "-c:v"; "libx264"; "-c:a"; "aac";
     "-preset"; "medium"; "-crf"; "23"; "-movflags"; "+faststart"; "-y";
     "out.MOV"]%string.
Proof. reflexivity. Qed.

Example strip_duration :
  strip ("  90.000000" ++ Examples.LF) = "90.000000"%string.
Proof. reflexivity. Qed.

Example output_path :
  OsPath.join "/home/u/out"
              (fst (OsPath.splitext (OsPath.basename "/home/u/v/clip.2.avi"))
                   ++ "." ++ "mp4")
  = "/home/u/out/clip.2.mp4"%string.
Proof. reflexivity. Qed.

Example splitext_hidden_file :
  OsPath.splitext ".profile" = (".profile", "")%string.
Proof. reflexivity. Qed.

Example timeout_is_subprocess_error :
  issubclass TimeoutExpired SubprocessError = true
  /\ issubclass PermissionError SubprocessError = false
  /\ issubclass PermissionError Exception = true
  /\ issubclass KeyboardInterrupt Exception = false.
Proof. repeat split. Qed.

Example job_ok_run :
  convert_video decimal_float Examples.job_ok
                "/home/u/videos/a.avi" "/home/u/out/a.mp4" "mp4"
                (Some Examples.quiet) (initial_state None)
  = (Ret true,
     mkState [RunningCommand
                (convert_video_cmd "/home/u/videos/a.avi"
                                   "/home/u/out/a.mp4" "mp4")]
             [convert_video_cmd "/home/u/videos/a.avi"
                                "/home/u/out/a.mp4" "mp4"]
             [(500 # 100) / (10000000 # 1000000) * 100;
              (1000 # 100) / (10000000 # 1000000) * 100]
             [(500 # 100, 10000000 # 1000000);
              (1000 # 100, 10000000 # 1000000)]
             (mkTk [] None)).
Proof. vm_compute. reflexivity. Qed.

Example batch_run :
  tk_queue
    (gui (snd (conversion_thread decimal_float Examples.worlds
                                 ["/home/u/videos/a.avi";
                                  "/home/u/videos/b.mkv"]%string
                                 "/home/u/out" "mp4" (initial_state None))))
  = [LogProgress (Converting "a.avi");
     LogProgress (Progress ((500 # 100) / (10000000 # 1000000) * 100));
     LogProgress (Progress ((1000 # 100) / (10000000 # 1000000) * 100));
     LogProgress (Converted "a.avi");
     LogProgress (Converting "b.mkv");
     LogProgress (Progress ((500 # 100) / (10000000 # 1000000) * 100));
     LogProgress (FailedToConvert "b.mkv");
     ConversionComplete].
Proof. vm_compute. reflexivity. Qed.

(* ================================================================== *)
(** * Exceptions and the two probes *)
(* ================================================================== *)

Lemma is_exception_spec (e : exn) :
  is_exception e = true <-> e <> BaseException /\ e <> KeyboardInterrupt.
Proof.
  destruct e; cbv; split; try reflexivity; try discriminate;
    try (intros [H1 H2]; congruence); split; discriminate.
Qed.

Lemma probe_true_only_on_zero (run : run_result) :
  is_ffmpeg_installed run = Ret true ->
  exists out, run = Completed 0 out.
Proof.
  destruct run as [e | rc out]; unfold is_ffmpeg_installed, try_pure.
  - destruct (handles _ e); discriminate.
  - intros H. injection H as H. apply Z.eqb_eq in H. subst. now exists out.
Qed.

Lemma probe_false_on_listed (e : exn) :
  handles [TimeoutExpired; FileNotFoundError; SubprocessError] e = true ->
  is_ffmpeg_installed (RunRaises e) = Ret false.
Proof.
  intros H. unfold is_ffmpeg_installed, try_pure. now rewrite H.
Qed.

(** C5.  A spawn failure that is not one of the three listed classes is
    not turned into [False]: when [ffmpeg] is found but may not be executed,
    [subprocess.run] raises [PermissionError] and [is_ffmpeg_installed]
    lets it through to its caller; the same happens with any other
    [OSError]. *)
Theorem is_ffmpeg_installed_propagates_permission_error :
  is_ffmpeg_installed (RunRaises PermissionError) = Raise PermissionError
  /\ is_ffmpeg_installed (RunRaises OSError) = Raise OSError
  /\ is_ffmpeg_installed (RunRaises FileNotFoundError) = Ret false
  /\ is_ffmpeg_installed (RunRaises TimeoutExpired) = Ret false.
Proof.
  repeat split.
Qed.

(** C6.  The duration probe returns [None], and raises nothing, when the
    [ffprobe] run times out (or raises any other instance of [Exception]),
    exits with a non-zero status, prints nothing but white space, or prints
    something that [float] rejects. *)
Theorem get_video_duration_absent
        (float : string -> option Q) (run : run_result) :
  (exists e, run = RunRaises e /\ is_exception e = true)
  \/ (exists rc out,
        run = Completed rc out
        /\ (rc <> 0%Z \/ strip out = EmptyString \/ float (strip out) = None)) ->
  _get_video_duration float run = Ret None.
Proof.
  intros [(e & -> & He) | (rc & out & -> & H)];
    unfold _get_video_duration, try_pure.
  - unfold is_exception in He. now rewrite He.
  - destruct (Z.eqb_spec rc 0) as [-> | Hrc]; [ | reflexivity ].
    destruct (String.eqb_spec (strip out) "") as [E | E]; [ reflexivity | ].
    destruct H as [H | [H | H]]; [ congruence | congruence | ].
    now rewrite H.
Qed.

Lemma get_video_duration_witness :
  _get_video_duration decimal_float (RunRaises TimeoutExpired) = Ret None
  /\ _get_video_duration decimal_float (Completed 1 "90.000000") = Ret None
  /\ _get_video_duration decimal_float (Completed 0 "N/A") = Ret None.
Proof.
  split; [ | split ].
  - apply get_video_duration_absent. left. exists TimeoutExpired.
    split; reflexivity.
  - apply get_video_duration_absent. right. exists 1%Z, "90.000000"%string.
    split; [ reflexivity | left; discriminate ].
  - apply get_video_duration_absent. right. exists 0%Z, "N/A"%string.
    split; [ reflexivity | right; right; reflexivity ].
Defined.

(* ================================================================== *)
(** * The loop over the diagnostic stream *)
(* ================================================================== *)

Ltac unfold_py :=
  unfold bind, ret, raise, lift, print, Popen, divide, call, on_gui,
    root_after, try_except in *.

Lemma truthy_nonzero (d : Q) : truthy (Some d) = true -> ~ d == 0.
Proof.
  unfold truthy. intros H E. apply Qeq_bool_iff in E. rewrite E in H.
  discriminate.
Qed.

Lemma search_empty : Re.search "" = None.
Proof. reflexivity. Qed.

(** One line with a truthy duration, case by case. *)
Lemma report_progress_cases (c : callback) (d : Q) (line : string)
      (st : state) :
  truthy (Some d) = true ->
  match elapsed line with
  | None => report_progress c d line st = (Ret tt, st)
  | Some (Raise e) => report_progress c d line st = (Raise e, st)
  | Some (Ret t) =>
      report_progress c d line st
      = (fst (c (percent d t) (gui st)),
         mkState (stdout_lines st) (popen_calls st)
                 (callback_calls st ++ [percent d t])
                 (divisions st ++ [(t, d)])
                 (snd (c (percent d t) (gui st))))
  end.
Proof.
  intros Hd. unfold elapsed, report_progress.
  destruct (Re.search line) as [g | ]; cbn [option_map]; [ | reflexivity ].
  destruct (current_time g) as [t | e]; unfold_py; cbn; [ | reflexivity ].
  unfold float_truediv. unfold truthy in Hd.
  destruct (Qeq_bool d 0); [ discriminate | ]. cbn.
  unfold percent. destruct (c _ (gui st)); reflexivity.
Qed.

(** What holds before the loop and is kept by every reported line holds
    after the loop. *)
Lemma read_lines_invariant (P : state -> Prop) (cb : option callback)
      (duration : option Q) (reads : list read) :
  (forall c d line st,
      cb = Some c -> duration = Some d -> truthy duration = true ->
      P st -> P (snd (report_progress c d line st))) ->
  forall st, P st -> P (snd (read_lines cb duration reads st)).
Proof.
  intros Hstep. induction reads as [ | [line | e] reads IH]; intros st HP;
    cbn [read_lines]; try exact HP.
  destruct (String.eqb line ""); [ exact HP | ].
  unfold bind at 1.
  destruct cb as [c | ]; [ destruct duration as [d | ] | ];
    try (unfold ret at 1; now apply IH).
  pose proof (fun H => Hstep c d line st eq_refl eq_refl H HP) as Hs.
  destruct (truthy (Some d)); [ | unfold ret at 1; now apply IH ].
  specialize (Hs eq_refl).
  destruct (report_progress c d line st) as [[[] | e] st1]; cbn in *.
  - now apply IH.
  - exact Hs.
Qed.

(** Without a callback or without a truthy duration the loop leaves the
    state alone. *)
Lemma read_lines_idle (cb : option callback) (duration : option Q)
      (reads : list read) (st : state) :
  cb = None \/ truthy duration = false ->
  snd (read_lines cb duration reads st) = st.
Proof.
  intros H. apply read_lines_invariant with (P := fun st' => st' = st);
    [ | reflexivity ].
  intros c d line st0 Hc Hd Ht _. destruct H as [H | H]; congruence.
Qed.

Lemma read_lines_idle_result (cb : option callback) (duration : option Q)
      (reads : list read) (st : state) :
  cb = None \/ truthy duration = false ->
  all_lines reads = true ->
  fst (read_lines cb duration reads st) = Ret tt.
Proof.
  intros H. induction reads as [ | [line | e] reads IH]; cbn; intros Hl;
    try reflexivity; try discriminate.
  destruct (String.eqb line ""); [ reflexivity | ].
  unfold bind at 1.
  destruct cb as [c | ]; [ destruct duration as [d | ] | ];
    try (unfold ret at 1; now apply IH).
  destruct (truthy (Some d)) eqn:Hd; [ | unfold ret at 1; now apply IH ].
  destruct H; discriminate.
Qed.

(** The loop prints nothing and spawns nothing. *)
Lemma read_lines_stdout (cb : option callback) (duration : option Q)
      (reads : list read) (st : state) :
  stdout_lines (snd (read_lines cb duration reads st)) = stdout_lines st
  /\ popen_calls (snd (read_lines cb duration reads st)) = popen_calls st.
Proof.
  apply read_lines_invariant
    with (P := fun st' => stdout_lines st' = stdout_lines st
                          /\ popen_calls st' = popen_calls st);
    [ | now split ].
  intros c d line st0 _ -> Ht H.
  pose proof (report_progress_cases c d line st0 Ht) as Hc.
  destruct (elapsed line) as [[t | e] | ]; rewrite Hc; exact H.
Qed.

(** The percentages handed to the callback are those of a prefix of the
    timestamps of the stream, in order. *)
Lemma read_lines_calls (c : callback) (d : Q) (reads : list read) :
  truthy (Some d) = true ->
  forall st,
  exists k,
    callback_calls (snd (read_lines (Some c) (Some d) reads st))
    = callback_calls st ++ map (percent d) (firstn k (timestamps reads)).
Proof.
  intros Hd. induction reads as [ | [line | e] reads IH]; intros st;
    cbn [read_lines timestamps].
  - exists 0%nat. cbn. now rewrite app_nil_r.
  - destruct (String.eqb_spec line "") as [-> | Hne].
    + exists 0%nat. cbn. now rewrite app_nil_r.
    + unfold bind at 1. rewrite Hd.
      pose proof (report_progress_cases c d line st Hd) as Hc.
      destruct (elapsed line) as [[t | e] | ]; rewrite Hc.
      * destruct (c (percent d t) (gui st)) as [[[] | e] g]; cbn [fst snd].
        -- match goal with |- context [read_lines _ _ _ ?s] =>
             destruct (IH s) as [k Hk] end.
           exists (S k). rewrite Hk. cbn. now rewrite <- app_assoc.
        -- exists 1%nat. reflexivity.
      * exists 0%nat. cbn. now rewrite app_nil_r.
      * apply IH.
  - exists 0%nat. cbn. now rewrite app_nil_r.
Qed.

(** Every division of the loop has a divisor that is not zero. *)
Lemma read_lines_divisions (cb : option callback) (duration : option Q)
      (reads : list read) (st : state) :
  exists new,
    divisions (snd (read_lines cb duration reads st)) = divisions st ++ new
    /\ Forall (fun xy => ~ snd xy == 0) new.
Proof.
  apply read_lines_invariant
    with (P := fun st' => exists new,
                   divisions st' = divisions st ++ new
                   /\ Forall (fun xy => ~ snd xy == 0) new).
  - intros c d line st0 _ -> Ht (new & Hn & Hf).
    pose proof (report_progress_cases c d line st0 Ht) as Hc.
    destruct (elapsed line) as [[t | e] | ]; rewrite Hc; cbn [snd divisions];
      try (now exists new).
    exists (new ++ [(t, d)]). rewrite Hn, app_assoc. split; [ reflexivity | ].
    apply Forall_app. split; [ exact Hf | ].
    constructor; [ | constructor ]. cbn. now apply truthy_nonzero.
  - exists []. rewrite app_nil_r. now split.
Qed.

(** An exception that leaves the loop comes from a read, from the
    conversion of the timestamp, or from the callback. *)
Lemma read_lines_raises (cb : option callback) (duration : option Q)
      (reads : list read) (st : state) (e : exn) :
  fst (read_lines cb duration reads st) = Raise e ->
  In e (read_faults reads) \/ e = OverflowError
  \/ exists c p g, cb = Some c /\ fst (c p g) = Raise e.
Proof.
  revert st. induction reads as [ | [line | e'] reads IH]; intros st;
    cbn [read_lines read_faults].
  - discriminate.
  - destruct (String.eqb line ""); [ discriminate | ].
    unfold bind at 1.
    destruct cb as [c | ]; [ destruct duration as [d | ] | ];
      try (unfold ret at 1; now apply IH).
    destruct (truthy (Some d)) eqn:Hd; [ | unfold ret at 1; now apply IH ].
    pose proof (report_progress_cases c d line st Hd) as Hc.
    unfold elapsed in Hc.
    destruct (Re.search line) as [g | ]; cbn [option_map] in Hc.
    + destruct (current_time g) as [t | e0] eqn:Hg; rewrite Hc.
      * destruct (c (percent d t) (gui st)) as [[[] | e1] g1] eqn:Hcall;
          cbn [fst snd].
        -- apply IH.
        -- intros H. injection H as <-. right. right.
           exists c, (percent d t), (gui st). now rewrite Hcall.
      * cbn. intros H. injection H as <-. right. left.
        unfold current_time in Hg. destruct g as [[[g1 g2] g3] g4].
        unfold int_truediv, float_of_int in Hg.
        repeat match type of Hg with
               | context [if ?b then _ else _] => destruct b
               end; congruence.
    + rewrite Hc. apply IH.
  - cbn. intros H. injection H as <-. left. now left.
Qed.

(* ================================================================== *)
(** * Timestamps and percentages *)
(* ================================================================== *)

Lemma digits_spec (s : string) :
  forall d r, Re.digits s = (d, r) ->
              s = (d ++ r)%string /\ all_digits d = true
              /\ no_digit_ahead r = true.
Proof.
  induction s as [ | c s IH]; cbn; intros d r H.
  - injection H as <- <-. repeat split.
  - destruct (isdigit c) eqn:Hc.
    + destruct (Re.digits s) as [d' r'] eqn:Hs. injection H as <- <-.
      destruct (IH d' r' eq_refl) as (-> & Hd & Hr). cbn. rewrite Hc.
      repeat split; assumption.
    + injection H as <- <-. cbn. rewrite Hc. repeat split.
Qed.

Lemma digits1_spec (s d r : string) :
  Re.digits1 s = Some (d, r) ->
  s = (d ++ r)%string /\ number d /\ no_digit_ahead r = true.
Proof.
  unfold Re.digits1, number. destruct (Re.digits s) as [d' r'] eqn:Hs.
  destruct (digits_spec s Hs) as (-> & Hd & Hr).
  destruct d' as [ | c d']; [ discriminate | ].
  intros H. injection H as <- <-. repeat split; try assumption. discriminate.
Qed.



Lemma digit_value_nonneg (c : ascii) :
  isdigit c = true -> (0 <= digit_value c)%Z.
Proof.
  destruct c as [[ | ] [ | ] [ | ] [ | ] [ | ] [ | ] [ | ] [ | ]];
    intros H; try discriminate H; cbv; discriminate.
Qed.

Lemma int_acc_nonneg (s : string) :
  all_digits s = true -> forall acc, (0 <= acc)%Z -> (0 <= int_acc acc s)%Z.
Proof.
  induction s as [ | c s IH]; cbn [int_acc all_digits]; intros H acc Hacc;
    [ exact Hacc | ].
  apply andb_prop in H as [Hc Hs]. apply IH; [ exact Hs | ].
  pose proof (digit_value_nonneg c Hc). lia.
Qed.

Lemma int_nonneg (s : string) : number s -> (0 <= int s)%Z.
Proof. intros [_ H]. now apply int_acc_nonneg. Qed.

Lemma current_time_formula (g1 g2 g3 g4 : string) (t : Q) :
  current_time (g1, g2, g3, g4) = Ret t ->
  t = inject_Z (int g1 * 3600 + int g2 * 60 + int g3) + (int g4 # 100).
Proof.
  unfold current_time, int_truediv, float_of_int.
  repeat match goal with
         | |- context [if ?b then _ else _] => destruct b
         end; congruence.
Qed.












(* ================================================================== *)
(** * convert_video *)
(* ================================================================== *)

Section ConvertVideo.

Variable float : string -> option Q.
Variable env : job_env.
Variables input_file output_file output_format : string.
Variable cb : option callback.

Local Abbreviation cmd :=
  (convert_video_cmd input_file output_file output_format).
Local Abbreviation duration := (_get_video_duration float (ffprobe env)).

Lemma run_ffmpeg_cases (st : state) :
  run_ffmpeg float env input_file output_file output_format cb st
  = match popen_raises env with
    | Some e => (Raise e, spawn_state cmd st)
    | None =>
        match duration with
        | Raise e => (Raise e, spawn_state cmd st)
        | Ret d =>
            match read_lines cb d (stderr_reads env) (spawn_state cmd st) with
            | (Ret _, st2) => (Ret (wait env), st2)
            | (Raise e, st2) => (Raise e, st2)
            end
        end
    end.
Proof.
  unfold run_ffmpeg. unfold_py. cbn. unfold spawn_state.
  destruct (popen_raises env); [ reflexivity | ].
  destruct duration; reflexivity.
Qed.

Lemma convert_video_cases (st : state) :
  convert_video float env input_file output_file output_format cb st
  = match run_ffmpeg float env input_file output_file output_format cb st with
    | (Ret return_code, st2) =>
        if (return_code =? 0)%Z && path_exists env then (Ret true, st2)
        else (Ret false, snd (print (FFmpegFailed return_code) st2))
    | (Raise e, st2) =>
        if is_exception e
        then (Ret false, snd (print (ConversionError e) st2))
        else (Raise e, st2)
    end.
Proof.
  unfold convert_video, try_except, bind at 1.
  destruct (run_ffmpeg _ _ _ _ _ _ st) as [[rc | e] st2].
  - destruct ((rc =? 0)%Z && path_exists env); reflexivity.
  - unfold is_exception. destruct (handles [Exception] e); reflexivity.
Qed.

(** The state after [convert_video] is, up to what was printed, the state
    after the spawn or the state after the loop. *)
Lemma convert_video_state (st : state) :
  exists st2,
    (st2 = spawn_state cmd st
     \/ exists d, duration = Ret d
                  /\ st2 = snd (read_lines cb d (stderr_reads env)
                                           (spawn_state cmd st)))
    /\ let st' := snd (convert_video float env input_file output_file
                                     output_format cb st) in
       popen_calls st' = popen_calls st2
       /\ callback_calls st' = callback_calls st2
       /\ divisions st' = divisions st2
       /\ gui st' = gui st2.
Proof.
  rewrite convert_video_cases, run_ffmpeg_cases.
  destruct (popen_raises env) as [e | ].
  - exists (spawn_state cmd st). split; [ now left | ].
    destruct (is_exception e); repeat split.
  - destruct duration as [d | e] eqn:Hd.
    + exists (snd (read_lines cb d (stderr_reads env) (spawn_state cmd st))).
      split; [ right; now exists d | ].
      destruct (read_lines cb d _ _) as [[[] | e] st2]; cbn [snd].
      * destruct ((wait env =? 0)%Z && path_exists env); repeat split.
      * destruct (is_exception e); repeat split.
    + exists (spawn_state cmd st). split; [ now left | ].
      destruct (is_exception e); repeat split.
Qed.

(** The command that [convert_video] gives to [Popen]. *)
Lemma convert_video_popen (st : state) :
  popen_calls (snd (convert_video float env input_file output_file
                                  output_format cb st))
  = popen_calls st ++ [cmd].
Proof.
  destruct (convert_video_state st) as (st2 & [-> | (d & _ & ->)] & H & _);
    cbv zeta in H; rewrite H; [ reflexivity | ].
  now rewrite (proj2 (read_lines_stdout _ _ _ _)).
Qed.

(** The percentages that [convert_video] hands to the callback. *)
Lemma convert_video_calls (st : state) :
  exists new,
    callback_calls (snd (convert_video float env input_file output_file
                                       output_format cb st))
    = callback_calls st ++ new
    /\ (new = []
        \/ exists d k,
             duration = Ret (Some d) /\ truthy (Some d) = true
             /\ new = map (percent d) (firstn k (timestamps (stderr_reads env)))).
Proof.
  destruct (convert_video_state st) as (st2 & [-> | (d & Hd & ->)] & _ & H & _);
    cbv zeta in H; rewrite H.
  - exists []. cbn. rewrite app_nil_r. split; [ reflexivity | now left ].
  - destruct cb as [c | ] eqn:Hcb;
      [ destruct d as [q | ]; [ destruct (truthy (Some q)) eqn:Hq | ] | ].
    + destruct (@read_lines_calls c q (stderr_reads env) Hq (spawn_state cmd st))
        as [k Hk].
      exists (map (percent q) (firstn k (timestamps (stderr_reads env)))).
      split; [ exact Hk | right; now exists q, k ].
    + rewrite read_lines_idle by now right.
      exists []. cbn. rewrite app_nil_r. split; [ reflexivity | now left ].
    + rewrite read_lines_idle by now right.
      exists []. cbn. rewrite app_nil_r. split; [ reflexivity | now left ].
    + rewrite read_lines_idle by now left.
      exists []. cbn. rewrite app_nil_r. split; [ reflexivity | now left ].
Qed.

Lemma convert_video_succeeds_iff (st : state) :
  fst (convert_video float env input_file output_file output_format cb st)
  = Ret true
  <-> fst (run_ffmpeg float env input_file output_file output_format cb st)
      = Ret 0%Z
      /\ path_exists env = true.
Proof.
  rewrite convert_video_cases.
  destruct (run_ffmpeg _ _ _ _ _ _ st) as [[rc | e] st2]; cbn [fst].
  - destruct (Z.eqb_spec rc 0) as [-> | Hrc]; cbn [andb].
    + destruct (path_exists env); cbn; split; try tauto; try discriminate.
      intros [_ H]. discriminate.
    + cbn. split; [ discriminate | ]. intros [H _]. congruence.
  - destruct (is_exception e); cbn; split; try discriminate;
      intros [H _]; discriminate.
Qed.

End ConvertVideo.

(* ================================================================== *)
(** * Properties of convert_video *)
(* ================================================================== *)

(** C2, as the code has it.  [convert_video] returns [True] exactly when
    the subprocess was run to its exit without an exception, its exit
    status is 0 and the output file exists; the size of the file plays no
    part.  With exit status 1 it returns [False], whether or not the file
    exists. *)
Theorem convert_video_success_iff
        (float : string -> option Q) (env : job_env)
        (input_file output_file output_format : string)
        (cb : option callback) (st : state) :
  (fst (convert_video float env input_file output_file output_format cb st)
   = Ret true
   <-> fst (run_ffmpeg float env input_file output_file output_format cb st)
       = Ret 0%Z
       /\ path_exists env = true)
  /\ (fst (run_ffmpeg float env input_file output_file output_format cb st)
      = Ret 1%Z ->
      fst (convert_video float env input_file output_file output_format cb st)
      = Ret false).
Proof.
  split; [ apply convert_video_succeeds_iff | ].
  rewrite convert_video_cases.
  destruct (run_ffmpeg _ _ _ _ _ _ st) as [[rc | e] st2]; cbn [fst];
    [ | discriminate ].
  intros H. injection H as ->. reflexivity.
Qed.

Lemma convert_video_success_witness :
  fst (convert_video decimal_float Examples.job_ok
                     "/home/u/videos/a.avi" "/home/u/out/a.mp4" "mp4"
                     (Some Examples.quiet) (initial_state None))
  = Ret true
  /\ fst (convert_video decimal_float Examples.job_exit_1
                        "/home/u/videos/a.avi" "/home/u/out/a.mp4" "mp4"
                        (Some Examples.quiet) (initial_state None))
     = Ret false.
Proof.
  split.
  - apply (convert_video_success_iff decimal_float Examples.job_ok
             "/home/u/videos/a.avi" "/home/u/out/a.mp4" "mp4"
             (Some Examples.quiet) (initial_state None)).
    split; vm_compute; reflexivity.
  - apply (convert_video_success_iff decimal_float Examples.job_exit_1
             "/home/u/videos/a.avi" "/home/u/out/a.mp4" "mp4"
             (Some Examples.quiet) (initial_state None)).
    vm_compute. reflexivity.
Defined.

(** C2, counterexample.  The subprocess exits with status 0 and the output
    file exists but is empty: [convert_video] returns [True]. *)
Lemma empty_output_file_succeeds :
  fst (convert_video decimal_float Examples.job_empty_output
                     "/home/u/videos/a.avi" "/home/u/out/a.mp4" "mp4"
                     (Some Examples.quiet) (initial_state None))
  = Ret true
  /\ wait Examples.job_empty_output = 0%Z
  /\ output_file_size Examples.job_empty_output = Some 0%N.
Proof.
  repeat split; vm_compute; reflexivity.
Qed.




(** C7.  When the duration probe returns [None] the callback is never
    called, and the job is run all the same: the command is given to
    [Popen]; and when the spawn works and every read of the stream gives a
    line, the stream is read to its end, the exit status is awaited, and
    [convert_video] returns whether that status is 0 and the output file
    exists.  So it returns [True] when the subprocess exits with status 0
    and the output file exists and is not empty. *)
Theorem unknown_duration_still_succeeds
        (float : string -> option Q) (env : job_env)
        (input_file output_file output_format : string)
        (cb : option callback) (st : state) :
  _get_video_duration float (ffprobe env) = Ret None ->
  let cmd := convert_video_cmd input_file output_file output_format in
  let st' := snd (convert_video float env input_file output_file
                                output_format cb st) in
  callback_calls st' = callback_calls st
  /\ popen_calls st' = popen_calls st ++ [cmd]
  /\ (popen_raises env = None ->
      all_lines (stderr_reads env) = true ->
      read_lines cb None (stderr_reads env) (spawn_state cmd st)
      = (Ret tt, spawn_state cmd st)
      /\ run_ffmpeg float env input_file output_file output_format cb st
         = (Ret (wait env), spawn_state cmd st)
      /\ fst (convert_video float env input_file output_file output_format
                            cb st)
         = Ret ((wait env =? 0)%Z && path_exists env)
      /\ (wait env = 0%Z ->
          (exists n, output_file_size env = Some n /\ (0 < n)%N) ->
          fst (convert_video float env input_file output_file output_format
                             cb st)
          = Ret true)).
Proof.
  intros Hd. cbv zeta. split; [ | split ].
  - destruct (convert_video_calls float env input_file output_file
                                  output_format cb st)
      as (new & Hnew & [-> | (d & k & Hd' & _)]).
    + now rewrite app_nil_r in Hnew.
    + congruence.
  - apply convert_video_popen.
  - intros Hp Hl.
    assert (L : read_lines cb None (stderr_reads env)
                           (spawn_state (convert_video_cmd
                                           input_file output_file
                                           output_format) st)
                = (Ret tt,
                   spawn_state (convert_video_cmd input_file output_file
                                                  output_format) st)).
    { pose proof (@read_lines_idle_result cb None (stderr_reads env)
                    (spawn_state (convert_video_cmd input_file output_file
                                                    output_format) st)
                    (or_intror eq_refl) Hl) as Hr.
      pose proof (@read_lines_idle cb None (stderr_reads env)
                    (spawn_state (convert_video_cmd input_file output_file
                                                    output_format) st)
                    (or_intror eq_refl)) as Hs.
      destruct (read_lines cb None _ _) as [[[] | e] st2];
        cbn [fst snd] in Hr, Hs; [ now subst st2 | discriminate ]. }
    split; [ exact L | ].
    assert (R : run_ffmpeg float env input_file output_file output_format
                           cb st
                = (Ret (wait env),
                   spawn_state (convert_video_cmd input_file output_file
                                                  output_format) st)).
    { now rewrite run_ffmpeg_cases, Hp, Hd, L. }
    split; [ exact R | ].
    assert (C : fst (convert_video float env input_file output_file
                                   output_format cb st)
                = Ret ((wait env =? 0)%Z && path_exists env)).
    { rewrite convert_video_cases, R.
      now destruct ((wait env =? 0)%Z && path_exists env). }
    split; [ exact C | ].
    intros Hw (n & Hn & _). rewrite C, Hw. unfold path_exists.
    now rewrite Hn.
Qed.

Lemma unknown_duration_witness :
  callback_calls
    (snd (convert_video decimal_float Examples.job_no_duration
                        "/home/u/videos/a.avi" "/home/u/out/a.mp4" "mp4"
                        (Some Examples.quiet) (initial_state None)))
  = []
  /\ popen_calls
       (snd (convert_video decimal_float Examples.job_no_duration
                           "/home/u/videos/a.avi" "/home/u/out/a.mp4" "mp4"
                           (Some Examples.quiet) (initial_state None)))
     = [convert_video_cmd "/home/u/videos/a.avi" "/home/u/out/a.mp4" "mp4"]
  /\ fst (convert_video decimal_float Examples.job_no_duration
                        "/home/u/videos/a.avi" "/home/u/out/a.mp4" "mp4"
                        (Some Examples.quiet) (initial_state None))
     = Ret true.
Proof.
  destruct (unknown_duration_still_succeeds
              decimal_float Examples.job_no_duration
              "/home/u/videos/a.avi" "/home/u/out/a.mp4" "mp4"
              (Some Examples.quiet) (initial_state None) eq_refl)
    as (H1 & H2 & H3).
  split; [ exact H1 | ]. split; [ exact H2 | ].
  destruct (H3 eq_refl eq_refl) as (_ & _ & _ & H4).
  apply H4; [ reflexivity | ].
  exists 524288%N. split; reflexivity.
Defined.

(** C10.  Every division by the duration that [convert_video] evaluates
    has a divisor that is not zero; and when no callback is given, or the
    probed duration is [None] or zero, nothing is divided and the callback
    is not called. *)
Theorem no_division_by_zero
        (float : string -> option Q) (env : job_env)
        (input_file output_file output_format : string)
        (cb : option callback) (st : state) :
  let st' := snd (convert_video float env input_file output_file
                                output_format cb st) in
  (exists new,
      divisions st' = divisions st ++ new
      /\ Forall (fun xy => ~ snd xy == 0) new)
  /\ (cb = None
      \/ _get_video_duration float (ffprobe env) = Ret None
      \/ (exists d, _get_video_duration float (ffprobe env) = Ret (Some d)
                    /\ d == 0) ->
      divisions st' = divisions st /\ callback_calls st' = callback_calls st).
Proof.
  cbv zeta.
  destruct (convert_video_state float env input_file output_file
                                output_format cb st)
    as (st2 & Hst2 & _ & Hc & Hv & _). cbv zeta in Hc, Hv.
  rewrite Hc, Hv. clear Hc Hv. split.
  - destruct Hst2 as [-> | (d & _ & ->)].
    + exists []. rewrite app_nil_r. now split.
    + destruct (read_lines_divisions cb d (stderr_reads env)
                  (spawn_state (convert_video_cmd input_file output_file
                                                  output_format) st))
        as (new & Hn & Hf).
      exists new. split; [ exact Hn | exact Hf ].
  - intros H. destruct Hst2 as [-> | (d & Hd & ->)]; [ now split | ].
    rewrite read_lines_idle; [ now split | ].
    destruct H as [H | [H | (q & H & Hq)]]; [ now left | right .. ].
    + rewrite Hd in H. now injection H as ->.
    + rewrite Hd in H. injection H as ->. cbn.
      apply Qeq_bool_iff in Hq. now rewrite Hq.
Qed.

Lemma no_division_witness :
  divisions
    (snd (convert_video decimal_float Examples.job_zero_duration
                        "/home/u/videos/a.avi" "/home/u/out/a.mp4" "mp4"
                        (Some Examples.quiet) (initial_state None)))
  = []
  /\ callback_calls
       (snd (convert_video decimal_float Examples.job_zero_duration
                           "/home/u/videos/a.avi" "/home/u/out/a.mp4" "mp4"
                           (Some Examples.quiet) (initial_state None)))
     = [].
Proof.
  apply (no_division_by_zero decimal_float Examples.job_zero_duration
           "/home/u/videos/a.avi" "/home/u/out/a.mp4" "mp4"
           (Some Examples.quiet) (initial_state None)).
  right. right. exists (0 # 1000000). split; reflexivity.
Defined.

(* ================================================================== *)
(** * Exceptions at the job boundary *)
(* ================================================================== *)

Lemma get_video_duration_returns (float : string -> option Q)
      (run : run_result) :
  (forall e, run = RunRaises e -> is_exception e = true) ->
  exists d, _get_video_duration float run = Ret d.
Proof.
  intros H. unfold _get_video_duration, try_pure.
  destruct run as [e | rc out].
  - specialize (H e eq_refl). unfold is_exception in H. rewrite H. eauto.
  - destruct (rc =? 0)%Z; [ | eauto ].
    destruct (String.eqb (strip out) ""); [ eauto | ].
    destruct (float (strip out)); cbn; eauto.
Qed.

(** An exception that leaves [run_ffmpeg] is an instance of [Exception]
    when those of the world and of the callback are. *)
Lemma run_ffmpeg_raises (float : string -> option Q) (env : job_env)
      (input_file output_file output_format : string)
      (cb : option callback) (st : state) (e : exn) :
  Forall (fun e => is_exception e = true) (env_faults env) ->
  callback_raises_exceptions cb ->
  fst (run_ffmpeg float env input_file output_file output_format cb st)
  = Raise e ->
  is_exception e = true.
Proof.
  intros Hf Hcb. rewrite Forall_forall in Hf. unfold env_faults in Hf.
  rewrite run_ffmpeg_cases.
  destruct (popen_raises env) as [e0 | ].
  - cbn. intros H. injection H as <-. apply Hf. now left.
  - cbn [app] in Hf.
    destruct (@get_video_duration_returns float (ffprobe env)) as [d Hd].
    { intros e0 He0. apply Hf. rewrite He0. now left. }
    rewrite Hd.
    destruct (read_lines cb d _ _) as [[[] | e1] st2] eqn:Hr; cbn;
      [ discriminate | ].
    intros H. injection H as <-.
    pose proof (read_lines_raises cb d (stderr_reads env) _
                  (f_equal fst Hr)) as [Hin | [-> | (c & p & g & Hc & Hcall)]].
    + apply Hf. apply in_or_app. now right.
    + reflexivity.
    + now apply (Hcb c p g).
Qed.

Lemma convert_video_returns (float : string -> option Q) (env : job_env)
      (input_file output_file output_format : string)
      (cb : option callback) (st : state) :
  Forall (fun e => is_exception e = true) (env_faults env) ->
  callback_raises_exceptions cb ->
  exists b,
    fst (convert_video float env input_file output_file output_format cb st)
    = Ret b.
Proof.
  intros Hf Hcb. rewrite convert_video_cases.
  pose proof (fun e => @run_ffmpeg_raises float env input_file output_file
                         output_format cb st e Hf Hcb) as Hr.
  destruct (run_ffmpeg _ _ _ _ _ _ st) as [[rc | e] st2]; cbn [fst] in *.
  - destruct ((rc =? 0)%Z && path_exists env); cbn; eauto.
  - rewrite (Hr e eq_refl). cbn. eauto.
Qed.

Lemma convert_video_reports (float : string -> option Q) (env : job_env)
      (input_file output_file output_format : string)
      (cb : option callback) (st st2 : state) (e : exn) :
  is_exception e = true ->
  run_ffmpeg float env input_file output_file output_format cb st
  = (Raise e, st2) ->
  convert_video float env input_file output_file output_format cb st
  = (Ret false, snd (print (ConversionError e) st2)).
Proof.
  intros He Hr. now rewrite convert_video_cases, Hr, He.
Qed.

(* ================================================================== *)
(** * The batch loop *)
(* ================================================================== *)

Lemma after_alive (c : tk_call) (g : tk) :
  tk_alive g = None -> after c g = (Ret tt, mkTk (tk_queue g ++ [c]) None).
Proof. unfold after. now intros ->. Qed.

Lemma after_raises (c : tk_call) (g : tk) (e : exn) :
  fst (after c g) = Raise e -> e = TclError.
Proof.
  unfold after. destruct (tk_alive g) as [[ | n] | ]; cbn; congruence.
Qed.

Lemma root_after_alive (c : tk_call) (st : state) :
  tk_alive (gui st) = None ->
  root_after c st
  = (Ret tt,
     mkState (stdout_lines st) (popen_calls st) (callback_calls st)
             (divisions st) (mkTk (tk_queue (gui st) ++ [c]) None)).
Proof.
  intros H. unfold root_after, on_gui. now rewrite after_alive.
Qed.

Lemma progress_callback_raises_exceptions :
  callback_raises_exceptions
    (Some (fun percent => after (LogProgress (Progress percent)))).
Proof.
  intros c p g e Hc H. injection Hc as <-. apply after_raises in H.
  now subst.
Qed.

Lemma outcomes_app (q1 q2 : list tk_call) :
  outcomes (q1 ++ q2) = outcomes q1 ++ outcomes q2.
Proof.
  induction q1 as [ | [[f | p | f | f] | | e] q1 IH]; cbn;
    now rewrite ?IH.
Qed.

Lemma outcomes_progress_only (q : list tk_call) :
  progress_only q -> outcomes q = [].
Proof.
  induction 1 as [ | c q (p & ->) _ IH]; cbn; [ reflexivity | exact IH ].
Qed.

(** While the window stays, [convert_video] with the callback of the
    worker only appends progress messages to the queue. *)
Lemma convert_video_queue (float : string -> option Q) (env : job_env)
      (input_file output_file output_format : string) (st : state) :
  tk_alive (gui st) = None ->
  let st' :=
    snd (convert_video float env input_file output_file output_format
           (Some (fun percent => after (LogProgress (Progress percent)))) st)
  in
  tk_alive (gui st') = None
  /\ exists new, tk_queue (gui st') = tk_queue (gui st) ++ new
                 /\ progress_only new.
Proof.
  intros Halive. cbv zeta.
  destruct (convert_video_state float env input_file output_file output_format
              (Some (fun percent => after (LogProgress (Progress percent)))) st)
    as (st2 & Hst2 & _ & _ & _ & Hg). cbv zeta in Hg. rewrite Hg. clear Hg.
  assert (Hbase : tk_alive (gui st) = None
                  /\ exists new, tk_queue (gui st) = tk_queue (gui st) ++ new
                                 /\ progress_only new).
  { split; [ exact Halive | ]. exists []. rewrite app_nil_r.
    split; [ reflexivity | constructor ]. }
  destruct Hst2 as [-> | (d & _ & ->)]; [ exact Hbase | ].
  apply read_lines_invariant
    with (P := fun s => tk_alive (gui s) = None
                        /\ exists new,
                             tk_queue (gui s) = tk_queue (gui st) ++ new
                             /\ progress_only new);
    [ | exact Hbase ].
  intros c q line s Hc -> Ht (Ha & new & Hn & Hp). injection Hc as <-.
  pose proof (report_progress_cases
                (fun percent => after (LogProgress (Progress percent)))
                q line s Ht) as Hcase.
  destruct (elapsed line) as [[t | e] | ]; rewrite Hcase; cbn [snd gui];
    try (split; [ exact Ha | now exists new ]).
  rewrite after_alive by exact Ha. cbn. split; [ reflexivity | ].
  exists (new ++ [LogProgress (Progress (percent q t))]).
  rewrite Hn, app_assoc. split; [ reflexivity | ].
  apply Forall_app. split; [ exact Hp | ]. constructor; [ | constructor ].
  now exists (percent q t).
Qed.

(** While the window stays and the jobs raise instances of [Exception]
    only, the loop of the worker runs through all files: it queues progress
    messages and, for every file in turn, one outcome. *)
Lemma convert_files_spec (float : string -> option Q) (envs : nat -> job_env)
      (output_folder output_format : string) (selected_files : list string) :
  forall (i : nat) (st : state),
    tk_alive (gui st) = None ->
    (forall j, (i <= j < i + length selected_files)%nat ->
               Forall (fun e => is_exception e = true) (env_faults (envs j))) ->
    exists st' new,
      convert_files float envs output_folder output_format i selected_files st
      = (Ret tt, st')
      /\ tk_alive (gui st') = None
      /\ tk_queue (gui st') = tk_queue (gui st) ++ new
      /\ map fst (outcomes new) = map OsPath.basename selected_files
      /\ Forall (fun c => exists m, c = LogProgress m) new.
Proof.
  induction selected_files as [ | input_file files IH]; intros i st Ha Hf.
  - exists st, []. cbn. rewrite app_nil_r.
    split; [ reflexivity | ]. split; [ exact Ha | ].
    split; [ reflexivity | ]. split; [ reflexivity | constructor ].
  - cbn [convert_files]. unfold bind at 1.
    rewrite root_after_alive by exact Ha.
    set (filename := OsPath.basename input_file).
    set (st1 := mkState _ _ _ _ _).
    set (output_file := OsPath.join _ _).
    assert (Ha1 : tk_alive (gui st1) = None) by reflexivity.
    unfold bind at 1.
    destruct (@convert_video_returns float (envs i) input_file output_file
                output_format _ st1
                (Hf i ltac:(cbn; lia)) progress_callback_raises_exceptions)
      as [b Hb].
    destruct (@convert_video_queue float (envs i) input_file output_file
                output_format st1 Ha1) as (Ha2 & new1 & Hq1 & Hp1).
    destruct (convert_video _ _ _ _ _ _ st1) as [r st2]. cbn [fst snd] in *.
    subst r. unfold bind at 1.
    set (outcome := if b then LogProgress (Converted filename)
                    else LogProgress (FailedToConvert filename)).
    assert (Hout : (if b then root_after (LogProgress (Converted filename))
                    else root_after (LogProgress (FailedToConvert filename)))
                     st2
                   = root_after outcome st2) by now destruct b.
    rewrite Hout, root_after_alive by exact Ha2.
    set (st3 := mkState _ _ _ _ _).
    destruct (IH (S i) st3 eq_refl) as (st' & new2 & Hrun & Ha' & Hq' & Ho & Hl).
    { intros j Hj. apply Hf. cbn. lia. }
    exists st', ([LogProgress (Converting filename)] ++ new1 ++ [outcome]
                 ++ new2).
    split; [ exact Hrun | ]. split; [ exact Ha' | ]. split; [ | split ].
    + rewrite Hq'. subst st3. cbn [gui tk_queue]. rewrite Hq1.
      subst st1. cbn [gui tk_queue]. now rewrite <- !app_assoc.
    + rewrite !outcomes_app, (outcomes_progress_only Hp1).
      cbn [outcomes app map]. subst outcome.
      destruct b; cbn [outcomes app map fst]; now rewrite Ho.
    + repeat (apply Forall_app; split); try exact Hl.
      * constructor; [ eauto | constructor ].
      * eapply Forall_impl; [ | exact Hp1 ]. intros c (p & ->). eauto.
      * subst outcome. constructor; [ destruct b; eauto | constructor ].
Qed.

Lemma conversion_thread_spec (float : string -> option Q)
      (envs : nat -> job_env) (selected_files : list string)
      (output_folder output_format : string) (st : state) :
  tk_alive (gui st) = None ->
  (forall j, (j < length selected_files)%nat ->
             Forall (fun e => is_exception e = true) (env_faults (envs j))) ->
  exists st' new,
    conversion_thread float envs selected_files output_folder output_format st
    = (Ret tt, st')
    /\ tk_queue (gui st') = tk_queue (gui st) ++ new ++ [ConversionComplete]
    /\ map fst (outcomes new) = map OsPath.basename selected_files
    /\ Forall (fun c => exists m, c = LogProgress m) new.
Proof.
  intros Ha Hf.
  destruct (@convert_files_spec float envs output_folder output_format
              selected_files 0%nat st Ha)
    as (st1 & new & Hrun & Ha1 & Hq & Ho & Hl).
  { intros j Hj. apply Hf. lia. }
  unfold conversion_thread, try_except, bind at 1. rewrite Hrun.
  rewrite root_after_alive by exact Ha1.
  eexists. exists new. split; [ reflexivity | ]. cbn [gui tk_queue].
  rewrite Hq, <- app_assoc. repeat split; assumption.
Qed.

(** C8.  Inside [convert_video], an instance of [Exception] raised by the
    spawn, by a read of the stream, by the conversion of a timestamp or by
    the callback ends the job with [False] and a printed message; nothing
    is raised to the caller.  In the worker, a batch whose jobs raise such
    exceptions runs to its end: the thread returns, the completion call is
    queued, and no error dialog is. *)
Theorem job_faults_do_not_escape (float : string -> option Q) :
  (forall env input_file output_file output_format cb st,
      Forall (fun e => is_exception e = true) (env_faults env) ->
      callback_raises_exceptions cb ->
      (exists b,
          fst (convert_video float env input_file output_file output_format
                             cb st) = Ret b)
      /\ forall e st2,
          run_ffmpeg float env input_file output_file output_format cb st
          = (Raise e, st2) ->
          convert_video float env input_file output_file output_format cb st
          = (Ret false, snd (print (ConversionError e) st2)))
  /\ (forall envs selected_files output_folder output_format st,
         tk_alive (gui st) = None ->
         (forall j, (j < length selected_files)%nat ->
                    Forall (fun e => is_exception e = true)
                           (env_faults (envs j))) ->
         exists st' new,
           conversion_thread float envs selected_files output_folder
                             output_format st
           = (Ret tt, st')
           /\ tk_queue (gui st')
              = tk_queue (gui st) ++ new ++ [ConversionComplete]
           /\ Forall (fun c => exists m, c = LogProgress m) new).
Proof.
  split.
  - intros env input_file output_file output_format cb st Hf Hcb. split.
    + now apply convert_video_returns.
    + intros e st2 Hr. apply convert_video_reports; [ | exact Hr ].
      apply (@run_ffmpeg_raises float env input_file output_file
               output_format cb st e Hf Hcb).
      now rewrite Hr.
  - intros envs files folder fmt st Ha Hf.
    destruct (@conversion_thread_spec float envs files folder fmt st Ha Hf)
      as (st' & new & H1 & H2 & _ & H3).
    now exists st', new.
Qed.

Lemma job_faults_witness :
  convert_video decimal_float Examples.job_no_ffmpeg
                "/home/u/videos/a.avi" "/home/u/out/a.mp4" "mp4"
                (Some Examples.quiet) (initial_state None)
  = (Ret false,
     mkState [RunningCommand
                (convert_video_cmd "/home/u/videos/a.avi"
                                   "/home/u/out/a.mp4" "mp4");
              ConversionError FileNotFoundError]
             [convert_video_cmd "/home/u/videos/a.avi"
                                "/home/u/out/a.mp4" "mp4"]
             [] [] (mkTk [] None))
  /\ exists st',
       conversion_thread decimal_float Examples.worlds Examples.files
                         "/home/u/out" "mp4" (initial_state None)
       = (Ret tt, st').
Proof.
  destruct (job_faults_do_not_escape decimal_float) as [Hjob Hbatch]. split.
  - refine (proj2 (Hjob Examples.job_no_ffmpeg
                        "/home/u/videos/a.avi"%string
                        "/home/u/out/a.mp4"%string "mp4"%string
                        (Some Examples.quiet) (initial_state None) _ _)
                  FileNotFoundError _ eq_refl).
    + repeat constructor.
    + intros c p g e Hc. injection Hc as <-. discriminate.
  - destruct (Hbatch Examples.worlds Examples.files
                     "/home/u/out"%string "mp4"%string (initial_state None)
                     eq_refl)
      as (st' & new & H & _).
    + intros [ | [ | [ | j]]] Hj; cbn in Hj; try lia; repeat constructor.
    + now exists st'.
Defined.

(** C9, as the code has it.  The code has no cancellation.  While the
    window stays open and the jobs raise instances of [Exception] only,
    the worker queues exactly one outcome per selected file, in the order
    of the selection, whether the conversions fail or not. *)
Theorem one_outcome_per_file
        (float : string -> option Q) (envs : nat -> job_env)
        (selected_files : list string)
        (output_folder output_format : string) (st : state) :
  tk_alive (gui st) = None ->
  (forall j, (j < length selected_files)%nat ->
             Forall (fun e => is_exception e = true) (env_faults (envs j))) ->
  exists new,
    tk_queue
      (gui (snd (conversion_thread float envs selected_files output_folder
                                   output_format st)))
    = tk_queue (gui st) ++ new
    /\ map fst (outcomes new) = map OsPath.basename selected_files
    /\ length (outcomes new) = length selected_files.
Proof.
  intros Ha Hf.
  destruct (@conversion_thread_spec float envs selected_files output_folder
              output_format st Ha Hf)
    as (st' & new & Hrun & Hq & Ho & _).
  exists (new ++ [ConversionComplete]). rewrite Hrun. cbn [snd].
  split; [ exact Hq | ].
  rewrite outcomes_app. cbn [outcomes]. rewrite app_nil_r.
  split; [ exact Ho | ].
  rewrite <- (length_map fst), Ho. apply length_map.
Qed.

Lemma one_outcome_witness :
  exists new,
    tk_queue
      (gui (snd (conversion_thread decimal_float Examples.worlds
                                   Examples.files "/home/u/out" "mp4"
                                   (initial_state None))))
    = new
    /\ map fst (outcomes new) = ["a.avi"; "b.mkv"; "c.mov"]%string.
Proof.
  destruct (@one_outcome_per_file decimal_float Examples.worlds
              Examples.files "/home/u/out"%string "mp4"%string
              (initial_state None) eq_refl)
    as (new & H1 & H2 & _).
  - intros [ | [ | [ | j]]] Hj; cbn in Hj; try lia; repeat constructor.
  - exists new. split; [ exact H1 | exact H2 ].
Defined.

(** C9, counterexample.  Three files are selected and the window is closed
    while the second one is converted: one outcome is queued, not three. *)
Lemma closing_the_window_drops_outcomes :
  outcomes
    (tk_queue
       (gui (snd (conversion_thread decimal_float Examples.worlds
                                    Examples.files "/home/u/out" "mp4"
                                    (initial_state (Some 5%nat))))))
  = [("a.avi"%string, true)]
  /\ length Examples.files = 3%nat
  /\ fst (conversion_thread decimal_float Examples.worlds
                            Examples.files "/home/u/out" "mp4"
                            (initial_state (Some 5%nat)))
     = Raise TclError.
Proof.
  repeat split; vm_compute; reflexivity.
Qed.

(* ================================================================== *)
(** * The command line *)
(* ================================================================== *)

(** C3.  For the format ["webm"] the slice assignment [cmd[5:7] = ...]
    replaces the audio codec pair only: the default video codec selection
    ["-c:v", "libx264"] stays in the command that [convert_video] gives to
    [Popen], followed by the VP9 and Opus selections. *)
Theorem webm_cmd_keeps_default_video_codec
        (float : string -> option Q) (env : job_env)
        (input_file output_file : string) (cb : option callback)
        (st : state) :
  convert_video_cmd input_file output_file "webm"
  = ["ffmpeg"; "-i"; input_file;
     "-c:v"; "libx264";
     "-c:v"; "libvpx-vp9"; "-c:a"; "libopus";
     "-preset"; "medium"; "-crf"; "23"; "-movflags"; "+faststart"; "-y";
     output_file]%string
  /\ In "libx264"%string (convert_video_cmd input_file output_file "webm")
  /\ popen_calls (snd (convert_video float env input_file output_file "webm"
                                     cb st))
     = popen_calls st ++ [convert_video_cmd input_file output_file "webm"].
Proof.
  split; [ reflexivity | ]. split.
  - cbn. right. right. right. right. left. reflexivity.
  - apply convert_video_popen.
Qed.

(* ================================================================== *)
(** * The fraction of a timestamp *)
(* ================================================================== *)

Lemma literal_app (p s : string) : Re.literal p (p ++ s) = Some s.
Proof.
  induction p as [ | c p IH]; cbn; [ now destruct s | ].
  now rewrite Ascii.eqb_refl.
Qed.

Lemma digits_app (d r : string) :
  all_digits d = true -> no_digit_ahead r = true ->
  Re.digits (d ++ r) = (d, r).
Proof.
  intros Hd Hr. induction d as [ | c d IH]; cbn in *.
  - destruct r as [ | c r]; [ reflexivity | ]. cbn in *.
    now destruct (isdigit c).
  - apply andb_prop in Hd as [Hc Hd]. now rewrite Hc, IH.
Qed.

Lemma digits1_app (d r : string) :
  number d -> no_digit_ahead r = true ->
  Re.digits1 (d ++ r) = Some (d, r).
Proof.
  intros [Hne Hd] Hr. unfold Re.digits1. rewrite digits_app by assumption.
  destruct d; [ congruence | reflexivity ].
Qed.

Lemma match_here_token (g1 g2 g3 g4 rest : string) :
  number g1 -> number g2 -> number g3 -> number g4 ->
  no_digit_ahead rest = true ->
  Re.match_here
    ("time=" ++ g1 ++ ":" ++ g2 ++ ":" ++ g3 ++ "." ++ g4 ++ rest)
  = Some (g1, g2, g3, g4).
Proof.
  intros H1 H2 H3 H4 Hr. unfold Re.match_here.
  rewrite literal_app.
  rewrite digits1_app by (assumption || reflexivity). rewrite literal_app.
  rewrite digits1_app by (assumption || reflexivity). rewrite literal_app.
  rewrite digits1_app by (assumption || reflexivity). rewrite literal_app.
  rewrite digits1_app by assumption. reflexivity.
Qed.

Lemma search_found (s : string) (g : Re.groups) :
  Re.match_here s = Some g -> Re.search s = Some g.
Proof. intros H. destruct s; cbn [Re.search]; now rewrite H. Qed.

(** The search skips the positions at which no match starts. *)
Lemma search_skip (pre s : string) :
  no_match_before (String.length pre) (pre ++ s) = true ->
  Re.search (pre ++ s) = Re.search s.
Proof.
  induction pre as [ | c pre IH]; [ reflexivity | ].
  change (String c pre ++ s)%string with (String c (pre ++ s)%string).
  cbn [String.length no_match_before Re.search].
  destruct (Re.match_here (String c (pre ++ s))); [ discriminate | exact IH ].
Qed.

(** No match starts inside a prefix without the letter [t]. *)
Lemma no_match_without_t (pre s : string) :
  has_char "t" pre = false ->
  no_match_before (String.length pre) (pre ++ s) = true.
Proof.
  induction pre as [ | c pre IH]; cbn [has_char]; intros H;
    [ reflexivity | ].
  apply orb_false_elim in H as [Hc Hp].
  change (String c pre ++ s)%string with (String c (pre ++ s)%string).
  cbn [String.length no_match_before].
  assert (Hm : Re.match_here (String c (pre ++ s)) = None).
  { unfold Re.match_here. cbn [Re.literal].
    rewrite Ascii.eqb_sym, Hc. reflexivity. }
  rewrite Hm. now apply IH.
Qed.

Lemma literal_inv (p s r : string) :
  Re.literal p s = Some r -> s = (p ++ r)%string.
Proof.
  revert s. induction p as [ | c p IH]; intros [ | d s]; cbn; try congruence.
  destruct (Ascii.eqb_spec c d) as [-> | ]; [ | discriminate ].
  intros H. now rewrite (IH s H).
Qed.

(** A match is a token of the line: digits, colon, digits, colon, digits,
    point, and the longest run of digits that follows. *)
Lemma match_here_inv (s g1 g2 g3 g4 : string) :
  Re.match_here s = Some (g1, g2, g3, g4) ->
  exists rest,
    s = ("time=" ++ g1 ++ ":" ++ g2 ++ ":" ++ g3 ++ "." ++ g4 ++ rest)%string
    /\ no_digit_ahead rest = true.
Proof.
  unfold Re.match_here.
  destruct (Re.literal "time=" s) as [r0 | ] eqn:L0; [ | discriminate ].
  destruct (Re.digits1 r0) as [[x1 r1] | ] eqn:H1; [ | discriminate ].
  destruct (Re.literal ":" r1) as [r2 | ] eqn:L1; [ | discriminate ].
  destruct (Re.digits1 r2) as [[x2 r3] | ] eqn:H2; [ | discriminate ].
  destruct (Re.literal ":" r3) as [r4 | ] eqn:L2; [ | discriminate ].
  destruct (Re.digits1 r4) as [[x3 r5] | ] eqn:H3; [ | discriminate ].
  destruct (Re.literal "." r5) as [r6 | ] eqn:L3; [ | discriminate ].
  destruct (Re.digits1 r6) as [[x4 r7] | ] eqn:H4; [ | discriminate ].
  intros H. injection H as <- <- <- <-.
  apply digits1_spec in H1 as (-> & _ & _), H2 as (-> & _ & _),
      H3 as (-> & _ & _), H4 as (-> & _ & Hr).
  apply literal_inv in L0, L1, L2, L3. subst.
  exists r7. split; [ reflexivity | exact Hr ].
Qed.

(** Whatever elapsed time is computed for a line is that of a token of the
    line, with the fraction counted in hundredths. *)
Lemma elapsed_inv (line : string) (t : Q) :
  elapsed line = Some (Ret t) ->
  exists pre g1 g2 g3 g4 rest,
    line = (pre ++ "time=" ++ g1 ++ ":" ++ g2 ++ ":" ++ g3 ++ "." ++ g4
                ++ rest)%string
    /\ no_digit_ahead rest = true
    /\ t = inject_Z (int g1 * 3600 + int g2 * 60 + int g3) + (int g4 # 100).
Proof.
  unfold elapsed.
  destruct (Re.search line) as [[[[g1 g2] g3] g4] | ] eqn:Hs;
    cbn [option_map]; [ | discriminate ].
  intros H. injection H as H. apply current_time_formula in H.
  assert (Hpre : exists pre rest,
             line = (pre ++ "time=" ++ g1 ++ ":" ++ g2 ++ ":" ++ g3 ++ "."
                         ++ g4 ++ rest)%string
             /\ no_digit_ahead rest = true).
  { clear H. induction line as [ | c line IH]; cbn [Re.search] in Hs.
    - destruct (Re.match_here "") eqn:Hm; [ | discriminate ].
      injection Hs as ->. apply match_here_inv in Hm as (rest & Hl & Hr).
      now exists EmptyString, rest.
    - destruct (Re.match_here (String c line)) eqn:Hm.
      + injection Hs as ->. apply match_here_inv in Hm as (rest & Hl & Hr).
        now exists EmptyString, rest.
      + destruct (IH Hs) as (pre & rest & -> & Hr).
        now exists (String c pre), rest. }
  destruct Hpre as (pre & rest & Hl & Hr).
  now exists pre, g1, g2, g3, g4, rest.
Qed.

(** Among the matches that start at a position the pattern takes the one
    with the longest last group: the first three groups are fixed by the
    separators, the fourth one runs on as long as digits follow. *)
Lemma match_here_greedy (g1 g2 g3 g4 rest : string) :
  number g1 -> number g2 -> number g3 -> number g4 ->
  exists more rest',
    rest = (more ++ rest')%string
    /\ all_digits more = true
    /\ no_digit_ahead rest' = true
    /\ Re.match_here
         ("time=" ++ g1 ++ ":" ++ g2 ++ ":" ++ g3 ++ "." ++ g4 ++ rest)
       = Some (g1, g2, g3, (g4 ++ more)%string).
Proof.
  intros H1 H2 H3 [Hne H4].
  destruct (Re.digits rest) as [more rest'] eqn:Hd.
  destruct (digits_spec rest Hd) as (-> & Hm & Hr).
  exists more, rest'. repeat split; try assumption.
  assert (Hn : number (g4 ++ more)).
  { split.
    - destruct g4; [ congruence | discriminate ].
    - clear Hne. induction g4 as [ | c g4 IH]; cbn in *; [ exact Hm | ].
      apply andb_prop in H4 as [Hc H4]. now rewrite Hc, IH. }
  assert (Ha : (g4 ++ more ++ rest')%string = ((g4 ++ more) ++ rest')%string).
  { clear. induction g4 as [ | c g4 IH]; cbn;
      [ reflexivity | now rewrite IH ]. }
  rewrite Ha.
  exact (@match_here_token g1 g2 g3 (g4 ++ more) rest' H1 H2 H3 Hn Hr).
Qed.

(** C1, as the code has it.  On a line whose first timestamp token is
    [time=H:M:S.F], the elapsed seconds are [H * 3600 + M * 60 + S + F / 100]
    where [F] is the number that the digits after the point spell: the
    fraction is a count of hundredths whatever the number of its digits.
    (The two bounds say that the numbers fit a float.) *)
Theorem elapsed_counts_hundredths (pre g1 g2 g3 g4 rest : string) :
  let line :=
    (pre ++ "time=" ++ g1 ++ ":" ++ g2 ++ ":" ++ g3 ++ "." ++ g4 ++ rest)%string
  in
  no_match_before (String.length pre) line = true ->
  number g1 -> number g2 -> number g3 -> number g4 ->
  no_digit_ahead rest = true ->
  (int g1 * 3600 + int g2 * 60 + int g3 < DBL_OVERFLOW)%Z ->
  (int g4 < DBL_OVERFLOW * 100)%Z ->
  elapsed line
  = Some (Ret (inject_Z (int g1 * 3600 + int g2 * 60 + int g3)
               + (int g4 # 100))).
Proof.
  intros line Hpre H1 H2 H3 H4 Hr Hw Hf. unfold elapsed. subst line.
  rewrite search_skip by exact Hpre.
  rewrite (@search_found _ _ (@match_here_token g1 g2 g3 g4 rest
                                                H1 H2 H3 H4 Hr)).
  cbn [option_map]. unfold current_time, int_truediv, float_of_int.
  pose proof (int_nonneg H1). pose proof (int_nonneg H2).
  pose proof (int_nonneg H3). pose proof (int_nonneg H4).
  destruct (Z.leb_spec (DBL_OVERFLOW * 100) (Z.abs (int g4))); [ lia | ].
  destruct (Z.leb_spec DBL_OVERFLOW
                       (Z.abs (int g1 * 3600 + int g2 * 60 + int g3)));
    [ lia | reflexivity ].
Qed.

Lemma elapsed_witness :
  elapsed "frame=  120 fps= 60 q=28.0 size=     256kB time=00:01:30.50 bitrate= 419.4kbits/s"
  = Some (Ret (inject_Z 90 + (50 # 100)))
  /\ elapsed "frame=  120 fps= 60 q=28.0 size=     256kB time=00:01:30.5 bitrate= 419.4kbits/s"
     = Some (Ret (inject_Z 90 + (5 # 100)))
  /\ elapsed "frame=  120 fps= 60 q=28.0 size=     256kB time=00:01:30.500 bitrate= 419.4kbits/s"
     = Some (Ret (inject_Z 90 + (500 # 100))).
Proof.
  split; [ | split ].
  - refine (@elapsed_counts_hundredths
              "frame=  120 fps= 60 q=28.0 size=     256kB "
              "00" "01" "30" "50" " bitrate= 419.4kbits/s"
              eq_refl _ _ _ _ eq_refl _ _);
      try (split; [ discriminate | reflexivity ]); reflexivity.
  - refine (@elapsed_counts_hundredths
              "frame=  120 fps= 60 q=28.0 size=     256kB "
              "00" "01" "30" "5" " bitrate= 419.4kbits/s"
              eq_refl _ _ _ _ eq_refl _ _);
      try (split; [ discriminate | reflexivity ]); reflexivity.
  - refine (@elapsed_counts_hundredths
              "frame=  120 fps= 60 q=28.0 size=     256kB "
              "00" "01" "30" "500" " bitrate= 419.4kbits/s"
              eq_refl _ _ _ _ eq_refl _ _);
      try (split; [ discriminate | reflexivity ]); reflexivity.
Defined.

(** C1, counterexample.  [time=00:01:30.5] gives 90.05 seconds and
    [time=00:01:30.500] gives 95 seconds; neither is 90.5. *)
Lemma fraction_is_not_decimal :
  elapsed "time=00:01:30.5" = Some (Ret (9005 # 100))
  /\ Qeq_bool (9005 # 100) (905 # 10) = false
  /\ elapsed "time=00:01:30.500" = Some (Ret (9500 # 100))
  /\ Qeq_bool (9500 # 100) (905 # 10) = false.
Proof.
  repeat split; vm_compute; reflexivity.
Qed.

(* ================================================================== *)
(** * Adding a directory to PATH *)
(* ================================================================== *)

Ltac unfold_eff :=
  unfold Eff.bind, Eff.ret, Eff.raise, Eff.lift, Eff.try_except, run,
    run_check, perform, say, environ_get_PATH, environ_set_PATH, Path_home,
    exists_in_home, open_append in *.

Lemma prefix_refl (s : string) : prefix s s = true.
Proof.
  induction s as [ | c s IH]; cbn; [ reflexivity | ].
  destruct (ascii_dec c c); congruence.
Qed.

Lemma contains_refl (s : string) : contains s s = true.
Proof. destruct s; cbn [contains]; now rewrite prefix_refl. Qed.

Lemma contains_app_l (sub s1 s2 : string) :
  contains sub s2 = true -> contains sub (s1 ++ s2) = true.
Proof.
  intros H. induction s1 as [ | c s1 IH]; [ exact H | ].
  change (String c s1 ++ s2)%string with (String c (s1 ++ s2)%string).
  cbn [contains]. rewrite IH. apply orb_true_r.
Qed.

Lemma lookup_append_to_same (files : list (string * file))
      (name text : string) (f : file) :
  lookup files name = Some f ->
  lookup (append_to files name text) name
  = Some (mkFile (content f ++ text) (append_raises f)).
Proof.
  induction files as [ | [n g] files IH]; cbn; [ discriminate | ].
  destruct (String.eqb n name) eqn:E; cbn; rewrite E.
  - now intros [= ->].
  - exact IH.
Qed.

Lemma lookup_append_to_other (files : list (string * file))
      (name text other : string) :
  other <> name ->
  lookup (append_to files name text) other = lookup files other.
Proof.
  intros Hne. induction files as [ | [n g] files IH]; cbn; [ reflexivity | ].
  destruct (String.eqb_spec n name) as [-> | Hn]; cbn.
  - destruct (String.eqb_spec name other); [ congruence | reflexivity ].
  - now rewrite IH.
Qed.

Lemma names_append_to (files : list (string * file)) (name text : string) :
  map fst (append_to files name text) = map fst files.
Proof.
  induction files as [ | [n g] files IH]; cbn; [ reflexivity | ].
  destruct (String.eqb n name); cbn; now rewrite ?IH.
Qed.

(** The loop over the profiles touches nothing but the files. *)
Lemma write_profile_frame (profiles : list string) (path : string)
      (m : machine) :
  let m' := snd (write_profile profiles path m) in
  ran m' = ran m /\ attempted m' = attempted m
  /\ said_lines m' = said_lines m /\ PATH m' = PATH m.
Proof.
  revert m. induction profiles as [ | p profiles IH]; intros m; cbn.
  - repeat split.
  - unfold_eff. destruct (lookup (home_files m) p) as [f | ] eqn:Hl.
    + rewrite Hl. destruct (append_raises f); repeat split.
    + apply IH.
Qed.

(** The loop appends to the first profile that exists, if it can be
    opened, and to no other. *)
Lemma write_profile_files (profiles : list string) (path : string)
      (m : machine) :
  home_files (snd (write_profile profiles path m))
  = match find (in_home (home_files m)) profiles with
    | Some p =>
        match lookup (home_files m) p with
        | Some f =>
            match append_raises f with
            | None => append_to (home_files m) p (export_line path)
            | Some _ => home_files m
            end
        | None => home_files m
        end
    | None => home_files m
    end.
Proof.
  induction profiles as [ | p profiles IH]; cbn; [ reflexivity | ].
  unfold_eff. unfold in_home at 1.
  destruct (lookup (home_files m) p) as [f | ] eqn:Hl.
  - rewrite Hl. destruct (append_raises f); reflexivity.
  - exact IH.
Qed.

Lemma write_profile_raises (profiles : list string) (path : string)
      (m : machine) (e : exn) :
  fst (write_profile profiles path m) = Raise e ->
  exists p f, lookup (home_files m) p = Some f /\ append_raises f = Some e.
Proof.
  induction profiles as [ | p profiles IH]; cbn; [ discriminate | ].
  unfold_eff. destruct (lookup (home_files m) p) as [f | ] eqn:Hl.
  - rewrite Hl. destruct (append_raises f) as [e' | ] eqn:Ha; cbn;
      [ | discriminate ].
    intros [= ->]. now exists p, f.
  - exact IH.
Qed.

(** [_add_to_path_unix] step by step: the session's PATH, then the home
    directory, then the profiles; an instance of [Exception] on the way is
    printed. *)
Lemma add_to_path_unix_eq (w : world) (path : string) (m : machine) :
  let m1 :=
    if contains path (session_path m) then m
    else mkMachine (ran m) (attempted m) (said_lines m)
                   (Some (session_path m ++ ":" ++ path)%string)
                   (home_files m) in
  let caught e m2 :=
    if handles [Exception] e
    then (Ret tt, snd (say (SayError "Could not add to PATH: " e) m2))
    else (Raise e, m2) in
  _add_to_path_unix w path m
  = match home w with
    | Raise e => caught e m1
    | Ret _ =>
        match write_profile [".bashrc"; ".zshrc"; ".profile"]%string
                            path m1 with
        | (Ret _, m2) => (Ret tt, m2)
        | (Raise e, m2) => caught e m2
        end
    end.
Proof.
  cbv zeta. unfold _add_to_path_unix, Eff.try_except, Eff.bind at 1.
  unfold environ_get_PATH at 1. fold (session_path m).
  unfold Eff.bind at 1.
  set (m1 := if contains path (session_path m) then m else _).
  assert (H1 : (if negb (contains path (session_path m))
                then environ_set_PATH (session_path m ++ ":" ++ path)
                else Eff.ret tt) m = (Ret tt, m1)).
  { subst m1. destruct (contains path (session_path m)); reflexivity. }
  rewrite H1. unfold Eff.bind at 1, Path_home.
  destruct (home w) as [h | e].
  - destruct (write_profile _ path m1) as [[[] | e] m2].
    + reflexivity.
    + destruct (handles [Exception] e); reflexivity.
  - destruct (handles [Exception] e); reflexivity.
Qed.

(** The machine once [_add_to_path_unix] has looked at the session's
    PATH. *)
Lemma add_to_path_unix_state (w : world) (path : string) (m : machine) :
  let m1 :=
    if contains path (session_path m) then m
    else mkMachine (ran m) (attempted m) (said_lines m)
                   (Some (session_path m ++ ":" ++ path)%string)
                   (home_files m) in
  let m' := snd (_add_to_path_unix w path m) in
  ran m' = ran m /\ attempted m' = attempted m /\ PATH m' = PATH m1
  /\ home_files m'
     = match home w with
       | Ret _ =>
           home_files
             (snd (write_profile [".bashrc"; ".zshrc"; ".profile"]%string
                                 path m1))
       | Raise _ => home_files m
       end.
Proof.
  cbv zeta. rewrite add_to_path_unix_eq. cbv zeta.
  set (m1 := if contains path (session_path m) then m else _).
  assert (Hm1 : ran m1 = ran m /\ attempted m1 = attempted m
                /\ home_files m1 = home_files m).
  { subst m1. destruct (contains path (session_path m)); repeat split. }
  destruct Hm1 as (Hr & Ha & Hh).
  destruct (home w) as [h | e].
  - pose proof (write_profile_frame [".bashrc"; ".zshrc"; ".profile"]%string
                                    path m1) as (F1 & F2 & F3 & F4).
    destruct (write_profile _ path m1) as [[[] | e] m2]; cbn [fst snd] in *.
    + repeat split; congruence.
    + destruct (handles [Exception] e); cbn; repeat split; congruence.
  - destruct (handles [Exception] e); cbn; repeat split; congruence.
Qed.

Lemma add_to_path_unix_PATH (w : world) (path : string) (m : machine) :
  PATH (snd (_add_to_path_unix w path m))
  = if contains path (session_path m) then PATH m
    else Some (session_path m ++ ":" ++ path)%string.
Proof.
  destruct (add_to_path_unix_state w path m) as (_ & _ & HP & _).
  cbv zeta in HP. rewrite HP.
  now destruct (contains path (session_path m)).
Qed.

Lemma add_to_path_unix_contains (w : world) (path : string) (m : machine) :
  contains path (session_path (snd (_add_to_path_unix w path m))) = true.
Proof.
  unfold session_path at 1. rewrite add_to_path_unix_PATH.
  destruct (contains path (session_path m)) eqn:Hc; [ exact Hc | ].
  apply contains_app_l. change (":" ++ path)%string with (String ":" path).
  cbn [contains]. rewrite contains_refl. apply orb_true_r.
Qed.

(** X1.  [_add_to_path_unix] leaves the directory in the PATH of the session,
    whatever happens with the profiles: PATH is unchanged when the text of
    the directory already occurs in it, and gets [":"] and the directory at
    its end otherwise. *)
Theorem add_to_path_unix_session (w : world) (path : string) (m : machine) :
  let m' := snd (_add_to_path_unix w path m) in
  contains path (session_path m') = true
  /\ (contains path (session_path m) = true -> PATH m' = PATH m)
  /\ (contains path (session_path m) = false ->
      PATH m' = Some (session_path m ++ ":" ++ path)%string).
Proof.
  cbv zeta. split; [ apply add_to_path_unix_contains | ].
  rewrite add_to_path_unix_PATH.
  split; intros ->; reflexivity.
Qed.

(** The files of the home directory after [_add_to_path_unix], when the
    first profile that exists can be opened. *)
Lemma add_to_path_unix_home_files (w : world) (path : string) (m : machine)
      (h p : string) (f : file) :
  home w = Ret h ->
  first_profile (home_files m) = Some p ->
  lookup (home_files m) p = Some f ->
  append_raises f = None ->
  home_files (snd (_add_to_path_unix w path m))
  = append_to (home_files m) p (export_line path).
Proof.
  intros Hh Hp Hl Ha.
  destruct (add_to_path_unix_state w path m) as (_ & _ & _ & HF).
  cbv zeta in HF. rewrite HF, Hh, write_profile_files. clear HF.
  assert (E : home_files (if contains path (session_path m) then m
                          else mkMachine (ran m) (attempted m) (said_lines m)
                                 (Some (session_path m ++ ":" ++ path)%string)
                                 (home_files m))
              = home_files m)
    by (destruct (contains path (session_path m)); reflexivity).
  rewrite E. unfold first_profile in Hp. now rewrite Hp, Hl, Ha.
Qed.

(** X2.  The profile step of [_add_to_path_unix]: the first of [.bashrc],
    [.zshrc] and [.profile] that exists gets the export line at its end;
    no other file changes and none is created. *)
Theorem add_to_path_unix_profile (w : world) (path : string) (m : machine)
        (h p : string) (f : file) :
  home w = Ret h ->
  first_profile (home_files m) = Some p ->
  lookup (home_files m) p = Some f ->
  append_raises f = None ->
  let m' := snd (_add_to_path_unix w path m) in
  lookup (home_files m') p
  = Some (mkFile (content f ++ export_line path) None)
  /\ (forall n, n <> p -> lookup (home_files m') n = lookup (home_files m) n)
  /\ map fst (home_files m') = map fst (home_files m).
Proof.
  intros Hh Hp Hl Ha. cbv zeta.
  rewrite (add_to_path_unix_home_files w path m Hh Hp Hl Ha).
  split; [ | split ].
  - rewrite (lookup_append_to_same _ _ _ Hl). now rewrite Ha.
  - intros n Hn. now apply lookup_append_to_other.
  - apply names_append_to.
Qed.

Lemma add_to_path_unix_profile_witness :
  lookup (home_files (snd (_add_to_path_unix Desk.obliging "/home/u/ffmpeg"
                                             Desk.fresh)))
         ".zshrc"
  = Some (mkFile ("# zsh" ++ export_line "/home/u/ffmpeg") None)
  /\ map fst (home_files (snd (_add_to_path_unix Desk.obliging
                                                 "/home/u/ffmpeg" Desk.fresh)))
     = [".zshrc"; ".profile"]%string.
Proof.
  destruct (@add_to_path_unix_profile
              Desk.obliging "/home/u/ffmpeg" Desk.fresh "/home/u" ".zshrc"
              (mkFile "# zsh" None) eq_refl eq_refl eq_refl eq_refl)
    as (H1 & _ & H3).
  split; [ exact H1 | exact H3 ].
Defined.

Lemma find_ext (A : Type) (f g : A -> bool) (l : list A) :
  (forall x, In x l -> f x = g x) -> find f l = find g l.
Proof.
  induction l as [ | x l IH]; cbn; intros H; [ reflexivity | ].
  rewrite <- (H x (or_introl eq_refl)).
  destruct (f x); [ reflexivity | ]. apply IH. intros y Hy. apply H.
  now right.
Qed.

(** X3.  Called twice, [_add_to_path_unix] extends the PATH of the session once
    and writes the export line into the profile twice. *)
Theorem add_to_path_unix_twice (w : world) (path : string) (m : machine)
        (h p : string) (f : file) :
  home w = Ret h ->
  first_profile (home_files m) = Some p ->
  lookup (home_files m) p = Some f ->
  append_raises f = None ->
  let m1 := snd (_add_to_path_unix w path m) in
  let m2 := snd (_add_to_path_unix w path m1) in
  PATH m2 = PATH m1
  /\ lookup (home_files m2) p
     = Some (mkFile (content f ++ export_line path ++ export_line path) None).
Proof.
  intros Hh Hp Hl Ha. cbv zeta.
  pose proof (add_to_path_unix_home_files w path m Hh Hp Hl Ha) as F1.
  pose proof (add_to_path_unix_contains w path m) as S1.
  set (m1 := snd (_add_to_path_unix w path m)) in *.
  split; [ rewrite add_to_path_unix_PATH; now rewrite S1 | ].
  assert (L1 : lookup (home_files m1) p
               = Some (mkFile (content f ++ export_line path) None)).
  { rewrite F1, (lookup_append_to_same _ _ _ Hl). now rewrite Ha. }
  assert (Hp1 : first_profile (home_files m1) = Some p).
  { rewrite <- Hp. unfold first_profile. apply find_ext. intros n _.
    unfold in_home. destruct (String.eqb_spec n p) as [-> | Hn].
    - now rewrite L1, Hl.
    - rewrite F1. now rewrite (lookup_append_to_other _ _ Hn). }
  rewrite (add_to_path_unix_home_files w path m1 Hh Hp1 L1 eq_refl).
  rewrite (lookup_append_to_same _ _ _ L1). cbn [content append_raises].
  f_equal. f_equal.
  generalize (export_line path). intros t.
  generalize (content f). intros c.
  induction c as [ | x c IH]; cbn; [ reflexivity | now rewrite IH ].
Qed.

Lemma add_to_path_unix_twice_witness :
  PATH (snd (_add_to_path_unix
               Desk.obliging "/home/u/ffmpeg"
               (snd (_add_to_path_unix Desk.obliging "/home/u/ffmpeg"
                                       Desk.fresh))))
  = Some "/usr/bin:/home/u/ffmpeg"%string.
Proof.
  exact (proj1 (@add_to_path_unix_twice
                  Desk.obliging "/home/u/ffmpeg" Desk.fresh "/home/u"
                  ".zshrc" (mkFile "# zsh" None)
                  eq_refl eq_refl eq_refl eq_refl)).
Defined.

(** An exception that leaves [_add_to_path_unix] is no instance of
    [Exception]. *)
Lemma add_to_path_unix_result (w : world) (path : string) (m : machine) :
  fst (_add_to_path_unix w path m) = Ret tt
  \/ exists e, fst (_add_to_path_unix w path m) = Raise e
               /\ is_exception e = false.
Proof.
  rewrite add_to_path_unix_eq. cbv zeta. unfold is_exception.
  destruct (home w) as [h | e].
  - destruct (write_profile _ path _) as [[[] | e] m2]; [ now left | ].
    destruct (handles [Exception] e) eqn:He; [ now left | right; exists e; now split ].
  - destruct (handles [Exception] e) eqn:He; [ now left | right; exists e; now split ].
Qed.

(** [_add_to_path_windows] step by step. *)
Lemma add_to_path_windows_eq (w : world) (path : string) (m : machine) :
  let caught e m2 :=
    if handles [Exception] e
    then (Ret tt, snd (say (SayError "Could not add to PATH: " e) m2))
    else (Raise e, m2) in
  let m1 := mkMachine (ran m ++ [get_user_path_cmd]) (attempted m)
                      (said_lines m) (PATH m) (home_files m) in
  _add_to_path_windows w path m
  = match answer w get_user_path_cmd with
    | RunRaises e => caught e m1
    | Completed _ stdout =>
        let current_path := strip stdout in
        if contains path current_path then (Ret tt, m1)
        else
          let new_path :=
            if String.eqb current_path "" then path
            else (current_path ++ ";" ++ path)%string in
          let m2 := mkMachine (ran m1 ++ [set_user_path_cmd new_path])
                              (attempted m) (said_lines m) (PATH m)
                              (home_files m) in
          match answer w (set_user_path_cmd new_path) with
          | RunRaises e => caught e m2
          | Completed _ _ =>
              (Ret tt,
               mkMachine (ran m2) (attempted m) (said_lines m)
                         (Some (session_path m ++ ";" ++ path)%string)
                         (home_files m))
          end
    end.
Proof.
  cbv zeta. unfold _add_to_path_windows, Eff.try_except, Eff.bind at 1.
  unfold run at 1.
  destruct (answer w get_user_path_cmd) as [e | rc out]; [ reflexivity | ].
  cbn [snd]. destruct (contains path (strip out)); cbn [negb];
    [ reflexivity | ].
  destruct (String.eqb (strip out) ""); cbn [negb];
    unfold Eff.bind, run; cbn [ran attempted said_lines PATH home_files];
    match goal with
    | |- context [answer w ?c] => destruct (answer w c)
    end; reflexivity.
Qed.

(** X4.  [_add_to_path_windows] reads the user's PATH with one command.  When
    the text of the directory occurs in what the command printed, nothing
    else is run and the session is left alone.  Otherwise one command sets
    the user's PATH: to what was printed, [";"] and the directory, or to
    the directory alone when nothing was printed (which is also what a
    failed read prints, whatever its exit status). *)
Theorem add_to_path_windows_commands (w : world) (path : string)
        (m : machine) (returncode : Z) (stdout : string) :
  answer w get_user_path_cmd = Completed returncode stdout ->
  let m' := snd (_add_to_path_windows w path m) in
  let current_path := strip stdout in
  (contains path current_path = true ->
   ran m' = ran m ++ [get_user_path_cmd] /\ PATH m' = PATH m)
  /\ (contains path current_path = false ->
      ran m'
      = ran m
        ++ [get_user_path_cmd;
            set_user_path_cmd
              (if String.eqb current_path "" then path
               else (current_path ++ ";" ++ path)%string)]).
Proof.
  intros Hget. cbv zeta. rewrite add_to_path_windows_eq. cbv zeta.
  rewrite Hget. destruct (contains path (strip stdout)); split;
    try discriminate; intros _.
  - now split.
  - destruct (answer w (set_user_path_cmd _)) as [e | rc out];
      [ destruct (handles [Exception] e) | ]; cbn;
      now rewrite <- app_assoc.
Qed.

Lemma add_to_path_windows_commands_witness :
  ran (snd (_add_to_path_windows Desk.windows "C:\Users\u\ffmpeg\bin"
                                 Desk.fresh))
  = [get_user_path_cmd;
     set_user_path_cmd "C:\Windows;C:\Users\u\ffmpeg\bin"].
Proof.
  exact (proj2 (@add_to_path_windows_commands
                  Desk.windows "C:\Users\u\ffmpeg\bin" Desk.fresh 0%Z
                  ("C:\Windows" ++ Examples.LF)%string eq_refl)
               eq_refl).
Defined.

Lemma add_to_path_windows_result (w : world) (path : string) (m : machine) :
  fst (_add_to_path_windows w path m) = Ret tt
  \/ exists e, fst (_add_to_path_windows w path m) = Raise e
               /\ is_exception e = false.
Proof.
  rewrite add_to_path_windows_eq. cbv zeta. unfold is_exception.
  destruct (answer w get_user_path_cmd) as [e | rc out].
  - destruct (handles [Exception] e) eqn:He; [ now left | right; exists e; now split ].
  - destruct (contains path (strip out)); [ now left | ].
    destruct (answer w (set_user_path_cmd _)) as [e | rc' out'];
      [ | now left ].
    destruct (handles [Exception] e) eqn:He; [ now left | right; exists e; now split ].
Qed.

(* ================================================================== *)
(** * The installer on Linux *)
(* ================================================================== *)

Lemma same_files_refl (m : machine) : same_files m m.
Proof. repeat split. Qed.

Lemma same_files_trans (m1 m2 m3 : machine) :
  same_files m1 m2 -> same_files m2 m3 -> same_files m1 m3.
Proof. unfold same_files. intuition congruence. Qed.

(** One package manager: the commands it runs, and what they imply. *)
Lemma try_package_manager_spec (w : world) (u i : list string)
      (m : machine) (r : result bool) (m' : machine) :
  try_package_manager w u i m = (r, m') ->
  same_files m m'
  /\ exists cmds,
      ran m' = ran m ++ cmds
      /\ (cmds = [version_cmd u]
          \/ (exits_zero w (version_cmd u) = true
              /\ (cmds = [version_cmd u; u]
                  \/ (exits_zero w u = true
                      /\ cmds = [version_cmd u; u; i]))))
      /\ (r = Ret true -> cmds = [version_cmd u; u; i]
                          /\ exits_zero w i = true)
      /\ (forall e, r = Raise e ->
                    handles [CalledProcessError; FileNotFoundError] e = false
                    /\ exists c, In c cmds /\ answer w c = RunRaises e)
      /\ (not_usable w u = true -> r = Ret false /\ cmds = [version_cmd u]).
Proof.
  unfold try_package_manager, not_usable, exits_zero.
  fold (version_cmd u).
  unfold Eff.try_except, run_check, Eff.bind, run, say, Eff.ret, Eff.raise.
  cbn -[version_cmd handles Z.eqb].
  assert (Hz : (0 =? 0)%Z = true) by reflexivity.
  destruct (answer w (version_cmd u)) as [e | rc out] eqn:Hv;
    cbn -[version_cmd handles Z.eqb];
    [ destruct (handles [CalledProcessError; FileNotFoundError] e) eqn:He
    | destruct (Z.eqb_spec rc 0) as [-> | Hrc];
      cbn -[version_cmd handles Z.eqb];
      [ destruct (answer w u) as [e | rc out'] eqn:Hu;
        cbn -[version_cmd handles Z.eqb];
        [ destruct (handles [CalledProcessError; FileNotFoundError] e) eqn:He
        | destruct (Z.eqb_spec rc 0) as [-> | Hrc];
          cbn -[version_cmd handles Z.eqb];
          [ destruct (answer w i) as [e | rc out''] eqn:Hi;
            cbn -[version_cmd handles Z.eqb];
            [ destruct (handles [CalledProcessError; FileNotFoundError] e)
                       eqn:He
            | destruct (Z.eqb_spec rc 0) as [-> | Hrc];
              cbn -[version_cmd handles Z.eqb] ]
          | ] ]
      | ] ];
    intros [= <- <-];
    (split; [ repeat split | ]);
    eexists;
    (split; [ cbn [ran]; rewrite <- ?app_assoc; reflexivity | ]);
    (split; [ | split; [ | split ] ]).
  all: try (intros H; first [ discriminate H | cbn in H; discriminate H
                            | split; reflexivity ]).
  all: try (intros e' H; first
              [ discriminate H
              | injection H as <-;
                split; [ exact He | eexists; split; [ | eassumption ];
                                    cbn; tauto ] ]).
  all: try (now left).
  all: try (right; split; [ reflexivity | now left ]).
  all: try (right; split; [ reflexivity | right; split; reflexivity ]).
  all: try (intros H; apply negb_true_iff, Z.eqb_neq in H; congruence).
Qed.

(** The loop over the package managers. *)
Lemma try_package_managers_spec (w : world)
      (managers : list (list string * list string)) :
  forall (m : machine) (r : result bool) (m' : machine),
    try_package_managers w managers m = (r, m') ->
    same_files m m'
    /\ exists cmds,
        ran m' = ran m ++ cmds
        /\ (forall c, In c cmds ->
              exists u i,
                In (u, i) managers
                /\ (c = version_cmd u \/ c = u
                    \/ (c = i /\ exits_zero w (version_cmd u) = true
                        /\ exits_zero w u = true)))
        /\ (r = Ret true ->
            exists before u i,
              In (u, i) managers /\ cmds = before ++ [i]
              /\ exits_zero w i = true).
Proof.
  induction managers as [ | [u i] managers IH]; intros m r m'.
  - cbn. intros [= <- <-]. split; [ apply same_files_refl | ].
    exists []. rewrite app_nil_r. split; [ reflexivity | ].
    split; [ intros c [] | discriminate ].
  - cbn [try_package_managers]. unfold Eff.bind at 1.
    destruct (try_package_manager w u i m) as [r1 m1] eqn:H1.
    destruct (try_package_manager_spec _ _ _ _ H1)
      as (F1 & cmds1 & R1 & C1 & T1 & _).
    assert (Hin1 : forall c, In c cmds1 ->
                     c = version_cmd u \/ c = u
                     \/ (c = i /\ exits_zero w (version_cmd u) = true
                         /\ exits_zero w u = true)).
    { intros c Hc.
      destruct C1 as [-> | (Hv & [-> | (Hu & ->)])]; cbn in Hc; intuition. }
    destruct r1 as [[ | ] | e].
    + (* [return True] *)
      intros [= <- <-]. split; [ exact F1 | ]. exists cmds1.
      split; [ exact R1 | ]. split.
      * intros c Hc. exists u, i. split; [ now left | now apply Hin1 ].
      * intros _. destruct (T1 eq_refl) as [-> Hi].
        exists [version_cmd u; u], u, i. repeat split; [ now left | exact Hi ].
    + (* the loop goes on *)
      intros H2. destruct (IH _ _ _ H2) as (F2 & cmds2 & R2 & C2 & T2).
      split; [ now apply same_files_trans with m1 | ].
      exists (cmds1 ++ cmds2). split; [ now rewrite R2, R1, app_assoc | ].
      split.
      * intros c Hc. apply in_app_or in Hc as [Hc | Hc].
        -- exists u, i. split; [ now left | now apply Hin1 ].
        -- destruct (C2 c Hc) as (u' & i' & Hin & Hc'). exists u', i'.
           split; [ now right | exact Hc' ].
      * intros Hr. destruct (T2 Hr) as (before & u' & i' & Hin & -> & Hi).
        exists (cmds1 ++ before), u', i'.
        split; [ now right | ]. split; [ now rewrite app_assoc | exact Hi ].
    + (* an exception that the loop does not handle *)
      intros [= <- <-]. split; [ exact F1 | ]. exists cmds1.
      split; [ exact R1 | ]. split; [ | discriminate ].
      intros c Hc. exists u, i. split; [ now left | now apply Hin1 ].
Qed.

(** [_install_ffmpeg_linux] in terms of the loop and of [snap]. *)
Lemma install_ffmpeg_linux_eq (w : world) (m : machine) :
  let m0 := snd (say (Say "Installing FFmpeg for Linux...") m) in
  _install_ffmpeg_linux w m
  = match try_package_managers w package_managers m0 with
    | (Ret true, m1) => (Ret true, m1)
    | (Raise e, m1) => (Raise e, m1)
    | (Ret false, m1) =>
        let m2 := mkMachine (ran m1 ++ [snap_cmd]) (attempted m1)
                            (said_lines m1) (PATH m1) (home_files m1) in
        match answer w snap_cmd with
        | Completed returncode _ =>
            if (returncode =? 0)%Z then (Ret true, m2)
            else
              (Ret false,
               snd (say (Say "Could not install FFmpeg automatically. Please install manually.") m2))
        | RunRaises e =>
            if handles [CalledProcessError; FileNotFoundError] e
            then
              (Ret false,
               snd (say (Say "Could not install FFmpeg automatically. Please install manually.") m2))
            else (Raise e, m2)
        end
    end.
Proof.
  cbv zeta. unfold _install_ffmpeg_linux. unfold Eff.bind at 1.
  unfold say at 1. unfold Eff.bind at 1.
  destruct (try_package_managers w package_managers _) as [[[ | ] | e] m1];
    try reflexivity.
  unfold Eff.bind at 1, Eff.try_except, run_check, Eff.bind, run.
  fold snap_cmd.
  destruct (answer w snap_cmd) as [e | rc out]; cbn -[handles].
  - destruct (handles _ e); reflexivity.
  - destruct (rc =? 0)%Z; reflexivity.
Qed.

(** X5.  On Linux an install command is run only for a package manager whose
    test and whose update both exited with status 0. *)
Theorem linux_installs_only_after_update (w : world) (m : machine)
        (update_cmd install_cmd : list string) :
  In (update_cmd, install_cmd) package_managers ->
  let m' := snd (_install_ffmpeg_linux w m) in
  In install_cmd (ran m') ->
  ~ In install_cmd (ran m) ->
  exits_zero w (version_cmd update_cmd) = true
  /\ exits_zero w update_cmd = true.
Proof.
  intros Hpm. cbv zeta. rewrite install_ffmpeg_linux_eq. cbv zeta.
  destruct (try_package_managers w package_managers _) as [r m1] eqn:H1.
  destruct (try_package_managers_spec _ _ _ H1) as (_ & cmds & R & C & _).
  cbn [say snd ran] in R.
  assert (Hcase : In install_cmd (ran m1) -> ~ In install_cmd (ran m) ->
                  exits_zero w (version_cmd update_cmd) = true
                  /\ exits_zero w update_cmd = true).
  { rewrite R. intros Hin Hnot. apply in_app_or in Hin as [Hin | Hin];
      [ contradiction | ].
    destruct (C _ Hin) as (u & i & Hui & Hc).
    cbn in Hpm, Hui.
    repeat (destruct Hpm as [Hpm | Hpm]; [ injection Hpm as <- <- | ]);
      try contradiction;
      repeat (destruct Hui as [Hui | Hui]; [ injection Hui as <- <- | ]);
      try contradiction;
      destruct Hc as [Hc | [Hc | (Hc & Hv & Hu)]];
      try discriminate Hc; now split. }
  assert (Hsnap : install_cmd <> snap_cmd).
  { cbn in Hpm.
    repeat (destruct Hpm as [Hpm | Hpm]; [ injection Hpm as <- <- | ]);
      try contradiction; discriminate. }
  assert (Hm2 : In install_cmd (ran m1 ++ [snap_cmd]) ->
                In install_cmd (ran m1)).
  { intros Hin. apply in_app_or in Hin as [Hin | [Hin | []]];
      [ exact Hin | congruence ]. }
  destruct r as [[ | ] | e]; cbn [snd]; try exact Hcase.
  destruct (answer w snap_cmd) as [e | rc out].
  - destruct (handles _ e); cbn [snd say ran]; intros Hin;
      apply Hcase; now apply Hm2.
  - destruct (rc =? 0)%Z; cbn [snd say ran]; intros Hin;
      apply Hcase; now apply Hm2.
Qed.

Lemma linux_installs_only_after_update_witness :
  exits_zero Desk.fedora ["dnf"; "--version"]%string = true
  /\ exits_zero Desk.fedora ["dnf"; "check-update"]%string = true.
Proof.
  apply (@linux_installs_only_after_update
           Desk.fedora Desk.fresh ["dnf"; "check-update"]%string
           ["dnf"; "install"; "-y"; "ffmpeg"]%string).
  - vm_compute. tauto.
  - vm_compute. tauto.
  - intros [].
Defined.

(** X6.  When [_install_ffmpeg_linux] returns [True], the last command it ran
    is an install command, of a package manager of the list or of [snap],
    and that command exited with status 0. *)
Theorem linux_success_is_an_install (w : world) (m : machine) :
  fst (_install_ffmpeg_linux w m) = Ret true ->
  exists before c,
    ran (snd (_install_ffmpeg_linux w m)) = ran m ++ before ++ [c]
    /\ exits_zero w c = true
    /\ (c = snap_cmd \/ exists u, In (u, c) package_managers).
Proof.
  rewrite install_ffmpeg_linux_eq. cbv zeta.
  destruct (try_package_managers w package_managers _) as [r m1] eqn:H1.
  destruct (try_package_managers_spec _ _ _ H1) as (_ & cmds & R & _ & T).
  cbn [say snd ran] in R.
  destruct r as [[ | ] | e]; cbn [fst snd]; try discriminate.
  - intros _. destruct (T eq_refl) as (before & u & i & Hin & -> & Hi).
    exists before, i. split; [ exact R | ]. split; [ exact Hi | ].
    right. now exists u.
  - unfold exits_zero.
    destruct (answer w snap_cmd) as [e | rc out] eqn:Hs.
    + destruct (handles _ e); discriminate.
    + destruct (rc =? 0)%Z eqn:Hrc; [ | discriminate ]. intros _.
      exists cmds, snap_cmd. cbn [snd ran]. rewrite R, Hs.
      split; [ now rewrite app_assoc | ]. split; [ exact Hrc | now left ].
Qed.

Lemma linux_success_is_an_install_witness :
  exists before c,
    ran (snd (_install_ffmpeg_linux Desk.fedora Desk.fresh))
    = ran Desk.fresh ++ before ++ [c]
    /\ exits_zero Desk.fedora c = true
    /\ (c = snap_cmd \/ exists u, In (u, c) package_managers).
Proof.
  exact (@linux_success_is_an_install Desk.fedora Desk.fresh eq_refl).
Defined.

Lemma exits_zero_inv (w : world) (cmd : list string) :
  exits_zero w cmd = true -> exists out, answer w cmd = Completed 0 out.
Proof.
  unfold exits_zero. destruct (answer w cmd) as [e | rc out];
    [ discriminate | ].
  intros H. apply Z.eqb_eq in H. subst. now exists out.
Qed.

Lemma try_package_manager_skips (w : world) (u i : list string)
      (m : machine) :
  not_usable w u = true ->
  try_package_manager w u i m
  = (Ret false,
     mkMachine (ran m ++ [version_cmd u]) (attempted m) (said_lines m)
               (PATH m) (home_files m)).
Proof.
  unfold try_package_manager, not_usable. fold (version_cmd u).
  unfold Eff.try_except, run_check, Eff.bind, run, say, Eff.ret, Eff.raise.
  cbn -[version_cmd handles Z.eqb].
  destruct (answer w (version_cmd u)) as [e | rc out];
    cbn -[version_cmd handles Z.eqb].
  - now intros ->.
  - intros H. apply negb_true_iff in H. now rewrite H.
Qed.

Lemma try_package_manager_installs (w : world) (u i : list string)
      (m : machine) :
  exits_zero w (version_cmd u) = true ->
  exits_zero w u = true ->
  exits_zero w i = true ->
  try_package_manager w u i m
  = (Ret true,
     mkMachine (ran m ++ [version_cmd u; u; i]) (attempted m)
               (said_lines m
                ++ [Say ("Using " ++ hd EmptyString u
                                  ++ " package manager...");
                    Say "FFmpeg installation completed!"])
               (PATH m) (home_files m)).
Proof.
  intros Hv Hu Hi.
  apply exits_zero_inv in Hv as [o1 Hv], Hu as [o2 Hu], Hi as [o3 Hi].
  unfold try_package_manager. fold (version_cmd u).
  unfold Eff.try_except, run_check, Eff.bind, run, say, Eff.ret, Eff.raise.
  cbn -[version_cmd handles]. rewrite Hv.
  cbn -[version_cmd handles]. rewrite Hu.
  cbn -[version_cmd handles]. rewrite Hi.
  cbn -[version_cmd handles].
  now rewrite <- !app_assoc.
Qed.

Lemma try_package_manager_fault (w : world) (u i : list string)
      (m : machine) (e : exn) :
  answer w (version_cmd u) = RunRaises e ->
  handles [CalledProcessError; FileNotFoundError] e = false ->
  try_package_manager w u i m
  = (Raise e,
     mkMachine (ran m ++ [version_cmd u]) (attempted m) (said_lines m)
               (PATH m) (home_files m)).
Proof.
  intros Hv He. unfold try_package_manager. fold (version_cmd u).
  unfold Eff.try_except, run_check, Eff.bind, run, say, Eff.ret, Eff.raise.
  cbn -[version_cmd handles Z.eqb]. rewrite Hv.
  cbn -[version_cmd handles Z.eqb]. now rewrite He.
Qed.

(** The loop passes the package managers that cannot be used, running
    the test command of each. *)
Lemma try_package_managers_skip (w : world)
      (pre rest : list (list string * list string)) :
  Forall (fun ui => not_usable w (fst ui) = true) pre ->
  forall m,
    try_package_managers w (pre ++ rest) m
    = try_package_managers w rest
        (mkMachine (ran m ++ map (fun ui => version_cmd (fst ui)) pre)
                   (attempted m) (said_lines m) (PATH m) (home_files m)).
Proof.
  induction 1 as [ | [u i] pre Hu _ IH]; intros m.
  - cbn. rewrite app_nil_r. now destruct m.
  - cbn [app try_package_managers map fst]. unfold Eff.bind at 1.
    rewrite try_package_manager_skips by exact Hu.
    rewrite IH. cbn [ran attempted said_lines PATH home_files].
    now rewrite <- app_assoc.
Qed.

(** X7.  The first package manager of the list that can be used decides: when
    its test, its update and its install command exit with status 0,
    [_install_ffmpeg_linux] returns [True], having run the tests of the
    package managers before it and these three commands, and nothing
    else. *)
Theorem linux_first_usable_manager_installs (w : world) (m : machine)
        (pre post : list (list string * list string))
        (update_cmd install_cmd : list string) :
  package_managers = pre ++ (update_cmd, install_cmd) :: post ->
  Forall (fun ui => not_usable w (fst ui) = true) pre ->
  exits_zero w (version_cmd update_cmd) = true ->
  exits_zero w update_cmd = true ->
  exits_zero w install_cmd = true ->
  fst (_install_ffmpeg_linux w m) = Ret true
  /\ ran (snd (_install_ffmpeg_linux w m))
     = ran m ++ map (fun ui => version_cmd (fst ui)) pre
       ++ [version_cmd update_cmd; update_cmd; install_cmd].
Proof.
  intros Hpm Hpre Hv Hu Hi.
  destruct (_install_ffmpeg_linux w m) as [r m'] eqn:E.
  rewrite install_ffmpeg_linux_eq in E. cbv zeta in E.
  rewrite Hpm, try_package_managers_skip in E by exact Hpre.
  cbn [try_package_managers] in E. unfold Eff.bind at 1 in E.
  rewrite try_package_manager_installs in E by assumption.
  unfold Eff.ret, say in E. cbn [fst snd ran] in E.
  injection E as <- <-. cbn [fst snd ran].
  split; [ reflexivity | now rewrite <- ?app_assoc ].
Qed.

Lemma linux_first_usable_manager_installs_witness :
  fst (_install_ffmpeg_linux Desk.fedora Desk.fresh) = Ret true
  /\ ran (snd (_install_ffmpeg_linux Desk.fedora Desk.fresh))
     = [["apt"; "--version"]; ["yum"; "--version"]; ["dnf"; "--version"];
        ["dnf"; "check-update"];
        ["dnf"; "install"; "-y"; "ffmpeg"]]%string.
Proof.
  apply (@linux_first_usable_manager_installs
           Desk.fedora Desk.fresh
           [(["apt"; "update"], ["apt"; "install"; "-y"; "ffmpeg"]);
            (["yum"; "check-update"], ["yum"; "install"; "-y"; "ffmpeg"])]%string
           [(["pacman"; "-Sy"], ["pacman"; "-S"; "--noconfirm"; "ffmpeg"]);
            (["zypper"; "refresh"], ["zypper"; "install"; "-y"; "ffmpeg"])]%string
           ["dnf"; "check-update"]%string
           ["dnf"; "install"; "-y"; "ffmpeg"]%string);
    try reflexivity.
  repeat constructor.
Defined.

(** X8.  An exception of a test command that is neither [CalledProcessError]
    nor [FileNotFoundError] ends the installation on Linux:
    [install_ffmpeg] returns [False] without trying the package managers
    that follow, nor [snap]. *)
Theorem linux_fault_ends_installation (w : world) (m : machine)
        (pre post : list (list string * list string))
        (update_cmd install_cmd : list string) (e : exn) :
  package_managers = pre ++ (update_cmd, install_cmd) :: post ->
  Forall (fun ui => not_usable w (fst ui) = true) pre ->
  answer w (version_cmd update_cmd) = RunRaises e ->
  handles [CalledProcessError; FileNotFoundError] e = false ->
  is_exception e = true ->
  fst (install_ffmpeg w "linux" m) = Ret false
  /\ ran (snd (install_ffmpeg w "linux" m))
     = ran m ++ map (fun ui => version_cmd (fst ui)) pre
       ++ [version_cmd update_cmd].
Proof.
  intros Hpm Hpre Hv He Hx.
  destruct (install_ffmpeg w "linux" m) as [r m'] eqn:E.
  unfold install_ffmpeg, Eff.try_except in E.
  cbn [String.eqb Ascii.eqb Bool.eqb] in E.
  rewrite install_ffmpeg_linux_eq in E. cbv zeta in E.
  rewrite Hpm, try_package_managers_skip in E by exact Hpre.
  cbn [try_package_managers] in E. unfold Eff.bind at 1 in E.
  rewrite (try_package_manager_fault _ _ _ _ Hv He) in E.
  unfold is_exception in Hx. rewrite Hx in E.
  unfold Eff.bind, say, Eff.ret in E. cbn [fst snd ran] in E.
  injection E as <- <-. cbn [fst snd ran].
  split; [ reflexivity | now rewrite <- ?app_assoc ].
Qed.

Lemma linux_fault_ends_installation_witness :
  fst (install_ffmpeg Desk.locked "linux" Desk.fresh) = Ret false
  /\ ran (snd (install_ffmpeg Desk.locked "linux" Desk.fresh))
     = [["apt"; "--version"]%string].
Proof.
  apply (@linux_fault_ends_installation
           Desk.locked Desk.fresh []
           (tl package_managers)
           ["apt"; "update"]%string
           ["apt"; "install"; "-y"; "ffmpeg"]%string PermissionError);
    try reflexivity.
  constructor.
Defined.

(* ================================================================== *)
(** * What a failed installation leaves behind *)
(* ================================================================== *)

Lemma untouched_refl (m : machine) : untouched m m.
Proof. repeat split. intros c Hc. now left. Qed.

Lemma untouched_trans (m1 m2 m3 : machine) :
  untouched m1 m2 -> untouched m2 m3 -> untouched m1 m3.
Proof.
  intros (P1 & F1 & R1) (P2 & F2 & R2). repeat split; try congruence.
  intros c Hc. destruct (R2 c Hc) as [H | H]; [ now apply R1 | now right ].
Qed.

Lemma safe_ret (A : Type) (a : A) : safe (Eff.ret a).
Proof. intros m. apply untouched_refl. Qed.

Lemma safe_raise (A : Type) (e : exn) : safe (@Eff.raise machine A e).
Proof. intros m. apply untouched_refl. Qed.

Lemma safe_say (line : said) : safe (say line).
Proof. intros m. repeat split. intros c Hc. now left. Qed.

Lemma safe_perform (w : world) (s : step) : safe (perform w s).
Proof.
  intros m. unfold perform. destruct (step_raises w s); repeat split;
    intros c Hc; now left.
Qed.

Lemma safe_home (w : world) : safe (Path_home w).
Proof. intros m. apply untouched_refl. Qed.

Lemma safe_run (w : world) (cmd : list string) :
  hd EmptyString cmd <> "powershell"%string -> safe (run w cmd).
Proof.
  intros Hc m. unfold run.
  destruct (answer w cmd); repeat split; cbn [snd ran]; intros c Hin;
    apply in_app_or in Hin as [Hin | [<- | []]]; auto.
Qed.

Lemma safe_bind (A B : Type) (c : Eff.t machine A)
      (k : A -> Eff.t machine B) :
  safe c -> (forall a, safe (k a)) -> safe (Eff.bind c k).
Proof.
  intros Hc Hk m. unfold Eff.bind. specialize (Hc m).
  destruct (c m) as [[a | e] m1]; cbn [snd] in *; [ | exact Hc ].
  apply untouched_trans with m1; [ exact Hc | apply Hk ].
Qed.

Lemma safe_try_except (A : Type) (c : Eff.t machine A) (ds : list pyclass)
      (handler : exn -> Eff.t machine A) :
  safe c -> (forall e, safe (handler e)) -> safe (Eff.try_except c ds handler).
Proof.
  intros Hc Hh m. unfold Eff.try_except. specialize (Hc m).
  destruct (c m) as [[a | e] m1]; cbn [snd] in *; [ exact Hc | ].
  destruct (handles ds e); [ | exact Hc ].
  apply untouched_trans with m1; [ exact Hc | apply Hh ].
Qed.

Lemma safe_with_temporary_directory (w : world) (A : Type)
      (body : Eff.t machine A) :
  safe body -> safe (with_temporary_directory w body).
Proof.
  intros Hb. unfold with_temporary_directory.
  apply safe_bind; [ apply safe_perform | ]. intros _ m.
  specialize (Hb m). destruct (body m) as [[a | e] m1]; cbn [snd] in Hb;
    pose proof (safe_perform w Cleanup m1) as Hc;
    destruct (perform w Cleanup m1) as [[[] | e'] m2]; cbn [snd] in *;
    now apply untouched_trans with m1.
Qed.

Lemma safe_run_check (w : world) (cmd : list string) :
  hd EmptyString cmd <> "powershell"%string -> safe (run_check w cmd).
Proof.
  intros Hc. unfold run_check. apply safe_bind; [ now apply safe_run | ].
  intros r. destruct (fst r =? 0)%Z; [ apply safe_ret | apply safe_raise ].
Qed.

Ltac safe_steps :=
  repeat first
    [ apply safe_ret | apply safe_raise | apply safe_say
    | apply safe_perform | apply safe_home
    | apply safe_with_temporary_directory
    | apply safe_run; discriminate
    | apply safe_run_check; discriminate
    | apply safe_try_except; [ | intros ? ]
    | apply safe_bind; [ | intros ? ]
    | match goal with
      | |- safe (if ?b then _ else _) => destruct b
      | |- safe (match ?l with [] => _ | _ :: _ => _ end) => destruct l
      end ].

Lemma safe_windows_files (w : world) : safe (windows_files w).
Proof. unfold windows_files. safe_steps. Qed.

Lemma safe_macos_files (w : world) : safe (macos_files w).
Proof. unfold macos_files. safe_steps. Qed.

Lemma safe_brew_install (w : world) : safe (brew_install w).
Proof. unfold brew_install. safe_steps. Qed.

Lemma safe_install_ffmpeg_linux (w : world) : safe (_install_ffmpeg_linux w).
Proof.
  intros m.
  destruct (_install_ffmpeg_linux w m) as [r m'] eqn:E. cbn [snd].
  rewrite install_ffmpeg_linux_eq in E. cbv zeta in E.
  destruct (try_package_managers w package_managers _) as [r1 m1] eqn:H1.
  destruct (try_package_managers_spec _ _ _ H1)
    as ((_ & P1 & F1) & cmds & R1 & C1 & _).
  cbn [say snd ran PATH home_files] in P1, F1, R1.
  assert (U1 : untouched m m1).
  { repeat split; try assumption. intros c Hc. rewrite R1 in Hc.
    apply in_app_or in Hc as [Hc | Hc]; [ now left | right ].
    destruct (C1 c Hc) as (u & i & Hui & Hcase). cbn in Hui.
    repeat (destruct Hui as [Hui | Hui]; [ injection Hui as <- <- | ]);
      try contradiction;
      destruct Hcase as [-> | [-> | (-> & _)]]; discriminate. }
  assert (U2 : forall l,
             untouched m (mkMachine (ran m1 ++ [snap_cmd]) (attempted m1)
                                    l (PATH m1) (home_files m1))).
  { intros l. destruct U1 as (P & F & R). repeat split; try assumption.
    cbn [ran]. intros c Hc.
    apply in_app_or in Hc as [Hc | [<- | []]];
      [ now apply R | right; discriminate ]. }
  destruct r1 as [[ | ] | e]; try (injection E as <- <-; exact U1).
  destruct (answer w snap_cmd) as [e | rc out];
    [ destruct (handles _ e) | destruct (rc =? 0)%Z ];
    injection E as <- <-; apply U2.
Qed.

Lemma guarded_bind (A : Type) (c : Eff.t machine A)
      (k : A -> Eff.t machine bool) :
  safe c -> (forall a, guarded (k a)) -> guarded (Eff.bind c k).
Proof.
  intros Hc Hk m. unfold Eff.bind. specialize (Hc m).
  destruct (c m) as [[a | e] m1]; cbn [snd] in Hc.
  - destruct (Hk a m1) as [H | [H | H]]; [ now left | right; now left | ].
    right. right. now apply untouched_trans with m1.
  - right. now right.
Qed.

Lemma guarded_safe (c : Eff.t machine bool) : safe c -> guarded c.
Proof. intros H m. right. right. apply H. Qed.

(** Once the PATH is being changed the installer returns [True], unless an
    exception that is no instance of [Exception] stops it. *)
Lemma guarded_after_path (add : Eff.t machine unit) (line : said) :
  (forall m, fst (add m) = Ret tt
             \/ exists e, fst (add m) = Raise e /\ is_exception e = false) ->
  guarded (Eff.bind add (fun _ => Eff.bind (say line)
                                           (fun _ => Eff.ret true))).
Proof.
  intros H m. unfold Eff.bind. specialize (H m).
  destruct (add m) as [[[] | e] m1]; cbn [fst] in *.
  - now left.
  - right. left. destruct H as [H | (e' & H & He)]; [ discriminate | ].
    injection H as ->. now exists e'.
Qed.

Lemma guarded_install_ffmpeg_windows (w : world) :
  guarded (_install_ffmpeg_windows w).
Proof.
  unfold _install_ffmpeg_windows.
  apply guarded_bind; [ apply safe_windows_files | ]. intros d.
  apply guarded_after_path. intros m. apply add_to_path_windows_result.
Qed.

Lemma guarded_install_ffmpeg_macos (w : world) :
  guarded (_install_ffmpeg_macos w).
Proof.
  unfold _install_ffmpeg_macos.
  apply guarded_bind; [ apply safe_say | ]. intros _.
  apply guarded_bind; [ apply safe_brew_install | ]. intros [ | ].
  - intros m. now left.
  - apply guarded_bind; [ apply safe_macos_files | ]. intros d.
    apply guarded_after_path. intros m. apply add_to_path_unix_result.
Qed.

Lemma install_ffmpeg_false (w : world) (system : string) (m : machine) :
  fst (install_ffmpeg w system m) = Ret false ->
  untouched m (snd (install_ffmpeg w system m)).
Proof.
  pose (body :=
          if String.eqb system "windows" then _install_ffmpeg_windows w
          else if String.eqb system "darwin" then _install_ffmpeg_macos w
               else if String.eqb system "linux"
                    then _install_ffmpeg_linux w
                    else Eff.bind
                           (say (Say ("Unsupported platform: " ++ system)))
                           (fun _ => Eff.ret false)).
  assert (G : guarded body).
  { subst body. destruct (String.eqb system "windows");
      [ apply guarded_install_ffmpeg_windows | ].
    destruct (String.eqb system "darwin");
      [ apply guarded_install_ffmpeg_macos | ].
    destruct (String.eqb system "linux");
      [ apply guarded_safe, safe_install_ffmpeg_linux | ].
    apply guarded_safe. safe_steps. }
  change (install_ffmpeg w system)
    with (Eff.try_except body [Exception]
            (fun e => Eff.bind (say (SayError "FFmpeg installation failed: " e))
                               (fun _ => Eff.ret false))).
  unfold Eff.try_except. specialize (G m).
  destruct (body m) as [[b | e] m1]; cbn [fst snd] in *.
  - intros [= ->].
    destruct G as [G | [(e & G & _) | G]]; [ discriminate .. | exact G ].
  - destruct (handles [Exception] e) eqn:He; [ | discriminate ].
    intros _. unfold Eff.bind, say, Eff.ret. cbn [snd].
    destruct G as [G | [(e' & G & He') | G]]; [ discriminate | | ].
    + injection G as ->. unfold is_exception in He'. congruence.
    + destruct G as (P & F & R). repeat split; assumption.
Qed.

(** X9.  When [install_ffmpeg] returns [False], on any platform, the PATH of
    the session and the three shell profiles are as before, and no
    [powershell] command has been run: a failed installation has not
    touched PATH.  (The directory [ffmpeg] of the home directory is
    another matter: the operations on it that were started are in
    [attempted].) *)
Theorem failed_installation_leaves_path (w : world) (system : string)
        (m : machine) :
  fst (install_ffmpeg w system m) = Ret false ->
  let m' := snd (install_ffmpeg w system m) in
  PATH m' = PATH m
  /\ (forall profile,
         In profile [".bashrc"; ".zshrc"; ".profile"]%string ->
         lookup (home_files m') profile = lookup (home_files m) profile)
  /\ forall c, In c (ran m') ->
               hd EmptyString c = "powershell"%string ->
               In c (ran m).
Proof.
  intros H. cbv zeta.
  destruct (install_ffmpeg_false w system m H) as (P & F & R).
  split; [ exact P | ]. split; [ intros profile _; now rewrite F | ].
  intros c Hc Hp. destruct (R c Hc) as [G | G]; [ exact G | contradiction ].
Qed.

Lemma failed_installation_leaves_path_witness :
  PATH (snd (install_ffmpeg Desk.bare "linux" Desk.fresh))
  = Some "/usr/bin"%string
  /\ lookup (home_files (snd (install_ffmpeg Desk.bare "linux" Desk.fresh)))
            ".zshrc"
     = Some (mkFile "# zsh" None).
Proof.
  destruct (@failed_installation_leaves_path Desk.bare "linux" Desk.fresh
                                             eq_refl) as (H1 & H2 & _).
  split; [ exact H1 | ].
  apply (H2 ".zshrc"%string). right. now left.
Defined.

(* ================================================================== *)
(** * The installers on macOS and on Windows *)
(* ================================================================== *)

(** X10.  With a working Homebrew, [_install_ffmpeg_macos] runs the two [brew]
    commands and returns [True]: nothing is downloaded, and PATH and the
    profiles are left alone. *)
Theorem homebrew_installs_without_download (w : world) (m : machine) :
  exits_zero w ["brew"; "--version"]%string = true ->
  exits_zero w ["brew"; "install"; "ffmpeg"]%string = true ->
  let m' := snd (_install_ffmpeg_macos w m) in
  fst (_install_ffmpeg_macos w m) = Ret true
  /\ ran m' = ran m ++ [["brew"; "--version"]; ["brew"; "install"; "ffmpeg"]]%string
  /\ attempted m' = attempted m
  /\ PATH m' = PATH m
  /\ home_files m' = home_files m.
Proof.
  intros Hv Hi. cbv zeta.
  apply exits_zero_inv in Hv as [o1 Hv], Hi as [o2 Hi].
  destruct (_install_ffmpeg_macos w m) as [r m'] eqn:E.
  unfold _install_ffmpeg_macos, brew_install, Eff.try_except, Eff.bind, run,
    say, Eff.ret in E.
  cbn [ran attempted said_lines PATH home_files fst snd] in E.
  rewrite Hv in E. cbn in E. rewrite Hi in E. cbn in E.
  injection E as <- <-. cbn. rewrite <- app_assoc. repeat split.
Qed.

Lemma homebrew_installs_without_download_witness :
  fst (_install_ffmpeg_macos Desk.obliging Desk.fresh) = Ret true
  /\ attempted (snd (_install_ffmpeg_macos Desk.obliging Desk.fresh)) = [].
Proof.
  destruct (@homebrew_installs_without_download Desk.obliging Desk.fresh
                                                eq_refl eq_refl)
    as (H1 & _ & H3 & _).
  split; [ exact H1 | exact H3 ].
Defined.

Lemma brew_install_missing (w : world) (m : machine) :
  answer w ["brew"; "--version"]%string = RunRaises FileNotFoundError ->
  brew_install w m
  = (Ret false,
     mkMachine (ran m ++ [["brew"; "--version"]%string]) (attempted m)
               (said_lines m) (PATH m) (home_files m)).
Proof.
  intros H. unfold brew_install, Eff.try_except, Eff.bind, run.
  rewrite H. reflexivity.
Qed.

Lemma perform_ok (w : world) (s : step) (m : machine) :
  step_raises w s = None ->
  perform w s m
  = (Ret tt,
     mkMachine (ran m) (attempted m ++ [s]) (said_lines m) (PATH m)
               (home_files m)).
Proof. intros H. unfold perform. now rewrite H. Qed.

Lemma macos_files_ok (w : world) (m : machine) (h : string) :
  (forall s, step_raises w s = None) ->
  home w = Ret h ->
  fst (macos_files w m) = Ret (OsPath.join h "ffmpeg")
  /\ attempted (snd (macos_files w m))
     = attempted m
       ++ [Mkdir; TemporaryDirectory; Urlretrieve ffmpeg_url_darwin;
           Extractall; Copy2; Chmod; Cleanup]
  /\ PATH (snd (macos_files w m)) = PATH m
  /\ home_files (snd (macos_files w m)) = home_files m.
Proof.
  intros Hs Hh.
  destruct (macos_files w m) as [r m'] eqn:E.
  unfold macos_files in E.
  unfold Eff.bind at 1, Path_home in E. rewrite Hh in E.
  unfold Eff.bind at 1 in E. rewrite perform_ok in E by apply Hs.
  unfold Eff.bind at 1, with_temporary_directory in E.
  unfold Eff.bind at 1 in E. rewrite perform_ok in E by apply Hs.
  cbn [ran attempted said_lines PATH home_files] in E.
  unfold Eff.bind at 1, say at 1 in E.
  cbn [ran attempted said_lines PATH home_files] in E.
  unfold Eff.bind at 1 in E. rewrite perform_ok in E by apply Hs.
  cbn [ran attempted said_lines PATH home_files] in E.
  unfold Eff.bind at 1, say at 1 in E.
  cbn [ran attempted said_lines PATH home_files] in E.
  unfold Eff.bind at 1 in E. rewrite perform_ok in E by apply Hs.
  cbn [ran attempted said_lines PATH home_files] in E.
  unfold Eff.bind at 1 in E. rewrite perform_ok in E by apply Hs.
  cbn [ran attempted said_lines PATH home_files] in E.
  rewrite perform_ok in E by apply Hs.
  cbn [ran attempted said_lines PATH home_files] in E.
  rewrite perform_ok in E by apply Hs.
  cbn [ran attempted said_lines PATH home_files] in E.
  unfold Eff.ret in E. injection E as <- <-.
  cbn [ran attempted said_lines PATH home_files fst snd].
  rewrite <- !app_assoc. repeat split.
Qed.

(** X11.  Without Homebrew, and when every file and network operation works,
    [_install_ffmpeg_macos] downloads and unpacks the archive, copies the
    program and makes it executable, and it leaves the directory [ffmpeg]
    of the home directory in the PATH of the session. *)
Theorem macos_manual_installation (w : world) (m : machine) (h : string) :
  answer w ["brew"; "--version"]%string = RunRaises FileNotFoundError ->
  (forall s, step_raises w s = None) ->
  home w = Ret h ->
  let m' := snd (_install_ffmpeg_macos w m) in
  (fst (_install_ffmpeg_macos w m) = Ret true
   \/ exists e, fst (_install_ffmpeg_macos w m) = Raise e
                /\ is_exception e = false)
  /\ attempted m'
     = attempted m
       ++ [Mkdir; TemporaryDirectory; Urlretrieve ffmpeg_url_darwin;
           Extractall; Copy2; Chmod; Cleanup]
  /\ contains (OsPath.join h "ffmpeg") (session_path m') = true.
Proof.
  intros Hb Hs Hh. cbv zeta.
  destruct (_install_ffmpeg_macos w m) as [r m'] eqn:E.
  unfold _install_ffmpeg_macos in E.
  unfold Eff.bind at 1, say at 1 in E.
  unfold Eff.bind at 1 in E. rewrite (@brew_install_missing w _ Hb) in E.
  unfold Eff.bind at 1 in E.
  set (m0 := mkMachine _ _ _ _ _) in E.
  destruct (@macos_files_ok w m0 h Hs Hh) as (F1 & F2 & _).
  destruct (macos_files w m0) as [r1 m1]. cbn [fst snd] in F1, F2.
  subst r1.
  unfold Eff.bind at 1 in E.
  pose proof (add_to_path_unix_contains w (OsPath.join h "ffmpeg") m1)
    as S1.
  destruct (add_to_path_unix_state w (OsPath.join h "ffmpeg") m1)
    as (_ & A1 & _).
  destruct (add_to_path_unix_result w (OsPath.join h "ffmpeg") m1)
    as [R1 | (e & R1 & He)];
    destruct (_add_to_path_unix w (OsPath.join h "ffmpeg") m1)
      as [r2 m2]; cbn [fst snd] in *; subst r2.
  - unfold Eff.bind, say, Eff.ret in E. injection E as <- <-.
    cbn [fst snd attempted]. split; [ now left | ].
    split; [ | exact S1 ]. rewrite A1, F2. reflexivity.
  - injection E as <- <-.
    split; [ right; now exists e | ].
    split; [ | exact S1 ]. rewrite A1, F2. reflexivity.
Qed.

Lemma macos_manual_installation_witness :
  attempted (snd (_install_ffmpeg_macos Desk.bare Desk.fresh))
  = [Mkdir; TemporaryDirectory; Urlretrieve ffmpeg_url_darwin;
     Extractall; Copy2; Chmod; Cleanup]
  /\ contains "/home/u/ffmpeg"
              (session_path (snd (_install_ffmpeg_macos Desk.bare
                                                        Desk.fresh)))
     = true.
Proof.
  destruct (@macos_manual_installation Desk.bare Desk.fresh "/home/u"
              eq_refl (fun _ => eq_refl) eq_refl) as (_ & H2 & H3).
  split; [ exact H2 | exact H3 ].
Defined.

Lemma add_to_path_windows_attempted (w : world) (path : string)
      (m : machine) :
  attempted (snd (_add_to_path_windows w path m)) = attempted m.
Proof.
  rewrite add_to_path_windows_eq. cbv zeta.
  destruct (answer w get_user_path_cmd) as [e | rc out].
  - destruct (handles [Exception] e); reflexivity.
  - destruct (contains path (strip out)); [ reflexivity | ].
    destruct (answer w (set_user_path_cmd _)) as [e | rc' out'];
      [ destruct (handles [Exception] e) | ]; reflexivity.
Qed.

Lemma install_ffmpeg_windows_attempted (w : world) (m : machine) :
  attempted (snd (install_ffmpeg w "windows" m))
  = attempted (snd (windows_files w m)).
Proof.
  unfold install_ffmpeg, Eff.try_except.
  cbn [String.eqb Ascii.eqb Bool.eqb].
  unfold _install_ffmpeg_windows, Eff.bind at 1.
  destruct (windows_files w m) as [[d | e] m1]; cbn [snd].
  - unfold Eff.bind at 1.
    pose proof (add_to_path_windows_attempted w d m1) as Ha.
    destruct (_add_to_path_windows w d m1) as [[[] | e] m2]; cbn [snd] in Ha.
    + unfold Eff.bind, say, Eff.ret. cbn. exact Ha.
    + destruct (handles [Exception] e); cbn; exact Ha.
  - destruct (handles [Exception] e); reflexivity.
Qed.

(** X12.  On Windows the directory of an earlier installation is removed only
    when the archive was downloaded and unpacked, a folder with a [bin]
    directory was found in it, and the earlier directory exists: a failed
    download never removes what was installed before. *)
Theorem windows_removes_old_files_only_after_unpacking (w : world)
        (m : machine) :
  let m' := snd (install_ffmpeg w "windows" m) in
  In Rmtree (attempted m') ->
  ~ In Rmtree (attempted m) ->
  step_raises w (Urlretrieve ffmpeg_url_windows) = None
  /\ step_raises w Extractall = None
  /\ extracted_folders w <> []
  /\ bin_dir_exists w = true
  /\ destination_bin_exists w = true.
Proof.
  cbv zeta. rewrite install_ffmpeg_windows_attempted.
  unfold windows_files, with_temporary_directory, Eff.bind, say, Path_home,
    perform, Eff.raise, Eff.ret.
  cbn [ran attempted said_lines PATH home_files fst snd].
  intros Hin Hnot.
  assert (Hend : forall l, In Rmtree (attempted m ++ l) ->
                           In Rmtree l).
  { intros l H. apply in_app_or in H as [H | H]; [ contradiction | exact H ]. }
  destruct (home w) as [h | e]; cbn [snd attempted] in Hin;
    [ | contradiction ].
  destruct (step_raises w Mkdir); cbn [snd attempted] in Hin.
  { apply Hend in Hin. cbn in Hin. intuition discriminate. }
  destruct (step_raises w TemporaryDirectory); cbn [snd attempted] in Hin.
  { rewrite <- app_assoc in Hin. apply Hend in Hin. cbn in Hin.
    intuition discriminate. }
  destruct (step_raises w (Urlretrieve ffmpeg_url_windows));
    cbn [snd attempted] in Hin.
  { destruct (step_raises w Cleanup); cbn [snd attempted] in Hin;
      rewrite <- ?app_assoc in Hin; apply Hend in Hin; cbn in Hin;
      intuition discriminate. }
  destruct (step_raises w Extractall); cbn [snd attempted] in Hin.
  { destruct (step_raises w Cleanup); cbn [snd attempted] in Hin;
      rewrite <- ?app_assoc in Hin; apply Hend in Hin; cbn in Hin;
      intuition discriminate. }
  destruct (extracted_folders w) as [ | folder folders];
    cbn [snd attempted] in Hin.
  { destruct (step_raises w Cleanup); cbn [snd attempted] in Hin;
      rewrite <- ?app_assoc in Hin; apply Hend in Hin; cbn in Hin;
      intuition discriminate. }
  destruct (bin_dir_exists w); cbn [negb snd attempted] in Hin.
  2:{ destruct (step_raises w Cleanup); cbn [snd attempted] in Hin;
        rewrite <- ?app_assoc in Hin; apply Hend in Hin; cbn in Hin;
        intuition discriminate. }
  destruct (destination_bin_exists w); cbn [snd attempted] in Hin.
  { repeat split; discriminate. }
  exfalso.
  destruct (step_raises w Copytree); cbn [snd attempted] in Hin;
    destruct (step_raises w Cleanup); cbn [snd attempted] in Hin;
    rewrite <- ?app_assoc in Hin; apply Hend in Hin; cbn in Hin;
    intuition discriminate.
Qed.

Lemma windows_removes_old_files_witness :
  step_raises Desk.windows (Urlretrieve ffmpeg_url_windows) = None
  /\ step_raises Desk.windows Extractall = None
  /\ bin_dir_exists Desk.windows = true
  /\ destination_bin_exists Desk.windows = true.
Proof.
  destruct (@windows_removes_old_files_only_after_unpacking
              Desk.windows Desk.fresh) as (H1 & H2 & _ & H4 & H5).
  - vm_compute. tauto.
  - intros [].
  - repeat split; assumption.
Defined.

(* ================================================================== *)
(** * detect_format *)
(* ================================================================== *)

Lemma str_split_nonempty (sep : ascii) (s : string) :
  str_split sep s <> [].
Proof.
  destruct s as [ | c s]; cbn; [ discriminate | ].
  destruct (Ascii.eqb c sep); [ discriminate | ].
  destruct (str_split sep s); discriminate.
Qed.

Lemma str_split_app (sep : ascii) (a b : string) :
  str_split sep (a ++ String sep b) = str_split sep a ++ str_split sep b.
Proof.
  induction a as [ | c a IH]; cbn [str_split String.append].
  - now rewrite Ascii.eqb_refl.
  - rewrite IH. destruct (Ascii.eqb c sep); [ reflexivity | ].
    pose proof (str_split_nonempty sep a) as H.
    destruct (str_split sep a); [ contradiction | reflexivity ].
Qed.

Lemma str_split_none (sep : ascii) (s : string) :
  ~ In sep (list_ascii_of_string s) -> str_split sep s = [s].
Proof.
  induction s as [ | c s IH]; cbn [str_split list_ascii_of_string];
    [ reflexivity | ].
  intros H. destruct (Ascii.eqb_spec c sep) as [-> | _].
  - exfalso. apply H. now left.
  - rewrite IH; [ reflexivity | ]. intros H'. apply H. now right.
Qed.

Lemma str_split_no_sep (sep : ascii) (s x : string) :
  In x (str_split sep s) -> ~ In sep (list_ascii_of_string x).
Proof.
  revert x. induction s as [ | c s IH]; cbn [str_split]; intros x Hx.
  - destruct Hx as [<- | []]. intros [].
  - destruct (Ascii.eqb_spec c sep) as [-> | Hc].
    + destruct Hx as [<- | Hx]; [ intros [] | now apply IH ].
    + pose proof (str_split_nonempty sep s) as Hn.
      destruct (str_split sep s) as [ | y ys]; [ contradiction | ].
      destruct Hx as [<- | Hx].
      * cbn [list_ascii_of_string]. intros [E | E]; [ now apply Hc | ].
        revert E. apply IH. now left.
      * apply IH. now right.
Qed.

Lemma last_filter_snoc (A : Type) (f : A -> bool) (l : list A) (x d : A) :
  f x = true -> last (filter f (l ++ [x])) d = x.
Proof.
  intros H. rewrite filter_app. cbn [filter]. rewrite H.
  apply last_last.
Qed.

Lemma list_ascii_app (a b : string) :
  list_ascii_of_string (a ++ b)
  = list_ascii_of_string a ++ list_ascii_of_string b.
Proof. induction a; cbn; congruence. Qed.

Lemma length_append (a b : string) :
  String.length (a ++ b) = (String.length a + String.length b)%nat.
Proof. induction a; cbn; congruence. Qed.

(** The name of a path that ends with a slash and a component without
    one. *)
Lemma name_of_path (d component : string) :
  component <> EmptyString ->
  component <> "."%string ->
  ~ In "/"%char (list_ascii_of_string component) ->
  PathLib.name (d ++ "/" ++ component) = component.
Proof.
  intros Hne Hdot Hsep. unfold PathLib.name, PathLib.parts.
  change ("/" ++ component)%string with (String "/" component).
  rewrite str_split_app, (@str_split_none _ _ Hsep).
  apply last_filter_snoc.
  destruct (String.eqb_spec component "") as [E | _]; [ contradiction | ].
  destruct (String.eqb_spec component ".") as [E | _];
    [ contradiction | reflexivity ].
Qed.

Lemma rfind_from_none (c : ascii) (s : string) (i : Z) :
  ~ In c (list_ascii_of_string s) -> OsPath.rfind_from c s i = (-1)%Z.
Proof.
  revert i. induction s as [ | d s IH]; intros i H; cbn; [ reflexivity | ].
  rewrite IH by (intros H'; apply H; now right). cbn.
  destruct (Ascii.eqb_spec d c) as [-> | _]; [ | reflexivity ].
  exfalso. apply H. now left.
Qed.

Lemma rfind_from_last (c : ascii) (a b : string) (i : Z) :
  (0 <= i)%Z ->
  ~ In c (list_ascii_of_string b) ->
  OsPath.rfind_from c (a ++ String c b) i
  = (i + Z.of_nat (String.length a))%Z.
Proof.
  intros Hi Hb. revert i Hi.
  induction a as [ | d a IH]; intros i Hi; cbn [String.append].
  - cbn. rewrite (@rfind_from_none _ _ _ Hb). cbn.
    rewrite Ascii.eqb_refl. lia.
  - cbn [OsPath.rfind_from String.length]. rewrite IH by lia.
    destruct (Z.leb_spec 0 (i + 1 + Z.of_nat (String.length a))); lia.
Qed.

Lemma substring_drop (a b : string) :
  substring (String.length a) (String.length b) (a ++ b) = b.
Proof.
  induction a as [ | c a IH]; cbn [String.length String.append substring].
  - induction b as [ | c b IHb]; cbn; [ reflexivity | ].
    destruct b; cbn in *; congruence.
  - exact IH.
Qed.

(** [Path(p).suffix] of a path whose last component is a non-empty stem,
    a dot, and a non-empty extension without a dot. *)
Lemma suffix_of_path (d stem e : string) :
  stem <> EmptyString ->
  ~ In "/"%char (list_ascii_of_string stem) ->
  e <> EmptyString ->
  ~ In "/"%char (list_ascii_of_string e) ->
  ~ In "."%char (list_ascii_of_string e) ->
  PathLib.suffix (d ++ "/" ++ stem ++ "." ++ e) = ("." ++ e)%string.
Proof.
  intros Hs Hss He Hes Hed. unfold PathLib.suffix. cbv zeta.
  rewrite name_of_path.
  - unfold OsPath.rfind, OsPath.len, OsPath.slice.
    change ("." ++ e)%string with (String "." e).
    rewrite rfind_from_last by (lia || assumption).
    rewrite length_append. cbn [String.length].
    assert (0 < String.length stem)%nat
      by (destruct stem; [ contradiction | cbn; lia ]).
    assert (0 < String.length e)%nat
      by (destruct e; [ contradiction | cbn; lia ]).
    replace ((0 <? 0 + Z.of_nat (String.length stem))%Z) with true
      by (symmetry; apply Z.ltb_lt; lia).
    replace ((0 + Z.of_nat (String.length stem)
              <? Z.of_nat (String.length stem + S (String.length e)) - 1)%Z)
      with true by (symmetry; apply Z.ltb_lt; lia).
    cbn [andb].
    replace (Z.to_nat (0 + Z.of_nat (String.length stem)))
      with (String.length stem) by lia.
    replace (Z.to_nat (Z.of_nat (String.length stem + S (String.length e))
                       - (0 + Z.of_nat (String.length stem))))
      with (String.length (String "." e)) by (cbn [String.length]; lia).
    apply substring_drop.
  - destruct stem; [ contradiction | discriminate ].
  - destruct stem as [ | c stem]; [ contradiction | ].
    destruct stem; [ | discriminate ].
    cbn. destruct e; [ contradiction | discriminate ].
  - rewrite list_ascii_app. change ("." ++ e)%string with (String "." e).
    cbn [list_ascii_of_string]. intros H.
    apply in_app_or in H as [H | [H | H]];
      [ contradiction | discriminate | contradiction ].
Qed.

Lemma lower_char_fixes (c : ascii) :
  isupper_ascii c = false -> lower_char c = c.
Proof. unfold lower_char. now intros ->. Qed.

Lemma lower_keeps_absent (c : ascii) (s : string) :
  isupper_ascii c = false ->
  ~ In c (list_ascii_of_string (lower s)) ->
  ~ In c (list_ascii_of_string s).
Proof.
  intros Hc. induction s as [ | d s IH]; cbn [lower list_ascii_of_string];
    [ tauto | ].
  intros H [-> | H'].
  - apply H. left. now apply lower_char_fixes.
  - apply IH; [ | exact H' ]. intros G. apply H. now right.
Qed.

Lemma lower_append (a b : string) :
  lower (a ++ b) = (lower a ++ lower b)%string.
Proof. induction a; cbn; congruence. Qed.

Lemma supported_format_shape (x : string) :
  existsb (String.eqb ("." ++ x)) supported_formats = true ->
  x <> EmptyString
  /\ ~ In "/"%char (list_ascii_of_string x)
  /\ ~ In "."%char (list_ascii_of_string x)
  /\ ~ In ","%char (list_ascii_of_string x).
Proof.
  intros H. apply existsb_exists in H as (f & Hf & E).
  apply String.eqb_eq in E. subst f.
  cbn in Hf.
  repeat (destruct Hf as [Hf | Hf];
          [ injection Hf as <-; cbn;
            repeat split; try discriminate; intuition discriminate | ]).
  destruct Hf.
Qed.

Lemma slice_tail (c : ascii) (s : string) :
  OsPath.slice (String c s) 1 (OsPath.len (String c s)) = s.
Proof.
  unfold OsPath.slice, OsPath.len. cbn [String.length].
  replace (Z.to_nat 1) with 1%nat by reflexivity.
  replace (Z.to_nat (Z.of_nat (S (String.length s)) - 1))
    with (String.length s) by lia.
  cbn [substring]. apply (substring_drop EmptyString s).
Qed.

(** [detect_format] step by step. *)
Lemma detect_format_eq (w : world) (json_loads : string -> option json)
      (p : string) (m : machine) :
  let extension := lower (PathLib.suffix p) in
  let m1 := mkMachine (ran m ++ [ffprobe_format_cmd p]) (attempted m)
                      (said_lines m) (PATH m) (home_files m) in
  let caught e :=
    if handles [Exception] e then (Ret "unknown"%string, m1)
    else (Raise e, m1) in
  detect_format w json_loads p m
  = if existsb (String.eqb extension) supported_formats
    then (Ret (OsPath.slice extension 1 (OsPath.len extension)), m)
    else match answer w (ffprobe_format_cmd p) with
         | RunRaises e => caught e
         | Completed returncode stdout =>
             if (returncode =? 0)%Z then
               match json_loads stdout with
               | None => (Ret "unknown"%string, m1)
               | Some data =>
                   match format_name_of data with
                   | Ret format => (Ret format, m1)
                   | Raise e => caught e
                   end
               end
             else (Ret "unknown"%string, m1)
         end.
Proof.
  cbv zeta. unfold detect_format, Eff.bind, Eff.try_except. cbv zeta.
  destruct (existsb _ supported_formats); [ reflexivity | ].
  unfold run. cbv zeta.
  destruct (answer w (ffprobe_format_cmd p)) as [e | rc out].
  - destruct (handles [Exception] e); reflexivity.
  - cbn [fst snd]. destruct (rc =? 0)%Z; [ | reflexivity ].
    destruct (json_loads out) as [data | ]; [ | reflexivity ].
    unfold Eff.lift. destruct (format_name_of data) as [f | e];
      [ reflexivity | ].
    destruct (handles [Exception] e); reflexivity.
Qed.

Lemma format_name_of_raises (data : json) (e : exn) :
  format_name_of data = Raise e -> e = AttributeError.
Proof.
  unfold format_name_of, json_get, first_format.
  destruct data; try (intros [= <-]; reflexivity).
  destruct (dict_get items "format" (JObject [])); try (intros [= <-]; reflexivity).
  destruct (dict_get items0 "format_name" (JString "unknown"));
    intros [= <-]; reflexivity.
Qed.

(** X13.  A path whose last component is a non-empty stem, a dot and one of the
    supported extensions, in any letter case, has that extension in lower
    case as its format, and no command is run to find it. *)
Theorem detect_format_by_extension (w : world)
        (json_loads : string -> option json) (d stem e : string)
        (m : machine) :
  stem <> EmptyString ->
  ~ In "/"%char (list_ascii_of_string stem) ->
  existsb (String.eqb ("." ++ lower e)) supported_formats = true ->
  detect_format w json_loads (d ++ "/" ++ stem ++ "." ++ e) m
  = (Ret (lower e), m).
Proof.
  intros Hs Hss He.
  destruct (@supported_format_shape _ He) as (Hne & Hsl & Hdot & _).
  assert (Hsuf : PathLib.suffix (d ++ "/" ++ stem ++ "." ++ e)
                 = ("." ++ e)%string).
  { apply suffix_of_path; try assumption.
    - intros ->. now apply Hne.
    - now apply lower_keeps_absent.
    - now apply lower_keeps_absent. }
  rewrite detect_format_eq. cbv zeta. rewrite Hsuf.
  change (lower ("." ++ e)) with (String "." (lower e)).
  change ("." ++ lower e)%string with (String "." (lower e)) in He.
  rewrite He. now rewrite slice_tail.
Qed.

Lemma detect_format_by_extension_witness :
  detect_format Desk.bare Desk.no_format "/home/u/videos/Clip.MP4" Desk.fresh
  = (Ret "mp4"%string, Desk.fresh).
Proof.
  apply (@detect_format_by_extension Desk.bare Desk.no_format
           "/home/u/videos" "Clip" "MP4" Desk.fresh).
  - discriminate.
  - cbn. intuition discriminate.
  - reflexivity.
Defined.

(** X14.  A file whose name starts with its only dot has no suffix for
    [pathlib]: [detect_format] runs [ffprobe] on it, whatever follows the
    dot. *)
Theorem detect_format_probes_dot_files (w : world)
        (json_loads : string -> option json) (d e : string) (m : machine) :
  e <> EmptyString ->
  ~ In "/"%char (list_ascii_of_string e) ->
  ~ In "."%char (list_ascii_of_string e) ->
  let p := (d ++ "/" ++ "." ++ e)%string in
  ran (snd (detect_format w json_loads p m))
  = ran m ++ [ffprobe_format_cmd p].
Proof.
  intros Hne Hsl Hdot. cbv zeta.
  assert (Hsuf : PathLib.suffix (d ++ "/" ++ "." ++ e) = EmptyString).
  { unfold PathLib.suffix. cbv zeta.
    destruct e as [ | c e]; [ contradiction | ].
    rewrite name_of_path; try discriminate.
    - unfold OsPath.rfind. change ("." ++ String c e)%string
        with (EmptyString ++ String "." (String c e))%string.
      rewrite rfind_from_last by (lia || assumption). reflexivity.
    - change ("." ++ String c e)%string with (String "." (String c e)).
      cbn [list_ascii_of_string]. intros [H | H];
        [ discriminate | contradiction ]. }
  rewrite detect_format_eq. cbv zeta. rewrite Hsuf.
  cbn [lower existsb supported_formats String.eqb Ascii.eqb Bool.eqb orb].
  destruct (answer w _) as [ex | rc out].
  - destruct (handles [Exception] ex); reflexivity.
  - destruct (rc =? 0)%Z; [ | reflexivity ].
    destruct (json_loads out) as [data | ]; [ | reflexivity ].
    destruct (format_name_of data) as [f | ex]; [ reflexivity | ].
    destruct (handles [Exception] ex); reflexivity.
Qed.

Lemma detect_format_probes_dot_files_witness :
  ran (snd (detect_format Desk.bare Desk.no_format "/home/u/videos/.mp4"
                          Desk.fresh))
  = [ffprobe_format_cmd "/home/u/videos/.mp4"].
Proof.
  apply (@detect_format_probes_dot_files Desk.bare Desk.no_format
           "/home/u/videos" "mp4" Desk.fresh).
  - discriminate.
  - cbn. intuition discriminate.
  - cbn. intuition discriminate.
Defined.

(** X15.  [detect_format] lets no instance of [Exception] through: it returns a
    format, or it raises what [subprocess.run] raised, which then is no
    instance of [Exception]. *)
Theorem detect_format_catches_exceptions (w : world)
        (json_loads : string -> option json) (p : string) (m : machine) :
  (exists format, fst (detect_format w json_loads p m) = Ret format)
  \/ (exists e, fst (detect_format w json_loads p m) = Raise e
                /\ is_exception e = false
                /\ answer w (ffprobe_format_cmd p) = RunRaises e).
Proof.
  rewrite detect_format_eq. cbv zeta. unfold is_exception.
  destruct (existsb _ supported_formats); [ left; eexists; reflexivity | ].
  destruct (answer w (ffprobe_format_cmd p)) as [e | rc out].
  - destruct (handles [Exception] e) eqn:He; [ left; eexists; reflexivity | ].
    right. exists e. repeat split. exact He.
  - destruct (rc =? 0)%Z; [ | left; eexists; reflexivity ].
    destruct (json_loads out) as [data | ]; [ | left; eexists; reflexivity ].
    destruct (format_name_of data) as [f | e] eqn:Hf; [ left; eexists; reflexivity | ].
    apply format_name_of_raises in Hf. subst e. left. eexists. reflexivity.
Qed.

(** X16.  The format that [detect_format] returns never has a comma in it. *)
Theorem detect_format_has_no_comma (w : world)
        (json_loads : string -> option json) (p : string) (m : machine)
        (format : string) :
  fst (detect_format w json_loads p m) = Ret format ->
  ~ In ","%char (list_ascii_of_string format).
Proof.
  rewrite detect_format_eq. cbv zeta.
  assert (Hu : ~ In ","%char (list_ascii_of_string "unknown")).
  { cbn. intuition discriminate. }
  assert (Hc : forall e (m1 : machine),
             fst (if handles [Exception] e
                  then (Ret "unknown"%string, m1)
                  else (Raise e, m1)) = Ret format ->
             ~ In ","%char (list_ascii_of_string format)).
  { intros e m1. destruct (handles [Exception] e); cbn [fst];
      [ now intros [= <-] | discriminate ]. }
  destruct (existsb _ supported_formats) eqn:Hs.
  - cbn [fst]. intros [= <-].
    destruct (lower (PathLib.suffix p)) as [ | c x] eqn:Hx;
      [ discriminate | ].
    rewrite slice_tail.
    apply existsb_exists in Hs as (f & Hf & E).
    apply String.eqb_eq in E. subst f. cbn in Hf.
    repeat (destruct Hf as [Hf | Hf];
            [ injection Hf as <- <-; cbn; intuition discriminate | ]).
    destruct Hf.
  - destruct (answer w (ffprobe_format_cmd p)) as [e | rc out];
      [ apply Hc | ].
    destruct (rc =? 0)%Z; [ | now intros [= <-] ].
    destruct (json_loads out) as [data | ]; [ | now intros [= <-] ].
    destruct (format_name_of data) as [f | e] eqn:Hf; [ | apply Hc ].
    cbn [fst]. intros [= <-].
    unfold format_name_of, json_get, first_format in Hf.
    destruct data; try discriminate.
    destruct (dict_get items "format" (JObject [])); try discriminate.
    destruct (dict_get items0 "format_name" (JString "unknown"));
      try discriminate.
    injection Hf as <-.
    apply (@str_split_no_sep "," s). 
    pose proof (str_split_nonempty "," s) as Hn.
    destruct (str_split "," s); [ contradiction | now left ].
Qed.

Lemma detect_format_has_no_comma_witness :
  fst (detect_format Desk.obliging Desk.quicktime "/home/u/videos/clip.bin"
                     Desk.fresh) = Ret "mov"%string
  /\ ~ In ","%char (list_ascii_of_string "mov").
Proof.
  split; [ reflexivity | ].
  apply (@detect_format_has_no_comma Desk.obliging Desk.quicktime
           "/home/u/videos/clip.bin" Desk.fresh "mov" eq_refl).
Defined.

(** The first part that [split] gives has no separator in it, and it is
    the whole text, or the text up to a separator. *)
Lemma str_split_first (sep : ascii) (s : string) :
  let first := hd EmptyString (str_split sep s) in
  ~ In sep (list_ascii_of_string first)
  /\ (s = first \/ exists rest, s = (first ++ String sep rest)%string).
Proof.
  cbv zeta. split.
  - apply (@str_split_no_sep sep s).
    pose proof (str_split_nonempty sep s) as Hn.
    destruct (str_split sep s); [ contradiction | now left ].
  - induction s as [ | c s IH]; cbn [str_split]; [ now left | ].
    destruct (Ascii.eqb_spec c sep) as [-> | Hc].
    + right. now exists s.
    + pose proof (str_split_nonempty sep s) as Hn.
      destruct (str_split sep s) as [ | x xs]; [ contradiction | ].
      cbn [hd] in *. destruct IH as [-> | (rest & ->)].
      * now left.
      * right. now exists rest.
Qed.

(** X17.  When [ffprobe] exits with status 0 and prints an object whose entry
    [format] is an object with a string under [format_name], the format
    is that string up to its first comma: the whole string when it has no
    comma. *)
Theorem detect_format_takes_first_name (w : world)
        (json_loads : string -> option json) (p : string) (m : machine)
        (stdout name : string) (items entries : list (string * json)) :
  existsb (String.eqb (lower (PathLib.suffix p))) supported_formats = false ->
  answer w (ffprobe_format_cmd p) = Completed 0 stdout ->
  json_loads stdout = Some (JObject items) ->
  dict_get items "format" JNull = JObject entries ->
  dict_get entries "format_name" JNull = JString name ->
  exists first,
    fst (detect_format w json_loads p m) = Ret first
    /\ ~ In ","%char (list_ascii_of_string first)
    /\ (name = first \/ exists rest, name = (first ++ "," ++ rest)%string).
Proof.
  intros Hs Ha Hj Hf Hn.
  exists (hd EmptyString (str_split "," name)).
  split; [ | apply str_split_first ].
  rewrite detect_format_eq. cbv zeta. rewrite Hs, Ha, Hj.
  cbn [Z.eqb]. unfold format_name_of, json_get.
  assert (D : forall l k d v, dict_get l k JNull = v -> v <> JNull ->
                              dict_get l k d = v).
  { intros l k d v. induction l as [ | [k' v'] l IH]; cbn [dict_get].
    - intros <- H. now destruct H.
    - destruct (String.eqb k' k); [ now intros -> | exact IH ]. }
  rewrite (D _ _ _ _ Hf) by discriminate.
  rewrite (D _ _ _ _ Hn) by discriminate.
  reflexivity.
Qed.

Lemma detect_format_takes_first_name_witness :
  exists first,
    fst (detect_format Desk.obliging Desk.quicktime "/home/u/videos/clip.bin"
                       Desk.fresh) = Ret first
    /\ ~ In ","%char (list_ascii_of_string first)
    /\ ("mov,mp4,m4a,3gp,3g2,mj2"%string = first
        \/ exists rest,
             "mov,mp4,m4a,3gp,3g2,mj2"%string = (first ++ "," ++ rest)%string).
Proof.
  apply (@detect_format_takes_first_name
           Desk.obliging Desk.quicktime "/home/u/videos/clip.bin" Desk.fresh
           EmptyString "mov,mp4,m4a,3gp,3g2,mj2"
           [("format"%string,
             JObject [("filename"%string, JString "/home/u/videos/clip.bin");
                      ("format_name"%string,
                       JString "mov,mp4,m4a,3gp,3g2,mj2")])]
           [("filename"%string, JString "/home/u/videos/clip.bin");
            ("format_name"%string, JString "mov,mp4,m4a,3gp,3g2,mj2")]);
    reflexivity.
Defined.

(** X18.  Without an entry [format], or without a [format_name] in it, the
    answer of [ffprobe] gives the format ["unknown"]. *)
Theorem detect_format_missing_name (w : world)
        (json_loads : string -> option json) (p : string) (m : machine)
        (stdout : string) (items : list (string * json)) :
  existsb (String.eqb (lower (PathLib.suffix p))) supported_formats = false ->
  answer w (ffprobe_format_cmd p) = Completed 0 stdout ->
  json_loads stdout = Some (JObject items) ->
  (forall default, dict_get items "format" default = default)
  \/ (exists entries,
         dict_get items "format" JNull = JObject entries
         /\ forall default, dict_get entries "format_name" default = default) ->
  fst (detect_format w json_loads p m) = Ret "unknown"%string.
Proof.
  intros Hs Ha Hj H.
  rewrite detect_format_eq. cbv zeta. rewrite Hs, Ha, Hj.
  cbn [Z.eqb]. unfold format_name_of, json_get.
  destruct H as [H | (entries & Hf & H)].
  - rewrite H. cbn [dict_get first_format]. reflexivity.
  - assert (D : forall l k d v, dict_get l k JNull = v -> v <> JNull ->
                                dict_get l k d = v).
    { intros l k d v. induction l as [ | [k' v'] l IH]; cbn [dict_get].
      - intros <- G. now destruct G.
      - destruct (String.eqb k' k); [ now intros -> | exact IH ]. }
    rewrite (D _ _ _ _ Hf) by discriminate.
    rewrite H. reflexivity.
Qed.

Lemma detect_format_missing_name_witness :
  fst (detect_format Desk.obliging Desk.no_format "/home/u/videos/clip.bin"
                     Desk.fresh) = Ret "unknown"%string.
Proof.
  apply (@detect_format_missing_name
           Desk.obliging Desk.no_format "/home/u/videos/clip.bin" Desk.fresh
           EmptyString [("streams"%string, JArray [])]);
    try reflexivity.
  left. intros default. reflexivity.
Defined.

(* ================================================================== *)
(** * The window *)
(* ================================================================== *)

Ltac unfold_app :=
  unfold App.check_ffmpeg_status, App.update_ffmpeg_status,
    App.ffmpeg_install_complete, App.ffmpeg_install_error,
    App.check_conversion_ready, App.ffmpeg_installed, App.log_progress,
    App.convert_btn_state, App.install_btn_state, App.show, App.on_os,
    App.read, App.update, Eff.bind, Eff.ret, Eff.try_except in *.

Lemma same_session_refl (a : App.app) : same_session a a.
Proof. repeat split. Qed.

Lemma same_session_trans (a b c : App.app) :
  same_session a b -> same_session b c -> same_session a c.
Proof.
  unfold same_session. intros (H1 & H2 & H3 & H4 & H5 & H6)
                              (G1 & G2 & G3 & G4 & G5 & G6).
  repeat split; congruence.
Qed.

Lemma check_conversion_ready_session (w : world) (a : App.app) :
  same_session a (snd (App.check_conversion_ready w a)).
Proof.
  unfold_app. cbn.
  destruct (is_ffmpeg_installed _) as [[ | ] | e]; cbn;
    try destruct (_ && _); repeat split.
Qed.

Lemma update_ffmpeg_status_session (w : world) (b : bool) (a : App.app) :
  same_session a (snd (App.update_ffmpeg_status w b a)).
Proof.
  destruct b; unfold_app; cbn; [ | repeat split ].
  destruct (is_ffmpeg_installed _) as [[ | ] | e]; cbn;
    try destruct (_ && _); repeat split.
Qed.

Lemma check_ffmpeg_status_session (w : world) (a : App.app) :
  same_session a (snd (App.check_ffmpeg_status w a)).
Proof.
  unfold App.check_ffmpeg_status, Eff.bind.
  destruct (App.ffmpeg_installed w a) as [[b | e] a1] eqn:E.
  - apply same_session_trans with a1;
      [ | apply update_ffmpeg_status_session ].
    unfold App.ffmpeg_installed, App.on_os in E.
    injection E as _ <-. repeat split.
  - unfold App.ffmpeg_installed, App.on_os in E.
    injection E as _ <-. repeat split.
Qed.

Lemma ffmpeg_install_complete_session (w : world) (b : bool) (a : App.app) :
  same_session a (snd (App.ffmpeg_install_complete w b a)).
Proof.
  destruct b; unfold App.ffmpeg_install_complete, Eff.bind, App.log_progress,
                App.update; cbn [fst snd].
  - eapply same_session_trans; [ | apply check_ffmpeg_status_session ].
    repeat split.
  - repeat split.
Qed.

Lemma ffmpeg_install_error_session (e : exn) (a : App.app) :
  same_session a (snd (App.ffmpeg_install_error e a)).
Proof. repeat split. Qed.

(** [install_ffmpeg] of [utils.py] lets no instance of [Exception]
    through. *)
Lemma install_ffmpeg_result (w : world) (system : string) (m : machine) :
  (exists b, fst (install_ffmpeg w system m) = Ret b)
  \/ (exists e, fst (install_ffmpeg w system m) = Raise e
                /\ handles [Exception] e = false).
Proof.
  unfold install_ffmpeg, Eff.try_except.
  match goal with
  | |- context [ (if (system =? "windows")%string then ?x else ?y) m ] =>
      destruct ((if (system =? "windows")%string then x else y) m)
        as [[b | e] m1]
  end.
  - left. now exists b.
  - destruct (handles [Exception] e) eqn:He.
    + left. exists false. reflexivity.
    + right. exists e. now split.
Qed.

Lemma app_install_ffmpeg_eq (w : world) (system : string) (a : App.app) :
  let a1 :=
    App.set_progress_text
      (App.progress_text a ++ [App.InstallingNote])
      (App.set_install_ffmpeg_btn (App.disabled, App.Installing) a) in
  let a2 := App.set_os (snd (install_ffmpeg w system (App.os a))) a1 in
  App.install_ffmpeg w system a
  = match fst (install_ffmpeg w system (App.os a)) with
    | Ret success => App.ffmpeg_install_complete w success a2
    | Raise e => (Raise e, a2)
    end.
Proof.
  cbv zeta.
  destruct (install_ffmpeg_result w system (App.os a))
    as [(b & Hb) | (e & He & Hh)].
  - rewrite Hb. unfold App.install_ffmpeg.
    unfold Eff.bind at 1, App.update at 1.
    unfold Eff.bind at 1, App.log_progress at 1, App.update at 1.
    unfold Eff.bind at 1, Eff.try_except, Eff.bind at 1, App.on_os.
    cbn [App.os App.set_progress_text App.set_install_ffmpeg_btn].
    destruct (install_ffmpeg w system (App.os a)) as [r m1].
    cbn [fst snd] in *. subst r. reflexivity.
  - rewrite He. unfold App.install_ffmpeg.
    unfold Eff.bind at 1, App.update at 1.
    unfold Eff.bind at 1, App.log_progress at 1, App.update at 1.
    unfold Eff.bind at 1, Eff.try_except, Eff.bind at 1, App.on_os.
    cbn [App.os App.set_progress_text App.set_install_ffmpeg_btn].
    destruct (install_ffmpeg w system (App.os a)) as [r m1].
    cbn [fst snd] in *. subst r. now rewrite Hh.
Qed.

Lemma app_install_ffmpeg_session (w : world) (system : string)
      (a : App.app) :
  same_session a (snd (App.install_ffmpeg w system a)).
Proof.
  rewrite app_install_ffmpeg_eq. cbv zeta.
  destruct (fst (install_ffmpeg w system (App.os a))) as [b | e].
  - eapply same_session_trans;
      [ | apply ffmpeg_install_complete_session ].
    repeat split.
  - repeat split.
Qed.

Lemma check_ffmpeg_status_progress (w : world) (a : App.app) :
  App.progress_text (snd (App.check_ffmpeg_status w a))
  = App.progress_text a.
Proof.
  unfold_app. cbn.
  destruct (is_ffmpeg_installed _) as [[ | ] | e]; cbn;
    try destruct (_ && _); reflexivity.
Qed.

(** X19.  The [except] branch of [install_thread] is never taken, because
    [install_ffmpeg] of [utils.py] catches every instance of [Exception]
    itself: after the note that the installation starts, the window logs
    at most the success or the failure of the installation, and never an
    installation error. *)
Theorem install_error_is_never_reported (w : world) (system : string)
        (a : App.app) :
  let a' := snd (App.install_ffmpeg w system a) in
  exists rest,
    App.progress_text a'
    = App.progress_text a ++ App.InstallingNote :: rest
    /\ (rest = [] \/ rest = [App.InstalledNote]
        \/ rest = [App.InstallFailedNote]).
Proof.
  cbv zeta. rewrite app_install_ffmpeg_eq. cbv zeta.
  destruct (fst (install_ffmpeg w system (App.os a))) as [[ | ] | e].
  - exists [App.InstalledNote]. split; [ | tauto ].
    unfold App.ffmpeg_install_complete, Eff.bind at 1, App.log_progress,
      App.update. cbn [fst snd].
    set (a3 := App.set_progress_text _ _).
    rewrite check_ffmpeg_status_progress. subst a3. cbn. now rewrite <- app_assoc.
  - exists [App.InstallFailedNote]. split; [ | tauto ].
    cbn. now rewrite <- app_assoc.
  - exists []. split; [ | tauto ]. reflexivity.
Qed.

(** X20.  When the installation fails, the window enables the install button
    again with its first text, and the PATH of the session and the three
    shell profiles are as before the click. *)
Theorem failed_installation_can_be_retried (w : world) (system : string)
        (a : App.app) :
  fst (install_ffmpeg w system (App.os a)) = Ret false ->
  let a' := snd (App.install_ffmpeg w system a) in
  App.install_ffmpeg_btn a' = (App.normal, App.InstallFFmpeg)
  /\ PATH (App.os a') = PATH (App.os a)
  /\ forall profile,
       In profile [".bashrc"; ".zshrc"; ".profile"]%string ->
       lookup (home_files (App.os a')) profile
       = lookup (home_files (App.os a)) profile.
Proof.
  intros H. cbv zeta.
  destruct (install_ffmpeg_false w system (App.os a) H)
    as (HP & HF & _).
  rewrite app_install_ffmpeg_eq. cbv zeta. rewrite H.
  cbn. split; [ reflexivity | ]. split; [ exact HP | ].
  intros profile _. now rewrite HF.
Qed.

Lemma failed_installation_can_be_retried_witness :
  App.install_ffmpeg_btn
    (snd (App.install_ffmpeg Desk.bare "linux" (App.initial Desk.fresh)))
  = (App.normal, App.InstallFFmpeg).
Proof.
  exact (proj1 (@failed_installation_can_be_retried
                  Desk.bare "linux" (App.initial Desk.fresh) eq_refl)).
Defined.

(** ** Closing the window *)

Lemma ask_running_spec (alive : nat -> bool) (response : bool)
      (threads : list string) :
  forall (i : nat) (a : App.app),
    let running := existsb alive (seq i (length threads)) in
    App.ask_running i threads alive response a
    = (Ret (negb running || response),
       if running then App.set_dialogs (App.dialogs a ++ [App.AskExit]) a
       else a).
Proof.
  induction threads as [ | t threads IH]; intros i a; cbv zeta.
  - reflexivity.
  - cbn [App.ask_running length seq existsb].
    destruct (alive i); cbn [orb negb].
    + unfold Eff.bind, App.show, App.update, Eff.ret.
      destruct response; reflexivity.
    + apply IH.
Qed.

(** X21.  [on_closing] asks the user at most once, however many conversions are
    running, and it asks only when one of the started workers is alive.
    The window is destroyed unless a worker is alive and the user answers
    no.  Nothing else changes. *)
Theorem closing_asks_at_most_once (alive : nat -> bool) (response : bool)
        (a : App.app) :
  let running :=
    some_alive alive (length (App.conversion_threads a)) in
  let a' := snd (App.on_closing alive response a) in
  fst (App.on_closing alive response a) = Ret tt
  /\ App.dialogs a'
     = App.dialogs a ++ (if running then [App.AskExit] else [])
  /\ App.destroyed a'
     = (if running && negb response then App.destroyed a else true)
  /\ same_session a a'
  /\ App.os a' = App.os a.
Proof.
  cbv zeta. unfold App.on_closing, Eff.bind at 1, App.read.
  unfold Eff.bind. rewrite ask_running_spec. cbv zeta.
  unfold some_alive.
  destruct (existsb alive (seq 0 (length (App.conversion_threads a))));
    destruct response; cbn; rewrite ?app_nil_r; repeat split.
Qed.

(** ** The files listbox *)

Lemma detect_format_result (w : world) (json_loads : string -> option json)
      (p : string) (m m' : machine) :
  fst (detect_format w json_loads p m) = fst (detect_format w json_loads p m').
Proof.
  rewrite !detect_format_eq. cbv zeta.
  destruct (existsb _ supported_formats); [ reflexivity | ].
  destruct (answer w (ffprobe_format_cmd p)) as [e | rc out].
  - destruct (handles [Exception] e); reflexivity.
  - destruct (rc =? 0)%Z; [ | reflexivity ].
    destruct (json_loads out) as [data | ]; [ | reflexivity ].
    destruct (format_name_of data) as [f | e]; [ reflexivity | ].
    destruct (handles [Exception] e); reflexivity.
Qed.

Lemma detect_format_returns (w : world) (json_loads : string -> option json)
      (p : string) (m : machine) :
  (forall e, answer w (ffprobe_format_cmd p) = RunRaises e ->
             is_exception e = true) ->
  exists format, fst (detect_format w json_loads p m) = Ret format.
Proof.
  intros H. rewrite detect_format_eq. cbv zeta.
  destruct (existsb _ supported_formats); [ eexists; reflexivity | ].
  destruct (answer w (ffprobe_format_cmd p)) as [e | rc out].
  - specialize (H e eq_refl). unfold is_exception in H. rewrite H.
    eexists; reflexivity.
  - destruct (rc =? 0)%Z; [ | eexists; reflexivity ].
    destruct (json_loads out) as [data | ]; [ | eexists; reflexivity ].
    destruct (format_name_of data) as [f | e] eqn:Hf;
      [ eexists; reflexivity | ].
    apply format_name_of_raises in Hf. subst e. eexists; reflexivity.
Qed.

(** The loop of [update_files_listbox] appends one entry per file and
    touches nothing but the listbox and the machine. *)
Lemma list_files_spec (w : world) (json_loads : string -> option json)
      (m0 : machine) (files : list string) :
  (forall p e, In p files ->
               answer w (ffprobe_format_cmd p) = RunRaises e ->
               is_exception e = true) ->
  forall a : App.app,
    let a' := snd (App.list_files w json_loads files a) in
    fst (App.list_files w json_loads files a) = Ret tt
    /\ (exists entries,
           App.files_listbox a' = App.files_listbox a ++ entries
           /\ Forall2 (fun p entry =>
                         exists format,
                           fst (detect_format w json_loads p m0) = Ret format
                           /\ entry = listbox_entry p format)
                      files entries)
    /\ App.selected_files a' = App.selected_files a
    /\ App.output_folder a' = App.output_folder a
    /\ App.conversion_threads a' = App.conversion_threads a
    /\ App.output_folder_label a' = App.output_folder_label a
    /\ App.convert_btn a' = App.convert_btn a
    /\ App.dialogs a' = App.dialogs a
    /\ App.progress_text a' = App.progress_text a.
Proof.
  induction files as [ | p files IH]; intros H a; cbv zeta.
  - cbn. split; [ reflexivity | ]. split; [ | repeat split ].
    exists []. rewrite app_nil_r. split; [ reflexivity | constructor ].
  - destruct (@detect_format_returns w json_loads p (App.os a))
      as [f Hf].
    { intros e. apply H. now left. }
    pose proof (detect_format_result w json_loads p (App.os a) m0) as Hm.
    destruct (App.list_files w json_loads (p :: files) a) as [r a'] eqn:E.
    cbn [App.list_files] in E. unfold Eff.bind at 1, App.on_os in E.
    destruct (detect_format w json_loads p (App.os a)) as [r1 m1].
    cbn [fst snd] in Hf, Hm. subst r1.
    unfold Eff.bind at 1, App.update at 1 in E.
    set (a1 := App.set_files_listbox _ _) in E.
    destruct (IH (fun q e Hq => H q e (or_intror Hq)) a1)
      as (R & (entries & E1 & F) & K). cbv zeta in *.
    rewrite E in *. cbn [fst snd] in *.
    split; [ exact R | ]. split.
    + exists (listbox_entry p f :: entries). split.
      * rewrite E1. subst a1. cbn. now rewrite <- app_assoc.
      * constructor; [ | exact F ]. exists f. now split.
    + exact K.
Qed.

(** X22.  After [select_files] with a selection that is not empty, the listbox
    has one entry per selected file, in their order: the name of the file
    and, in brackets, the format that [detect_format] gives for it.  The
    entries of an earlier selection are gone. *)
Theorem files_listbox_names_every_file (w : world)
        (json_loads : string -> option json) (files : list string)
        (a : App.app) :
  files <> [] ->
  (forall p e, In p files ->
               answer w (ffprobe_format_cmd p) = RunRaises e ->
               is_exception e = true) ->
  let a' := snd (App.select_files w json_loads files a) in
  App.selected_files a' = files
  /\ Forall2 (fun p entry =>
                exists format,
                  fst (detect_format w json_loads p (App.os a)) = Ret format
                  /\ entry = listbox_entry p format)
             files (App.files_listbox a').
Proof.
  intros Hne H. cbv zeta.
  destruct files as [ | p files]; [ contradiction | ].
  destruct (App.select_files w json_loads (p :: files) a) as [r a'] eqn:E.
  unfold App.select_files in E.
  unfold Eff.bind at 1, App.update at 1 in E.
  unfold Eff.bind at 1, App.update_files_listbox in E.
  unfold Eff.bind at 1, App.update at 1 in E.
  unfold Eff.bind at 1, App.read at 1 in E.
  cbn [App.selected_files App.set_files_listbox App.set_selected_files] in E.
  set (a1 := App.set_files_listbox _ _) in E.
  destruct (@list_files_spec w json_loads (App.os a) (p :: files) H a1)
    as (R & (entries & E1 & F) & S1 & _). cbv zeta in *.
  destruct (App.list_files w json_loads (p :: files) a1) as [r2 a2].
  cbn [fst snd] in *. subst r2.
  pose proof (check_conversion_ready_session w a2) as (C1 & _ & _ & C4 & _).
  destruct (App.check_conversion_ready w a2) as [r3 a3].
  injection E as <- <-. cbn [snd] in *.
  rewrite C1, C4, S1, E1. subst a1. cbn.
  split; [ reflexivity | exact F ].
Qed.

Lemma files_listbox_names_every_file_witness :
  App.selected_files
    (snd (App.select_files Desk.bare Desk.no_format
                           ["/home/u/videos/a.avi"; "/home/u/videos/b.bin"]%string
                           Desk.ready))
  = ["/home/u/videos/a.avi"; "/home/u/videos/b.bin"]%string
  /\ Forall2 (fun p entry =>
                exists format,
                  fst (detect_format Desk.bare Desk.no_format p
                                     (App.os Desk.ready)) = Ret format
                  /\ entry = listbox_entry p format)
             ["/home/u/videos/a.avi"; "/home/u/videos/b.bin"]%string
             (App.files_listbox
                (snd (App.select_files
                        Desk.bare Desk.no_format
                        ["/home/u/videos/a.avi"; "/home/u/videos/b.bin"]%string
                        Desk.ready))).
Proof.
  apply (@files_listbox_names_every_file
           Desk.bare Desk.no_format
           ["/home/u/videos/a.avi"; "/home/u/videos/b.bin"]%string
           Desk.ready).
  - discriminate.
  - intros p e _ [= <-]. reflexivity.
Defined.

(** ** The Start button *)

Lemma check_conversion_ready_button (w : world) (a : App.app) :
  exits_zero w ["ffmpeg"; "-version"]%string = true ->
  App.selected_files a <> [] ->
  App.output_folder a <> EmptyString ->
  fst (App.convert_btn (snd (App.check_conversion_ready w a))) = App.normal.
Proof.
  intros Hz Hf Ho. unfold exits_zero in Hz.
  unfold_app. cbn.
  destruct (answer w ["ffmpeg"; "-version"]%string) as [e | rc out];
    [ discriminate | ].
  cbn. rewrite Hz. cbn.
  destruct (App.selected_files a); [ contradiction | ].
  destruct (String.eqb_spec (App.output_folder a) ""); [ contradiction | ].
  reflexivity.
Qed.

Lemma check_conversion_ready_format (w : world) (a : App.app) :
  App.format_dropdown (snd (App.check_conversion_ready w a))
  = App.format_dropdown a.
Proof.
  unfold_app. cbn.
  destruct (is_ffmpeg_installed _) as [[ | ] | e]; cbn;
    try destruct (_ && _); reflexivity.
Qed.

(** X23.  While a conversion runs, choosing an output folder enables the Start
    button again, still with the text of a running conversion, and a
    click on it starts a second worker beside the first. *)
Theorem start_button_returns_during_conversion (w : world)
        (folder : string) (a : App.app) :
  exits_zero w ["ffmpeg"; "-version"]%string = true ->
  App.selected_files a <> [] ->
  App.output_folder a <> EmptyString ->
  folder <> EmptyString ->
  let a1 := snd (App.start_conversion a) in
  let a2 := snd (App.select_output_folder w folder a1) in
  let a3 := snd (App.start_conversion a2) in
  App.convert_btn a1 = (App.disabled, App.ConvertingNow)
  /\ App.conversion_threads a1
     = App.conversion_threads a ++ [App.format_dropdown a]
  /\ App.convert_btn a2 = (App.normal, App.ConvertingNow)
  /\ App.conversion_threads a3
     = App.conversion_threads a
       ++ [App.format_dropdown a; App.format_dropdown a].
Proof.
  intros Hz Hf Ho Hn. cbv zeta.
  assert (S1 : App.start_conversion a
               = (Ret tt,
                  App.set_conversion_threads
                    (App.conversion_threads a ++ [App.format_dropdown a])
                    (App.set_progress_text []
                       (App.set_convert_btn
                          (App.disabled, App.ConvertingNow) a)))).
  { unfold App.start_conversion, Eff.bind, App.read, App.update.
    destruct (App.selected_files a); [ contradiction | ].
    destruct (String.eqb_spec (App.output_folder a) "");
      [ contradiction | reflexivity ]. }
  rewrite S1. cbn [snd]. set (a1 := App.set_conversion_threads _ _).
  split; [ reflexivity | ]. split; [ reflexivity | ].
  assert (S2 : App.select_output_folder w folder a1
               = App.check_conversion_ready
                   w (App.set_output_folder_label
                        (Some folder) (App.set_output_folder folder a1))).
  { unfold App.select_output_folder.
    destruct (String.eqb_spec folder ""); [ contradiction | reflexivity ]. }
  rewrite S2. set (a1' := App.set_output_folder_label _ _).
  pose proof (@check_conversion_ready_button w a1' Hz) as B.
  pose proof (check_conversion_ready_session w a1')
    as (C1 & C2 & C3 & _ & _ & C6).
  pose proof (check_conversion_ready_format w a1') as C7.
  destruct (App.check_conversion_ready w a1') as [r a2].
  cbn [snd] in *.
  assert (F1 : App.selected_files a2 = App.selected_files a)
    by (rewrite C1; reflexivity).
  assert (F2 : App.output_folder a2 = folder) by (rewrite C2; reflexivity).
  split.
  - destruct (App.convert_btn a2) as [s t]. cbn [fst snd] in *.
    rewrite B, C6; [ reflexivity | | ].
    + subst a1' a1. cbn. exact Hf.
    + subst a1' a1. cbn. exact Hn.
  - unfold App.start_conversion, Eff.bind, App.read, App.update.
    rewrite F1.
    destruct (App.selected_files a); [ contradiction | ].
    cbn beta. rewrite F2.
    destruct (String.eqb_spec folder ""); [ contradiction | ].
    cbn. rewrite C3, C7. subst a1' a1. cbn. now rewrite <- app_assoc.
Qed.

Lemma start_button_returns_witness :
  App.convert_btn
    (snd (App.select_output_folder
            Desk.obliging "/home/u/elsewhere"
            (snd (App.start_conversion Desk.ready))))
  = (App.normal, App.ConvertingNow).
Proof.
  destruct (@start_button_returns_during_conversion
              Desk.obliging "/home/u/elsewhere" Desk.ready eq_refl)
    as (_ & _ & H & _); try discriminate.
  exact H.
Defined.

(** ** The end of a batch *)

Lemma dispatch_log (m : log_line) (a : App.app) :
  App.dispatch (LogProgress m) a
  = (Ret tt,
     App.set_progress_text (App.progress_text a ++ [App.FromWorker m]) a).
Proof. reflexivity. Qed.

(** Running queued log calls adds their lines to the progress text and
    nothing else. *)
Lemma drain_log_calls (q : list tk_call) :
  Forall (fun c => exists m, c = LogProgress m) q ->
  forall a : App.app,
    exists lines,
      App.drain q a
      = (Ret tt, App.set_progress_text (App.progress_text a ++ lines) a)
      /\ length lines = length q.
Proof.
  induction 1 as [ | c q (m & ->) _ IH]; intros a.
  - exists []. cbn. rewrite app_nil_r. split; [ | reflexivity ].
    destruct a; reflexivity.
  - cbn [App.drain]. unfold Eff.bind. rewrite dispatch_log.
    destruct (IH (App.set_progress_text
                    (App.progress_text a ++ [App.FromWorker m]) a))
      as (lines & E & L).
    exists (App.FromWorker m :: lines). rewrite E. cbn.
    rewrite <- app_assoc. split; [ reflexivity | now rewrite L ].
Qed.

Lemma drain_app (q1 q2 : list tk_call) (a : App.app) :
  fst (App.drain q1 a) = Ret tt ->
  App.drain (q1 ++ q2) a = App.drain q2 (snd (App.drain q1 a)).
Proof.
  revert a. induction q1 as [ | c q1 IH]; intros a H; [ reflexivity | ].
  cbn [App.drain app] in *. unfold Eff.bind in *.
  destruct (App.dispatch c a) as [[[] | e] a1]; [ | discriminate ].
  now apply IH.
Qed.

(** X24.  When a batch has run to its end, the calls it queued make the window
    log the end of the conversions, reset the Start button, and show the
    dialog that all conversions completed successfully, whatever the
    outcomes of the files were.  No error dialog is shown. *)
Theorem batch_end_is_reported_as_success (float : string -> option Q)
        (envs : nat -> job_env) (files : list string)
        (output_folder output_format : string) (st : state) (a : App.app) :
  tk_alive (gui st) = None ->
  (forall j, (j < length files)%nat ->
             Forall (fun e => is_exception e = true) (env_faults (envs j))) ->
  exists queued,
    tk_queue (gui (snd (conversion_thread float envs files output_folder
                                          output_format st)))
    = tk_queue (gui st) ++ queued
    /\ map fst (outcomes queued) = map OsPath.basename files
    /\ let a' := snd (App.drain queued a) in
       App.dialogs a' = App.dialogs a ++ [App.InfoComplete]
       /\ App.convert_btn a' = (App.normal, App.StartConversion)
       /\ last (App.progress_text a') App.InstallingNote
          = App.AllCompletedNote.
Proof.
  intros Ha Hf.
  destruct (@conversion_thread_spec float envs files output_folder
              output_format st Ha Hf) as (st' & new & E & Q & O & L).
  exists (new ++ [ConversionComplete]). rewrite E. cbn [snd].
  split; [ now rewrite Q | ]. split.
  - rewrite outcomes_app. cbn. now rewrite app_nil_r.
  - cbv zeta. destruct (drain_log_calls L a) as (lines & D & _).
    rewrite drain_app by now rewrite D.
    rewrite D. cbn. rewrite last_last. repeat split.
Qed.

Lemma batch_end_is_reported_witness :
  exists queued,
    tk_queue (gui (snd (conversion_thread decimal_float Examples.worlds
                                          Examples.files "/home/u/out" "mp4"
                                          (initial_state None))))
    = queued
    /\ map snd (outcomes queued) = [true; false; true]
    /\ App.dialogs (snd (App.drain queued Desk.ready)) = [App.InfoComplete].
Proof.
  destruct (@batch_end_is_reported_as_success
              decimal_float Examples.worlds Examples.files
              "/home/u/out"%string "mp4"%string (initial_state None)
              Desk.ready eq_refl)
    as (queued & H1 & _ & H3 & _).
  - intros [ | [ | [ | j]]] Hj; cbn in Hj; try lia; repeat constructor.
  - exists queued. split; [ exact H1 | ]. split; [ | exact H3 ].
    cbn [app initial_state gui tk_queue] in H1. rewrite <- H1.
    vm_compute. reflexivity.
Defined.

(** ** What holds of the window at all times *)

Lemma keeps_invariant (a a' : App.app) :
  window_invariant a -> same_session a a' -> window_invariant a'.
Proof.
  unfold window_invariant, same_session.
  intros (I1 & I2 & I3 & I4) (H1 & H2 & H3 & H4 & H5 & H6).
  rewrite H1, H2, H3, H4, H5, H6. repeat split; auto.
  - now apply I1.
  - now apply I1.
Qed.

Lemma list_files_length (w : world) (json_loads : string -> option json)
      (files : list string) :
  forall a : App.app,
    let a' := snd (App.list_files w json_loads files a) in
    (length (App.files_listbox a')
     <= length (App.files_listbox a) + length files)%nat
    /\ App.selected_files a' = App.selected_files a
    /\ App.output_folder a' = App.output_folder a
    /\ App.conversion_threads a' = App.conversion_threads a
    /\ App.output_folder_label a' = App.output_folder_label a
    /\ snd (App.convert_btn a') = snd (App.convert_btn a).
Proof.
  induction files as [ | p files IH]; intros a; cbv zeta.
  - cbn. repeat split. lia.
  - destruct (App.list_files w json_loads (p :: files) a) as [r a'] eqn:E.
    cbn [App.list_files] in E. unfold Eff.bind at 1, App.on_os in E.
    destruct (detect_format w json_loads p (App.os a)) as [[f | e] m1].
    + unfold Eff.bind at 1, App.update at 1 in E.
      set (a1 := App.set_files_listbox _ _) in E.
      specialize (IH a1). cbv zeta in IH. rewrite E in IH.
      cbn [snd length] in *. subst a1. cbn in IH.
      rewrite length_app in IH. cbn in IH.
      destruct IH as (L & K). split; [ lia | exact K ].
    + injection E as <- <-. cbn. repeat split. lia.
Qed.

Lemma select_files_invariant (w : world) (json_loads : string -> option json)
      (files : list string) (a : App.app) :
  window_invariant a ->
  window_invariant (snd (App.select_files w json_loads files a)).
Proof.
  intros I. destruct files as [ | p files]; [ exact I | ].
  destruct (App.select_files w json_loads (p :: files) a) as [r a'] eqn:E.
  unfold App.select_files in E.
  unfold Eff.bind at 1, App.update at 1 in E.
  unfold Eff.bind at 1, App.update_files_listbox in E.
  unfold Eff.bind at 1, App.update at 1 in E.
  unfold Eff.bind at 1, App.read at 1 in E.
  cbn [App.selected_files App.set_files_listbox App.set_selected_files] in E.
  set (a1 := App.set_files_listbox _ _) in E.
  pose proof (list_files_length w json_loads (p :: files) a1) as K.
  cbv zeta in K.
  assert (I1 : window_invariant
                 (snd (App.list_files w json_loads (p :: files) a1))).
  { destruct K as (L & K1 & K2 & K3 & K4 & K5).
    destruct I as (J1 & J2 & J3 & J4).
    unfold window_invariant. rewrite K1, K2, K3, K4, K5.
    subst a1. cbn in *. repeat split; auto.
    - discriminate.
    - now apply J1. }
  destruct (App.list_files w json_loads (p :: files) a1) as [[[] | e] a2];
    cbn [snd] in *.
  - eapply keeps_invariant; [ exact I1 | ].
    replace a' with (snd (App.check_conversion_ready w a2))
      by now rewrite E.
    apply check_conversion_ready_session.
  - now injection E as <- <-.
Qed.

Lemma select_output_folder_invariant (w : world) (folder : string)
      (a : App.app) :
  window_invariant a ->
  window_invariant (snd (App.select_output_folder w folder a)).
Proof.
  intros I. unfold App.select_output_folder.
  destruct (String.eqb_spec folder "") as [ | Hn]; [ exact I | ].
  cbn [negb]. unfold Eff.bind at 1, App.update at 1.
  unfold Eff.bind at 1, App.update at 1.
  eapply keeps_invariant; [ | apply check_conversion_ready_session ].
  destruct I as (J1 & J2 & J3 & J4). unfold window_invariant. cbn.
  repeat split; auto.
  - now apply J1.
  - destruct (String.eqb_spec folder ""); [ contradiction | reflexivity ].
Qed.

Lemma start_conversion_invariant (a : App.app) :
  window_invariant a -> window_invariant (snd (App.start_conversion a)).
Proof.
  intros I. unfold App.start_conversion, Eff.bind, App.read, App.update,
              App.show.
  destruct I as (J1 & J2 & J3 & J4).
  destruct (App.selected_files a) as [ | p files] eqn:Hs; cbn.
  - unfold window_invariant. cbn. rewrite Hs.
    repeat split; auto; now apply J1.
  - destruct (String.eqb (App.output_folder a) "") eqn:Ho; cbn.
    + unfold window_invariant. cbn. rewrite Hs, Ho.
      repeat split; auto; now apply J1.
    + unfold window_invariant. cbn. rewrite Hs, Ho.
      repeat split; auto; try discriminate.
      * now apply String.eqb_neq.
      * intros _ H. now destruct (App.conversion_threads a).
Qed.

Lemma dispatch_invariant (c : tk_call) (a : App.app) :
  window_invariant a -> window_invariant (snd (App.dispatch c a)).
Proof.
  intros (J1 & J2 & J3 & J4).
  destruct c as [m | | e]; unfold window_invariant; cbn;
    repeat split; auto; try discriminate; now apply J1.
Qed.

Lemma on_closing_session (alive : nat -> bool) (response : bool)
      (a : App.app) :
  same_session a (snd (App.on_closing alive response a)).
Proof.
  unfold App.on_closing, Eff.bind at 1, App.read.
  unfold Eff.bind. rewrite ask_running_spec. cbv zeta.
  destruct (existsb alive _); destruct response; cbn; repeat split.
Qed.

Lemma handle_invariant (w : world) (json_loads : string -> option json)
      (ev : App.event) (a : App.app) :
  window_invariant a ->
  window_invariant (snd (App.handle w json_loads ev a)).
Proof.
  intros I. destruct ev; cbn [App.handle].
  - now apply select_files_invariant.
  - now apply select_output_folder_invariant.
  - destruct I as (J1 & J2 & J3 & J4). repeat split; auto; now apply J1.
  - now apply start_conversion_invariant.
  - eapply keeps_invariant; [ exact I | apply app_install_ffmpeg_session ].
  - eapply keeps_invariant; [ exact I | apply check_ffmpeg_status_session ].
  - eapply keeps_invariant; [ exact I | apply update_ffmpeg_status_session ].
  - eapply keeps_invariant;
      [ exact I | apply ffmpeg_install_complete_session ].
  - eapply keeps_invariant; [ exact I | apply ffmpeg_install_error_session ].
  - now apply dispatch_invariant.
  - eapply keeps_invariant; [ exact I | apply on_closing_session ].
Qed.

(** X25.  Whatever happens to the window after it was opened, and whatever the
    machine answers at each time: a worker was only ever started with
    files selected and an output folder chosen, and neither was taken back
    since; the Start button shows a running conversion only if a worker
    was started; the folder label shows the chosen folder; and the listbox
    has at most one entry per selected file. *)
Theorem window_keeps_its_invariant (json_loads : string -> option json)
        (evs : list (world * App.event)) (m : machine) :
  window_invariant (App.after_events json_loads evs (App.initial m)).
Proof.
  assert (G : forall a, window_invariant a ->
                        window_invariant (App.after_events json_loads evs a)).
  { induction evs as [ | [w ev] evs IH]; intros a I; [ exact I | ].
    cbn [App.after_events]. apply IH. now apply handle_invariant. }
  apply G. unfold window_invariant. cbn.
  repeat split; try discriminate; auto.
Qed.

(* ================================================================== *)
(** * The commands of a batch *)
(* ================================================================== *)

Lemma convert_files_popen (float : string -> option Q) (envs : nat -> job_env)
      (output_folder output_format : string) (selected_files : list string) :
  forall (i : nat) (st : state),
    tk_alive (gui st) = None ->
    (forall j, (i <= j < i + length selected_files)%nat ->
               Forall (fun e => is_exception e = true) (env_faults (envs j))) ->
    popen_calls
      (snd (convert_files float envs output_folder output_format i
                          selected_files st))
    = popen_calls st ++ map (job_cmd output_folder output_format)
                            selected_files.
Proof.
  induction selected_files as [ | input_file files IH]; intros i st Ha Hf.
  - cbn. now rewrite app_nil_r.
  - destruct (convert_files float envs output_folder output_format i
                            (input_file :: files) st) as [r st'] eqn:E.
    cbn [convert_files] in E. unfold bind at 1 in E.
    rewrite root_after_alive in E by exact Ha.
    set (filename := OsPath.basename input_file) in E.
    set (st1 := mkState _ _ _ _ _) in E.
    set (output_file := OsPath.join _ _) in E.
    assert (Ha1 : tk_alive (gui st1) = None) by reflexivity.
    unfold bind at 1 in E.
    destruct (@convert_video_returns float (envs i) input_file output_file
                output_format _ st1
                (Hf i ltac:(cbn; lia)) progress_callback_raises_exceptions)
      as [b Hb].
    destruct (@convert_video_queue float (envs i) input_file output_file
                output_format st1 Ha1) as (Ha2 & _).
    pose proof (convert_video_popen float (envs i) input_file output_file
                  output_format
                  (Some (fun percent => after (LogProgress (Progress percent))))
                  st1) as Hp.
    destruct (convert_video _ _ _ _ _ _ st1) as [r1 st2]. cbn [fst snd] in *.
    subst r1. unfold bind at 1 in E.
    set (outcome := if b then LogProgress (Converted filename)
                    else LogProgress (FailedToConvert filename)) in *.
    assert (Hout : (if b then root_after (LogProgress (Converted filename))
                    else root_after (LogProgress (FailedToConvert filename)))
                     st2
                   = root_after outcome st2) by now destruct b.
    rewrite Hout, root_after_alive in E by exact Ha2.
    set (st3 := mkState _ _ _ _ _) in E.
    specialize (IH (S i) st3 eq_refl).
    rewrite E in IH. cbn [snd] in IH. rewrite IH.
    + subst st3. cbn [popen_calls]. rewrite Hp. subst st1.
      cbn [popen_calls map]. now rewrite <- app_assoc.
    + intros j Hj. apply Hf. cbn. lia.
Qed.

(** X26.  While the window stays and the jobs raise instances of [Exception]
    only, the worker gives one command to [Popen] for every selected file,
    in their order: the command of [convert_video] for that file, with the
    output file in the output folder, named after the input file with the
    output format as its extension. *)
Theorem batch_runs_one_command_per_file (float : string -> option Q)
        (envs : nat -> job_env) (files : list string)
        (output_folder output_format : string) (st : state) :
  tk_alive (gui st) = None ->
  (forall j, (j < length files)%nat ->
             Forall (fun e => is_exception e = true) (env_faults (envs j))) ->
  popen_calls (snd (conversion_thread float envs files output_folder
                                      output_format st))
  = popen_calls st ++ map (job_cmd output_folder output_format) files.
Proof.
  intros Ha Hf.
  pose proof (@convert_files_popen float envs output_folder output_format
                files 0%nat st Ha) as P.
  destruct (@convert_files_spec float envs output_folder output_format
              files 0%nat st Ha)
    as (st1 & new & Hrun & Ha1 & _).
  { intros j Hj. apply Hf. lia. }
  rewrite Hrun in P. cbn [snd] in P.
  unfold conversion_thread, try_except, bind at 1. rewrite Hrun.
  rewrite root_after_alive by exact Ha1. cbn [snd popen_calls].
  apply P. intros j Hj. apply Hf. lia.
Qed.

Lemma batch_runs_one_command_per_file_witness :
  map (fun cmd => last cmd EmptyString)
      (popen_calls (snd (conversion_thread decimal_float Examples.worlds
                                           Examples.files "/home/u/out" "mp4"
                                           (initial_state None))))
  = ["/home/u/out/a.mp4"; "/home/u/out/b.mp4"; "/home/u/out/c.mp4"]%string.
Proof.
  rewrite (@batch_runs_one_command_per_file
             decimal_float Examples.worlds Examples.files
             "/home/u/out"%string "mp4"%string (initial_state None) eq_refl).
  - reflexivity.
  - intros [ | [ | [ | j]]] Hj; cbn in Hj; try lia; repeat constructor.
Defined.

Lemma substring_take (a b : string) :
  substring 0 (String.length a) (a ++ b) = a.
Proof.
  induction a as [ | c a IH]; cbn [String.length String.append substring].
  - now destruct b.
  - now rewrite IH.
Qed.

Lemma basename_of_path (d name : string) :
  ~ In "/"%char (list_ascii_of_string name) ->
  OsPath.basename (d ++ "/" ++ name) = name.
Proof.
  intros H. unfold OsPath.basename, OsPath.rfind, OsPath.len, OsPath.slice.
  change ("/" ++ name)%string with (String "/" name).
  rewrite rfind_from_last by (lia || assumption).
  rewrite length_append. cbn [String.length].
  replace (Z.to_nat (0 + Z.of_nat (String.length d) + 1))
    with (String.length (d ++ "/")) by (rewrite length_append; cbn; lia).
  replace (Z.to_nat (Z.of_nat (String.length d + S (String.length name))
                     - (0 + Z.of_nat (String.length d) + 1)))
    with (String.length name) by lia.
  replace (d ++ String "/" name)%string with ((d ++ "/") ++ name)%string.
  - apply substring_drop.
  - clear. induction d; cbn; congruence.
Qed.

Lemma all_dots_nonempty (s : string) :
  OsPath.all_dots s = false -> s <> EmptyString.
Proof. now intros H ->. Qed.

Lemma splitext_of_name (stem e : string) :
  OsPath.all_dots stem = false ->
  ~ In "/"%char (list_ascii_of_string stem) ->
  ~ In "/"%char (list_ascii_of_string e) ->
  ~ In "."%char (list_ascii_of_string e) ->
  OsPath.splitext (stem ++ "." ++ e) = (stem, ("." ++ e)%string).
Proof.
  intros Hd Hs He Hed. unfold OsPath.splitext, OsPath.rfind. cbv zeta.
  change ("." ++ e)%string with (String "." e).
  rewrite (@rfind_from_none "/" (stem ++ String "." e) 0).
  2:{ rewrite list_ascii_app. cbn [list_ascii_of_string]. intros H.
      apply in_app_or in H as [H | [H | H]];
        [ contradiction | discriminate | contradiction ]. }
  rewrite rfind_from_last by (lia || assumption).
  unfold OsPath.slice, OsPath.len. rewrite length_append.
  cbn [String.length].
  replace (-1 <? 0 + Z.of_nat (String.length stem))%Z with true
    by (symmetry; apply Z.ltb_lt; lia).
  replace (Z.to_nat (-1 + 1)) with 0%nat by reflexivity.
  replace (Z.to_nat (0 + Z.of_nat (String.length stem) - (-1 + 1)))
    with (String.length stem) by lia.
  replace (Z.to_nat 0) with 0%nat by reflexivity.
  replace (Z.to_nat (0 + Z.of_nat (String.length stem) - 0))
    with (String.length stem) by lia.
  rewrite substring_take, Hd. cbn [andb negb].
  replace (Z.to_nat (0 + Z.of_nat (String.length stem)))
    with (String.length stem) by lia.
  replace (Z.to_nat (Z.of_nat (String.length stem + S (String.length e))
                     - (0 + Z.of_nat (String.length stem))))
    with (String.length (String "." e)) by (cbn [String.length]; lia).
  now rewrite substring_drop.
Qed.

Lemma job_cmd_of_path (output_folder output_format d stem e : string) :
  OsPath.all_dots stem = false ->
  ~ In "/"%char (list_ascii_of_string stem) ->
  ~ In "/"%char (list_ascii_of_string e) ->
  ~ In "."%char (list_ascii_of_string e) ->
  job_cmd output_folder output_format (d ++ "/" ++ stem ++ "." ++ e)
  = convert_video_cmd
      (d ++ "/" ++ stem ++ "." ++ e)
      (OsPath.join output_folder (stem ++ "." ++ output_format))
      output_format.
Proof.
  intros Hd Hs He Hed. unfold job_cmd. cbv zeta.
  rewrite basename_of_path.
  - now rewrite splitext_of_name.
  - rewrite list_ascii_app. change ("." ++ e)%string with (String "." e).
    cbn [list_ascii_of_string]. intros H.
    apply in_app_or in H as [H | [H | H]];
      [ contradiction | discriminate | contradiction ].
Qed.

(** X27.  The output file of a job is named after the stem of the input file
    alone: files with the same stem, from whatever folders and with
    whatever extensions, are converted to the same output file. *)
Theorem same_stem_same_output_file (output_folder output_format : string)
        (d1 d2 stem e1 e2 : string) :
  OsPath.all_dots stem = false ->
  ~ In "/"%char (list_ascii_of_string stem) ->
  ~ In "/"%char (list_ascii_of_string e1) ->
  ~ In "."%char (list_ascii_of_string e1) ->
  ~ In "/"%char (list_ascii_of_string e2) ->
  ~ In "."%char (list_ascii_of_string e2) ->
  let output_file :=
    OsPath.join output_folder (stem ++ "." ++ output_format) in
  job_cmd output_folder output_format (d1 ++ "/" ++ stem ++ "." ++ e1)
  = convert_video_cmd (d1 ++ "/" ++ stem ++ "." ++ e1) output_file
                      output_format
  /\ job_cmd output_folder output_format (d2 ++ "/" ++ stem ++ "." ++ e2)
     = convert_video_cmd (d2 ++ "/" ++ stem ++ "." ++ e2) output_file
                         output_format.
Proof.
  intros. cbv zeta. split; now apply job_cmd_of_path.
Qed.

Lemma same_stem_same_output_file_witness :
  job_cmd "/home/u/out" "mp4" "/home/u/videos/holiday.avi"
  = convert_video_cmd "/home/u/videos/holiday.avi" "/home/u/out/holiday.mp4"
                      "mp4"
  /\ job_cmd "/home/u/out" "mp4" "/media/camera/holiday.mov"
     = convert_video_cmd "/media/camera/holiday.mov"
                         "/home/u/out/holiday.mp4" "mp4".
Proof.
  apply (@same_stem_same_output_file
           "/home/u/out" "mp4" "/home/u/videos" "/media/camera" "holiday"
           "avi" "mov");
    try reflexivity; cbn; intuition discriminate.
Defined.

Lemma join_plain (a b : string) :
  a <> EmptyString ->
  OsPath.endswith_sep a = false ->
  prefix "/" b = false ->
  OsPath.join a b = (a ++ "/" ++ b)%string.
Proof.
  intros Ha He Hb. unfold OsPath.join. rewrite Hb, He.
  destruct (String.eqb_spec a ""); [ contradiction | reflexivity ].
Qed.

(** X28.  A file of the output folder that is converted to the format of its
    own extension is both the input and the output of its command:
    [ffmpeg] is told to overwrite the file it reads. *)
Theorem conversion_in_place_overwrites_input (folder stem e : string) :
  folder <> EmptyString ->
  OsPath.endswith_sep folder = false ->
  OsPath.all_dots stem = false ->
  ~ In "/"%char (list_ascii_of_string stem) ->
  ~ In "/"%char (list_ascii_of_string e) ->
  ~ In "."%char (list_ascii_of_string e) ->
  let input_file := (folder ++ "/" ++ stem ++ "." ++ e)%string in
  job_cmd folder e input_file = convert_video_cmd input_file input_file e
  /\ nth 2 (job_cmd folder e input_file) EmptyString = input_file
  /\ last (job_cmd folder e input_file) EmptyString = input_file
  /\ In "-y"%string (job_cmd folder e input_file).
Proof.
  intros Hf Hsep Hd Hs He Hed. cbv zeta.
  rewrite job_cmd_of_path by assumption.
  rewrite join_plain; try assumption.
  - split; [ reflexivity | ].
    unfold convert_video_cmd. cbv zeta.
    destruct (String.eqb (lower e) "webm");
      [ | destruct (existsb _ _) ]; cbn; tauto.
  - destruct stem as [ | c stem]; [ discriminate | ].
    cbn [String.append prefix].
    destruct (ascii_dec "/" c) as [<- | _]; [ | reflexivity ].
    exfalso. apply Hs. now left.
Qed.

Lemma conversion_in_place_witness :
  job_cmd "/home/u/videos" "mp4" "/home/u/videos/a.mp4"
  = convert_video_cmd "/home/u/videos/a.mp4" "/home/u/videos/a.mp4" "mp4".
Proof.
  apply (@conversion_in_place_overwrites_input "/home/u/videos" "a" "mp4");
    try reflexivity; try discriminate; cbn; intuition discriminate.
Defined.
